(** * zip-worker: the edge search proxy, embedded and verified

    The worker of [src/unnamed/part_002] (the MongoDB-driver variant with the
    edge cache) is embedded function by function, and after it the query
    string and the handler of [src/unnamed/part_001] (the data-API variant).
    JavaScript values are modelled as follows.

    - A JavaScript string is a [string]; every character stands for one code
      unit, so [String.length] is the [.length] of the source.  The strings
      of the model have code units below 256.  Where the width of a code unit
      matters, in [encodeURIComponent], a string is the list of its 16-bit
      code units.
    - [string | null] is [option string], [None] being [null].
    - A JavaScript number that holds an integer is a [Z]; the model is exact
      on the range in which doubles are exact integers
      ([Number_MAX_SAFE_INTEGER]), and a statement about the value or the
      text of a number carries that range as a hypothesis.  [NaN] is the
      [None] of [option Z].
    - Plain objects used as records (headers, documents, JSON objects) are
      association lists, in property order.
    - [new Response] always returns in the model.  The platform throws a
      TypeError on a header value that holds a line break, so a statement
      that every run returns carries the hypothesis that the configured
      domain is printable.
    - The platform cache ([caches.default]) is a finite map from the URL of
      the cache key to the stored response.  The URL of a [Request] is the
      serialization that the platform's URL parser gives to the string the
      request is built from; the parser is a function of the platform, of
      which nothing is assumed.
    - [async] functions run to completion in one step, so a run of the
      handler is not interleaved with another; a rejected promise and a
      thrown exception are the same [Throw] result.
    - The calls of the worker to its collaborators (cache lookup, cache
      store, the three driver calls) are recorded in a trace; [console.log]
      is left out.
    - The MongoDB driver and server are a collaborator, not code of the
      worker: [find], [project] and [limit] are given their documented
      meaning on a list of documents, the regular-expression matcher is a
      field of the deployment, and whether the constructor of the client
      accepts a connection string is a predicate of the platform.  *)

From Stdlib Require Import Ascii String Decimal DecimalString DecimalPos.
From stdpp Require Import base option list strings gmap.

Local Open Scope string_scope.
Local Open Scope Z_scope.

(** ** JavaScript values *)

Module JS.

(** The largest integer n such that n and n+1 are both exact doubles. *)
Definition Number_MAX_SAFE_INTEGER : Z := 2 ^ 53 - 1.

(** [Number.prototype.toString] on an exact integer: its decimal digits,
    after a minus sign when it is negative. *)
Definition Number_toString (n : Z) : string :=
  NilZero.string_of_int (Z.to_int n).

(** Truthiness of a [string | null]: [null] and the empty string are falsy. *)
Definition truthy (v : option string) : bool :=
  match v with
  | Some s => negb (String.eqb s "")
  | None => false
  end.

(** [a ?? b] on [string | null]. *)
Definition nullish (a b : option string) : option string :=
  match a with
  | Some _ => a
  | None => b
  end.

(** [Error] and [TypeError] objects, by their message; the URIError of the
    engine, whose message is the engine's. *)
Inductive Error : Type :=
| Error_ (message : string)
| TypeError (message : string)
| URIError.

(** The outcome of running a block: a value, or a thrown error. *)
Inductive Result (A : Type) : Type :=
| Return (a : A)
| Throw (e : Error).
Arguments Return {A} a.
Arguments Throw {A} e.

(** The two results of [detectEdgeCases]. *)
Inductive NullOrUndefined : Type := null | undefined.

End JS.
Export JS.

(** ** JSON values and [JSON.stringify] *)

#[warnings="-register-all"]
Inductive JSON : Type :=
| JNull
| JBool (b : bool)
| JNumber (n : Z)
| JString (s : string)
| JArray (items : list JSON)
| JObject (properties : list (string * JSON)).

(** Truthiness of a parsed JSON value: [null], [false], [0] and the empty
    string are falsy, arrays and objects are truthy. *)
Definition JSON_truthy (v : JSON) : bool :=
  match v with
  | JNull => false
  | JBool b => b
  | JNumber n => negb (n =? 0)
  | JString s => negb (String.eqb s "")
  | JArray _ | JObject _ => true
  end.

(** The double quote, code unit 34. *)
Definition dquote : ascii := ascii_of_N 34.

Definition hex_digit (n : N) : ascii :=
  match n with
  | 0 => "0" | 1 => "1" | 2 => "2" | 3 => "3" | 4 => "4" | 5 => "5"
  | 6 => "6" | 7 => "7" | 8 => "8" | 9 => "9" | 10 => "a" | 11 => "b"
  | 12 => "c" | 13 => "d" | 14 => "e" | _ => "f"
  end%N%char.

(** One code unit inside a JSON string (QuoteJSONString of ECMA-262): the
    short escapes, then [\u00xx] for the other control characters. *)
Definition quote_code_unit (c : ascii) : string :=
  let n := N_of_ascii c in
  if (n =? 8)%N then "\b"
  else if (n =? 9)%N then "\t"
  else if (n =? 10)%N then "\n"
  else if (n =? 12)%N then "\f"
  else if (n =? 13)%N then "\r"
  else if (n =? 34)%N then String "\" (String c "")
  else if (n =? 92)%N then "\\"
  else if (n <? 32)%N then
    "\u00" ++ String (hex_digit (n / 16)) (String (hex_digit (n mod 16)) "")
  else String c "".

Fixpoint quote_code_units (s : string) : string :=
  match s with
  | EmptyString => ""
  | String c rest => quote_code_unit c ++ quote_code_units rest
  end.

Definition QuoteJSONString (s : string) : string :=
  String dquote (quote_code_units s ++ String dquote "").

Fixpoint join (sep : string) (parts : list string) : string :=
  match parts with
  | [] => ""
  | [p] => p
  | p :: rest => p ++ sep ++ join sep rest
  end.

Fixpoint JSON_stringify (v : JSON) : string :=
  match v with
  | JNull => "null"
  | JBool true => "true"
  | JBool false => "false"
  | JNumber n => Number_toString n
  | JString s => QuoteJSONString s
  | JArray items => "[" ++ join "," (List.map JSON_stringify items) ++ "]"
  | JObject properties =>
      "{" ++ join ","
               (List.map (fun p => QuoteJSONString (fst p) ++ ":" ++ JSON_stringify (snd p))
                         properties)
          ++ "}"
  end.

(** ** [parseInt(string, 10)] and [isNaN] *)

(** The white space that [parseInt] skips, among one-byte code units: TAB, LF,
    VT, FF, CR, SP and NBSP. *)
Definition is_StrWhiteSpaceChar (c : ascii) : bool :=
  let n := N_of_ascii c in
  ((9 <=? n) && (n <=? 13) || (n =? 32) || (n =? 160))%N.

Fixpoint trim_start (s : string) : string :=
  match s with
  | String c rest => if is_StrWhiteSpaceChar c then trim_start rest else s
  | EmptyString => s
  end.

Definition digit_value (c : ascii) : option Z :=
  let n := N_of_ascii c in
  if ((48 <=? n) && (n <=? 57))%N then Some (Z.of_N n - 48) else None.

(** The value of the longest run of decimal digits at the head of [s], read
    after the digits whose value is [acc]. *)
Fixpoint parse_digits (acc : Z) (s : string) : Z :=
  match s with
  | String c rest =>
      match digit_value c with
      | Some d => parse_digits (10 * acc + d) rest
      | None => acc
      end
  | EmptyString => acc
  end.

(** The sign of the numeral: one leading minus or plus is consumed. *)
Definition read_sign (s : string) : Z * string :=
  match s with
  | String "-" rest => (-1, rest)
  | String "+" rest => (1, rest)
  | _ => (1, s)
  end.

(** [parseInt(s, 10)]: leading white space is skipped, one sign is read, then
    the longest run of decimal digits; what follows the run is ignored.  With
    no digit the result is NaN.  The result is the integer that the digits
    denote; the source rounds it to a double when it is beyond the exact
    integers. *)
Definition parseInt10 (s : string) : option Z :=
  let '(sign, numeral) := read_sign (trim_start s) in
  match numeral with
  | String c rest =>
      match digit_value c with
      | Some d => Some (sign * parse_digits d rest)
      | None => None
      end
  | EmptyString => None
  end.

(** [isNaN] on the result of [parseInt]. *)
Definition isNaN (n : option Z) : bool :=
  match n with
  | None => true
  | Some _ => false
  end.

(** ** The platform's HTTP objects *)

(** [get] of [URLSearchParams] and of [Headers] (names in lower case): the
    value of the first entry with that name, [null] when there is none. *)
Fixpoint get {A : Type} (name : string) (entries : list (string * A)) : option A :=
  match entries with
  | [] => None
  | (k, v) :: rest => if String.eqb k name then Some v else get name rest
  end.

(** The incoming [Request], as far as the worker reads it. *)
Record Request : Type := {
  method : string;
  (** [new URL(request.url).searchParams] *)
  searchParams : list (string * string);
  request_headers : list (string * string);
}.

(** [interface Env], lines 11-15. *)
Record Env : Type := {
  MONGODB_URI : string;
  DOMAIN : string;
  CACHE_TTL : string;
}.

(** The body of a response.  [BodyJSON v] is the text [JSON.stringify(v)],
    kept as the value it denotes so that [json()] gives [v] back; [BodyText]
    carries a plain message that is not a JSON text, as the three messages of
    this worker. *)
Inductive Body : Type :=
| BodyNull
| BodyText (message : string)
| BodyJSON (value : JSON).

(** A [Response]: status, body and headers. *)
Record Response : Type := {
  status : Z;
  body : Body;
  headers : list (string * string);
}.

(** The text of the body, as sent on the wire. *)
Definition Response_text (r : Response) : string :=
  match body r with
  | BodyNull => ""
  | BodyText message => message
  | BodyJSON value => JSON_stringify value
  end.

(** [response.json()]: fails on an empty body and on a plain message. *)
Definition Response_json (r : Response) : Result JSON :=
  match body r with
  | BodyJSON value => Return value
  | BodyNull | BodyText _ => Throw (Error_ "SyntaxError")
  end.

(** ** The worker: pure helpers *)

(** [type AutoCompleteFlag = 0 | 1], line 17. *)
Inductive AutoCompleteFlag : Type := Zero | One.

(** [type SearchQuery], lines 19-22. *)
Record SearchQuery : Type := {
  search : string;
  autocomplete : AutoCompleteFlag;
}.

(** A document of the collection: its fields, in stored order. *)
Definition Document : Type := list (string * JSON).

(** [type SearchResult], lines 24-27.  The source casts the projected
    documents to this type without a check, so a result is a document. *)
Definition SearchResult : Type := Document.

(** [type Origin = string | null], line 29. *)
Definition Origin : Type := option string.

(** [buildResponse], lines 31-39; [headers ?? { 'content-type': 'text/plain' }]. *)
Definition buildResponse (status : Z) (message : Body)
    (headers : option (list (string * string))) : Response :=
  {| status := status;
     body := message;
     headers := match headers with
                | Some h => h
                | None => [("content-type", "text/plain")]
                end |}.

(** [setCorsHeaders], lines 92-96. *)
Definition setCorsHeaders (origin : string) : list (string * string) :=
  [ ("access-control-allow-origin", origin);
    ("access-control-allow-methods", "GET, HEAD, OPTIONS");
    ("access-control-max-age", "86400") ].

(** [buildResultsResponse], lines 50-57.  The spread
    [...(origin ? setCorsHeaders(origin) : {})] adds the CORS headers when
    [origin] is truthy.  [results] is any parsed JSON value: on a cache hit it
    is what [processResults] returns. *)
Definition buildResultsResponse (results : JSON) (origin : Origin) (cacheTtl : Z) : Response :=
  let headers :=
    ([ ("content-type", "application/json");
       ("cache-control",
        ("public, maxage=" ++ Number_toString cacheTtl ++ ", immutable")%string) ]
     ++ match origin with
        | Some o => if truthy (Some o) then setCorsHeaders o else []
        | None => []
        end)%list in
  buildResponse 200 (BodyJSON (JObject [("results", results)])) (Some headers).

(** [processResults], lines 59-71; [(await response.json()) || []]. *)
Definition processResults (response : option Response) : Result JSON :=
  match response with
  | None => Throw (Error_ "Unexpected function call")
  | Some response =>
      match Response_json response with
      | Return parsed => Return (if JSON_truthy parsed then parsed else JArray [])
      | Throw _ => Throw (Error_ "Invalid response")
      end
  end.

(** [detectEdgeCases], lines 73-90.  [entry.length] on [null] would be a
    TypeError; the two guards before it leave no such case. *)
Definition detectEdgeCases (params : list (string * string)) : Result NullOrUndefined :=
  let query := get "query" params in
  let search := get "search" params in
  if negb (truthy query) && negb (truthy search) then Throw (Error_ "Bad Request")
  else if truthy query && truthy search then Throw (Error_ "Bad Request")
  else
    let entry :=
      match query with
      | Some q => if (String.length q =? 0)%nat then search else query
      | None => search
      end in
    match entry with
    | None => Throw (TypeError "Cannot read properties of null")
    | Some entry => if (String.length entry <? 3)%nat then Return null else Return undefined
    end.

(** [hasValidOrigin], lines 98-101: [request.headers.get('origin') === env.DOMAIN]. *)
Definition hasValidOrigin (request : Request) (env : Env) : bool :=
  match get "origin" (request_headers request) with
  | Some origin => String.eqb origin (DOMAIN env)
  | None => false
  end.

(** [handleOptions], lines 103-117: the two branches are the same. *)
Definition handleOptions (request : Request) (env : Env) : Response :=
  if hasValidOrigin request env then
    {| status := 200; body := BodyNull; headers := setCorsHeaders (DOMAIN env) |}
  else
    {| status := 200; body := BodyNull; headers := setCorsHeaders (DOMAIN env) |}.

(** [getCacheKey], lines 164-167. *)
Definition getCacheKey (searchQuery : SearchQuery) : string :=
  "zip-search:" ++ search searchQuery.

(** Lines 192-194 of [fetch]: the configured TTL, 300 when [parseInt] gives
    NaN.  It is the number of the source when it is a [safe_integer]. *)
Definition cacheTtl (env : Env) : Z :=
  let cacheTtlValue := parseInt10 (CACHE_TTL env) in
  if isNaN cacheTtlValue then 300 else default 0 cacheTtlValue.

(** Lines 204-210 of [fetch].  After [detectEdgeCases] has returned, one of
    the two parameters is a non-empty string, so [query ?? search] is not
    [null] (lemma [searchQuery_defined]). *)
Definition buildSearchQuery (params : list (string * string)) : SearchQuery :=
  let query := get "query" params in
  let search := get "search" params in
  {| search := default "" (nullish query search);
     autocomplete := match query with Some _ => One | None => Zero end |}.

(** ** Effects: the edge cache, the MongoDB deployment, and the trace *)

(** A MongoDB deployment, as the driver sees it. *)
Record MongoServer : Type := {
  (** The matcher of [{ $regex: pattern, $options: 'i' }]; [None] when the
      server rejects the pattern. *)
  regex : string -> option (string -> bool);
  (** The documents of collection zip in database zip, in natural order. *)
  zip_collection : list Document;
}.

(** The calls of the worker to the cache and to the driver.  A cache call
    carries the string from which the worker built the [Request] it passes
    as the key. *)
Inductive Event : Type :=
| CacheMatch (key : string)
| CachePut (key : string) (response : Response)
| MongoConnect (uri : string)
| MongoFind (pattern : string) (limit : nat)
| MongoClose (uri : string).

(** What the worker runs against. *)
Record World : Type := {
  (** [caches.default], keyed by the URL of the cache key *)
  cache : gmap string Response;
  (** the deployment behind a connection string; [None] when the client
      cannot connect *)
  mongodb : string -> option MongoServer;
  (** what the worker did to its collaborators, oldest first *)
  trace : list Event;
  (** [new Request(input).url]: the serialization that the URL parser of the
      platform gives to an absolute URL string *)
  Request_url : string -> string;
  (** whether [new MongoClient(uri)] accepts the connection string *)
  MongoClient_accepts : string -> bool;
  (** the error that the constructor throws on a connection string that it
      does not accept *)
  MongoParseError : string -> Error;
}.

(** A computation of the worker: it reads and changes the world, and returns
    or throws. *)
Definition M (A : Type) : Type := World -> Result A * World.

#[global] Instance M_ret : MRet M := λ A a w, (Return a, w).

#[global] Instance M_bind : MBind M := λ A B f m w,
  match m w with
  | (Return a, w') => f a w'
  | (Throw e, w') => (Throw e, w')
  end.

(** [throw e] *)
Definition throw {A : Type} (e : Error) : M A := λ w, (Throw e, w).

(** [try { body } catch (e) { handler(e) }] *)
Definition try_catch {A : Type} (body : M A) (handler : Error -> M A) : M A := λ w,
  match body w with
  | (Return a, w') => (Return a, w')
  | (Throw e, w') => handler e w'
  end.

(** [try { body } finally { finalizer }]: the finalizer runs on both exits,
    and an error of its own replaces the outcome of the body. *)
Definition try_finally {A : Type} (body : M A) (finalizer : M unit) : M A := λ w,
  let '(outcome, w') := body w in
  match finalizer w' with
  | (Return _, w'') => (outcome, w'')
  | (Throw e, w'') => (Throw e, w'')
  end.

(** Records one call in the trace. *)
Definition emit (e : Event) : M unit := λ w,
  (Return (),
   {| cache := cache w; mongodb := mongodb w; trace := trace w ++ [e];
      Request_url := Request_url w; MongoClient_accepts := MongoClient_accepts w;
     MongoParseError := MongoParseError w |}).

(** [await cache.match(cacheKey)], the key being the [Request] built from the
    string [key]: the entry under the URL of that request. *)
Definition cache_match (key : string) : M (option Response) := λ w,
  match emit (CacheMatch key) w with
  | (_, w') => (Return (cache w !! Request_url w key), w')
  end.

(** [ctx.waitUntil(cache.put(cacheKey, response.clone()))]: the store is
    started and not awaited; the entry is in the cache, under the URL of the
    key, when it completes. *)
Definition waitUntil_cache_put (key : string) (response : Response) : M unit := λ w,
  (Return (),
   {| cache := <[Request_url w key := response]> (cache w);
      mongodb := mongodb w;
      trace := trace w ++ [CachePut key response];
      Request_url := Request_url w;
      MongoClient_accepts := MongoClient_accepts w;
     MongoParseError := MongoParseError w |}).

(** [new MongoClient(uri)]: the constructor parses the connection string and
    contacts nothing; the client is known by its connection string. *)
Definition MongoClient_new (uri : string) : M string := λ w,
  if MongoClient_accepts w uri then (Return uri, w)
  else (Throw (MongoParseError w uri), w).

(** [await client.connect()] *)
Definition MongoClient_connect (uri : string) : M MongoServer := λ w,
  match emit (MongoConnect uri) w with
  | (_, w') =>
      match mongodb w uri with
      | Some server => (Return server, w')
      | None => (Throw (Error_ "MongoNetworkError"), w')
      end
  end.

(** [await client.close()] *)
Definition MongoClient_close (uri : string) : M unit :=
  emit (MongoClose uri).

(** [{ _id: 0, name: 1, zip: 1 }]: the fields kept by the projection. *)
Definition projection : list string := ["name"; "zip"].

(** An inclusion projection keeps the listed fields, in document order. *)
Definition project (fields : list string) (d : Document) : Document :=
  List.filter (λ p, existsb (String.eqb (fst p)) fields) d.

(** The filter [{ name: { $regex, $options } }]: the name is a string that
    matches, or an array with such a string. *)
Definition name_matches (re : string -> bool) (d : Document) : bool :=
  match get "name" d with
  | Some (JString name) => re name
  | Some (JArray items) =>
      existsb (λ item, match item with JString name => re name | _ => false end) items
  | _ => false
  end.

(** The documents that [find(query).project(fields).limit(limit)] selects:
    those whose name matches, projected, at most [limit] of them; [None] when
    the server rejects the pattern. *)
Definition find_documents (server : MongoServer) (pattern : string)
    (fields : list string) (limit : nat) : option (list Document) :=
  match regex server pattern with
  | Some re =>
      Some (take limit (project fields <$> List.filter (name_matches re) (zip_collection server)))
  | None => None
  end.

(** [await collection.find({ name: { $regex, $options: 'i' } })
      .project(projection).limit(limit).toArray()] *)
Definition Collection_find (server : MongoServer) (pattern : string)
    (fields : list string) (limit : nat) : M (list Document) := λ w,
  match emit (MongoFind pattern limit) w with
  | (_, w') =>
      match find_documents server pattern fields limit with
      | Some documents => (Return documents, w')
      | None => (Throw (Error_ "MongoServerError"), w')
      end
  end.

(** ** The worker: the search and the request handler *)

(** [searchZipCodes], lines 126-159.  The client is made on line 131, before
    the [try]: an error of the constructor is neither caught nor followed by
    the [finally] block. *)
Definition searchZipCodes (searchTerm : string) (isAutocomplete : bool)
    (mongoUri : string) : M (list SearchResult) :=
  client ← MongoClient_new mongoUri;
  try_finally
    (try_catch
       (server ← MongoClient_connect client;
        let limit := if isAutocomplete then 10%nat else 50%nat in
        results ← Collection_find server searchTerm projection limit;
        mret results)
       (λ error, throw (Error_ "Database query failed")))
    (MongoClient_close client).

(** [fetch], lines 170-247. *)
Definition fetch (request : Request) (env : Env) : M Response :=
  if String.eqb (method request) "OPTIONS" then
    mret (handleOptions request env)
  else if negb (existsb (String.eqb (method request)) ["GET"; "HEAD"]) then
    mret (buildResponse 405 (BodyText "Method Not Allowed") None)
  else
    let params := searchParams request in
    let origin : Origin := if hasValidOrigin request env then Some (DOMAIN env) else None in
    if String.eqb (method request) "HEAD" then
      mret (buildResponse 200 BodyNull (Some (setCorsHeaders (DOMAIN env))))
    else
      let cacheTtl := cacheTtl env in
      match detectEdgeCases params with
      | Throw e => mret (buildResponse 400 (BodyText "Bad Request") None)
      | Return null => mret (buildResultsResponse (JArray []) origin cacheTtl)
      | Return undefined =>
          let searchQuery := buildSearchQuery params in
          let cacheKey := "https://cache.internal/" ++ getCacheKey searchQuery in
          cachedResponse ← cache_match cacheKey;
          match cachedResponse with
          | None =>
              try_catch
                (results ← searchZipCodes (search searchQuery)
                             (match autocomplete searchQuery with One => true | Zero => false end)
                             (MONGODB_URI env);
                 let response :=
                   buildResultsResponse (JArray (JObject <$> results)) origin cacheTtl in
                 waitUntil_cache_put cacheKey response;;
                 mret response)
                (λ error, mret (buildResponse 500 (BodyText "Internal Server Error") None))
          | Some _ =>
              match processResults cachedResponse with
              | Return results => mret (buildResultsResponse results origin cacheTtl)
              | Throw e => throw e
              end
          end
      end.

(** ** A sample deployment, for the concrete runs *)

Module Sample.

(** ASCII lower case, for the sample matcher. *)
Definition lower (c : ascii) : ascii :=
  let n := N_of_ascii c in
  if ((65 <=? n) && (n <=? 90))%N then ascii_of_N (n + 32) else c.

Fixpoint lowercase (s : string) : string :=
  match s with
  | String c rest => String (lower c) (lowercase rest)
  | EmptyString => EmptyString
  end.

Fixpoint contains (needle hay : string) : bool :=
  String.prefix needle hay
  || match hay with
     | String _ rest => contains needle rest
     | EmptyString => false
     end.

(** A matcher for patterns without metacharacters: the pattern occurs in the
    subject, letter case ignored. *)
Definition literal_regex (pattern : string) : option (string -> bool) :=
  Some (λ subject, contains (lowercase pattern) (lowercase subject)).

(** A stored city: an id, the two fields the worker asks for, and one more. *)
Definition city (zip name : string) : Document :=
  [("_id", JString ("id-" ++ zip)); ("zip", JString zip); ("name", JString name);
   ("population", JNumber 1000)].

Definition cities : list Document :=
  [ city "01001" "Springfield"; city "01002" "Springfield North";
    city "01003" "Springfield South"; city "01004" "West Springfield";
    city "01005" "East Springfield"; city "01006" "Springfield Gardens";
    city "01007" "Springfield Center"; city "01008" "New Springfield";
    city "01009" "Old Springfield"; city "01010" "Springfield Heights";
    city "01011" "Springfield Lake"; city "01012" "Springfield Park";
    city "75001" "Paris" ].

(** Twelve cities match [spring], one matches [paris]. *)
Definition server : MongoServer :=
  {| regex := literal_regex; zip_collection := cities |}.

Definition env : Env :=
  {| MONGODB_URI := "mongodb://db.example/zip";
     DOMAIN := "https://zip.example";
     CACHE_TTL := "600" |}.

(** The platform at start: an empty cache, one deployment in reach.  The
    sample requests are looked up under URLs that the URL parser leaves as
    they are written, and the constructor of the client accepts the strings
    that start with the scheme of a connection string. *)
Definition world : World :=
  {| cache := ∅;
     mongodb := λ uri, if String.eqb uri "mongodb://db.example/zip" then Some server else None;
     trace := [];
     Request_url := λ input, input;
     MongoClient_accepts := String.prefix "mongodb://";
     MongoParseError := λ uri, Error_ "Invalid scheme" |}.

(** The platform after a first full search for [spring]. *)
Definition warm : World :=
  (fetch {| method := "GET"; searchParams := [("search", "spring")]; request_headers := [] |}
     env world).2.

(** The same platform with a plain-text entry under the URL of the search
    for [paris]. *)
Definition stale : World :=
  {| cache := {["https://cache.internal/zip-search:paris" :=
                  buildResponse 200 (BodyText "moved") None]};
     mongodb := mongodb world;
     trace := [];
     Request_url := Request_url world;
     MongoClient_accepts := MongoClient_accepts world;
     MongoParseError := MongoParseError world |}.

(** The same platform with no deployment in reach. *)
Definition offline : World :=
  {| cache := ∅; mongodb := λ uri, None; trace := [];
     Request_url := λ input, input;
     MongoClient_accepts := String.prefix "mongodb://";
     MongoParseError := λ uri, Error_ "Invalid scheme" |}.

(** A GET request with the given parameters and Origin header. *)
Definition GET (params : list (string * string)) (origin : option string) : Request :=
  {| method := "GET";
     searchParams := params;
     request_headers := match origin with Some o => [("origin", o)] | None => [] end |}.

End Sample.

(** ** Observations on a run *)

(** The events a computation adds to the trace of [w]. *)
Definition events {A : Type} (m : M A) (w : World) : list Event :=
  drop (length (trace w)) (trace (m w).2).

(** The events that reach the backend store. *)
Definition backend_event (e : Event) : bool :=
  match e with
  | MongoConnect _ | MongoFind _ _ | MongoClose _ => true
  | CacheMatch _ | CachePut _ _ => false
  end.

(** The string from which [fetch] builds the cache key of a request, lines
    213-216. *)
Definition cacheKey (request : Request) : string :=
  "https://cache.internal/" ++ getCacheKey (buildSearchQuery (searchParams request)).

(** The URL of that cache key: where the cache holds the entry of a
    request. *)
Definition cache_url (w : World) (request : Request) : string :=
  Request_url w (cacheKey request).

(** The [origin] that [fetch] computes on line 186. *)
Definition origin_of (request : Request) (env : Env) : Origin :=
  if hasValidOrigin request env then Some (DOMAIN env) else None.

(** The access-control headers among the headers of a response. *)
Definition cors_headers (h : list (string * string)) : list (string * string) :=
  List.filter (λ p, String.prefix "access-control-" (fst p)) h.

(** The body of the empty result list, [{"results":[]}]. *)
Definition empty_results_text : string :=
  "{" ++ String dquote "results" ++ String dquote ":[]}".

(** ** The vocabulary of the statements *)

(** The world after the lookup of [key]. *)
Definition looked_up (key : string) (w : World) : World :=
  {| cache := cache w; mongodb := mongodb w; trace := trace w ++ [CacheMatch key];
     Request_url := Request_url w; MongoClient_accepts := MongoClient_accepts w;
     MongoParseError := MongoParseError w |}.

(** The world after the calls [l], the cache left as it was. *)
Definition add_events (l : list Event) (w : World) : World :=
  {| cache := cache w; mongodb := mongodb w; trace := trace w ++ l;
     Request_url := Request_url w; MongoClient_accepts := MongoClient_accepts w;
     MongoParseError := MongoParseError w |}.

(** The row limit that [searchZipCodes] sets. *)
Definition row_limit (isAutocomplete : bool) : nat :=
  if isAutocomplete then 10%nat else 50%nat.

(** [searchQuery.autocomplete === 1] *)
Definition is_autocomplete (request : Request) : bool :=
  match autocomplete (buildSearchQuery (searchParams request)) with
  | One => true
  | Zero => false
  end.

(** [searchQuery.search] *)
Definition search_term (request : Request) : string :=
  search (buildSearchQuery (searchParams request)).

(** The answer of [fetch] to a failed search, line 242. *)
Definition internal_server_error : Response :=
  buildResponse 500 (BodyText "Internal Server Error") None.

(** The cache-control header for a TTL, line 53. *)
Definition cache_control (ttl : Z) : string :=
  "public, maxage=" ++ Number_toString ttl ++ ", immutable".

(** The integers that a double holds exactly: on them the numbers of the
    model are the numbers of the source. *)
Definition safe_integer (n : Z) : Prop :=
  - Number_MAX_SAFE_INTEGER ≤ n ≤ Number_MAX_SAFE_INTEGER.

(** A parameter that is not given, or given with an empty value. *)
Definition absent_or_empty (v : option string) : Prop :=
  v = None ∨ v = Some "".

(** A parameter given with a non-empty value. *)
Definition present_nonempty (v : option string) : Prop :=
  ∃ s, v = Some s ∧ s ≠ "".

(** What the configuration is expected to hold: a non-empty run of decimal
    digits, read by the decimal reader of the standard library. *)
Definition nonnegative_integer (s : string) (n : Z) : Prop :=
  s ≠ "" ∧ ∃ u, NilEmpty.uint_of_string s = Some u ∧ n = Z.of_uint u.

(** TAB, LF, VT, FF, CR, SP, NBSP. *)
Definition is_white_space (c : ascii) : Prop :=
  N_of_ascii c ∈ [9; 10; 11; 12; 13; 32; 160]%N.

(** The ten decimal digits. *)
Definition is_digit (c : ascii) : Prop :=
  (48 ≤ N_of_ascii c ≤ 57)%N.

(** The strings in which [parseInt] finds a number: white space, at most one
    sign, a decimal digit, then anything. *)
Definition starts_with_integer (s : string) : Prop :=
  ∃ (ws sign : string) (d : ascii) (rest : string),
    s = ws ++ sign ++ String d rest
    ∧ (∀ c, c ∈ list_ascii_of_string ws → is_white_space c)
    ∧ sign ∈ [""; "+"; "-"]
    ∧ is_digit d.

(** The four paths of a GET request, by the validation result and the cache
    lookup. *)
Inductive Path (request : Request) (w : World) : Prop :=
| Rejected (e : Error)
    (Hd : detectEdgeCases (searchParams request) = Throw e)
| ShortCircuitEmpty
    (Hd : detectEdgeCases (searchParams request) = Return null)
| Hit (cached : Response)
    (Hd : detectEdgeCases (searchParams request) = Return undefined)
    (Hc : cache w !! cache_url w request = Some cached)
| Miss
    (Hd : detectEdgeCases (searchParams request) = Return undefined)
    (Hc : cache w !! cache_url w request = None).

(** A response as the worker stores it. *)
Definition worker_entry (r : Response) : Prop :=
  ∃ results origin ttl, r = buildResultsResponse results origin ttl.

(** The worlds the platform can be in: it starts with an empty cache; the
    worker handles a request; the cache drops an entry; the deployments
    behind the connection strings change. *)
Inductive reachable : World → Prop :=
| reachable_start (w : World) :
    cache w = ∅ → reachable w
| reachable_fetch (w : World) (request : Request) (env : Env) :
    reachable w → reachable (fetch request env w).2
| reachable_evict (w : World) (key : string) :
    reachable w →
    reachable {| cache := delete key (cache w); mongodb := mongodb w; trace := trace w;
                 Request_url := Request_url w;
                 MongoClient_accepts := MongoClient_accepts w;
     MongoParseError := MongoParseError w |}
| reachable_deploy (w : World) (deployments : string → option MongoServer) :
    reachable w →
    reachable {| cache := cache w; mongodb := deployments; trace := trace w;
                 Request_url := Request_url w;
                 MongoClient_accepts := MongoClient_accepts w;
     MongoParseError := MongoParseError w |}.

(** ** Further vocabulary *)

(** The text of an object whose one property, results, has the text [text]. *)
Definition wrap_results (text : string) : string :=
  "{" ++ String dquote "results" ++ String dquote ":" ++ text ++ "}".

(** The calls of a miss, in order: the lookup and, when the constructor
    accepted the connection string, the connection, the query when the client
    connected, the release, and the store when the query gave documents. *)
Definition miss_events (request : Request) (env : Env) (w : World) : list Event :=
  let key := cacheKey request in
  let uri := MONGODB_URI env in
  let limit := row_limit (is_autocomplete request) in
  CacheMatch key ::
    if MongoClient_accepts w uri then
      MongoConnect uri ::
        match mongodb w uri with
        | Some server =>
            MongoFind (search_term request) limit :: MongoClose uri ::
              match find_documents server (search_term request) projection limit with
              | Some documents =>
                  [CachePut key
                     (buildResultsResponse (JArray (JObject <$> documents))
                        (origin_of request env) (cacheTtl env))]
              | None => []
              end
        | None => [MongoClose uri]
        end
    else [].

(** A stored search result: a 200 JSON response whose results are at most 50
    documents with no field but zip and name. *)
Definition search_entry (r : Response) : Prop :=
  ∃ (documents : list SearchResult) (origin : Origin) (ttl : Z),
    r = buildResultsResponse (JArray (JObject <$> documents)) origin ttl
    ∧ (length documents ≤ 50)%nat
    ∧ Forall (λ d : SearchResult,
                ∀ field value, (field, value) ∈ d → field = "zip" ∨ field = "name")
             documents.

(** The entry that [detectEdgeCases] measures: the non-empty value of the one
    parameter that is given, the other being absent or empty. *)
Definition the_entry (params : list (string * string)) (v : string) : Prop :=
  v ≠ ""
  ∧ ((get "query" params = Some v ∧ absent_or_empty (get "search" params))
     ∨ (absent_or_empty (get "query" params) ∧ get "search" params = Some v)).

(** A text of printable ASCII code units, space included.  The platform
    takes any such text as the value of a header; [new Response] throws a
    TypeError on a header value that holds a line break. *)
Definition printable (s : string) : bool :=
  forallb (λ c, (32 <=? N_of_ascii c)%N && (N_of_ascii c <=? 126)%N) (list_ascii_of_string s).

(** A text that does not go on with a decimal digit: it is empty or starts
    with another code unit. *)
Definition no_leading_digit (tail : string) : Prop :=
  tail = "" ∨ ∃ c rest, tail = String c rest ∧ ¬ is_digit c.

(** ** [encodeURIComponent]

    [encodeURIComponent] escapes a string code unit by code unit, and the
    code units of a JavaScript string have 16 bits: here a string is the list
    of its code units, each below 65536. *)

(** A UTF-16 code unit. *)
Definition code_unit (u : N) : Prop := (u < 65536)%N.

(** The code units of a string of the model, each below 256. *)
Definition code_units (s : string) : list N :=
  N_of_ascii <$> list_ascii_of_string s.

(** The code units that [encodeURIComponent] leaves as they are: letters,
    digits and the marks [- _ . ! ~ * ' ( )]. *)
Definition uriUnescaped (u : N) : bool :=
  ((65 <=? u) && (u <=? 90) || (97 <=? u) && (u <=? 122) || (48 <=? u) && (u <=? 57)
   || (u =? 45) || (u =? 95) || (u =? 46) || (u =? 33) || (u =? 126) || (u =? 42)
   || (u =? 39) || (u =? 40) || (u =? 41))%N.

(** An upper-case hexadecimal digit. *)
Definition HEX_digit (n : N) : ascii :=
  match n with
  | 0 => "0" | 1 => "1" | 2 => "2" | 3 => "3" | 4 => "4" | 5 => "5"
  | 6 => "6" | 7 => "7" | 8 => "8" | 9 => "9" | 10 => "A" | 11 => "B"
  | 12 => "C" | 13 => "D" | 14 => "E" | _ => "F"
  end%N%char.

(** One octet, escaped: a percent sign and two hexadecimal digits. *)
Definition percent_octet (b : N) : string :=
  String "%" (String (HEX_digit (b / 16)) (String (HEX_digit (b mod 16)) "")).

(** The UTF-8 octets of a code point: one to four. *)
Definition utf8_octets (cp : N) : list N :=
  (if cp <? 128 then [cp]
   else if cp <? 2048 then [192 + cp / 64; 128 + cp mod 64]
   else if cp <? 65536 then [224 + cp / 4096; 128 + (cp / 64) mod 64; 128 + cp mod 64]
   else [240 + cp / 262144; 128 + (cp / 4096) mod 64; 128 + (cp / 64) mod 64;
         128 + cp mod 64])%N.

(** The octets of a code point, each escaped. *)
Definition escape (octets : list N) : string :=
  fold_right (λ b rest, percent_octet b ++ rest) "" octets.

(** The two halves of a surrogate pair, and the code point of a pair. *)
Definition is_leading_surrogate (u : N) : bool := ((55296 <=? u) && (u <=? 56319))%N.

Definition is_trailing_surrogate (u : N) : bool := ((56320 <=? u) && (u <=? 57343))%N.

Definition UTF16SurrogatePairToCodePoint (lead trail : N) : N :=
  ((lead - 55296) * 1024 + (trail - 56320) + 65536)%N.

(** [encodeURIComponent(string)]: an unescaped code unit is copied; any other
    code point is written as its UTF-8 octets, each escaped; a surrogate that
    is not half of a pair is a URIError. *)
Fixpoint encodeURIComponent (units : list N) : Result string :=
  match units with
  | [] => Return ""
  | u :: rest =>
      if uriUnescaped u then
        match encodeURIComponent rest with
        | Return s => Return (String (ascii_of_N u) s)
        | Throw e => Throw e
        end
      else if is_trailing_surrogate u then Throw URIError
      else if is_leading_surrogate u then
        match rest with
        | trail :: rest' =>
            if is_trailing_surrogate trail then
              match encodeURIComponent rest' with
              | Return s =>
                  Return (escape (utf8_octets (UTF16SurrogatePairToCodePoint u trail)) ++ s)
              | Throw e => Throw e
              end
            else Throw URIError
        | [] => Throw URIError
        end
      else
        match encodeURIComponent rest with
        | Return s => Return (escape (utf8_octets u) ++ s)
        | Throw e => Throw e
        end
  end.

(** [array.map(f)] for an [f] that can throw: the first error ends the run. *)
Fixpoint map_throwing {A B : Type} (f : A → Result B) (l : list A) : Result (list B) :=
  match l with
  | [] => Return []
  | a :: rest =>
      match f a with
      | Return b =>
          match map_throwing f rest with
          | Return bs => Return (b :: bs)
          | Throw e => Throw e
          end
      | Throw e => Throw e
      end
  end.

(** The code units that an encoded component is made of: the unescaped
    ones and the percent sign. *)
Definition uri_safe (c : ascii) : bool :=
  uriUnescaped (N_of_ascii c) || Ascii.eqb c "%".

(** Reading an encoded component back: the value of a hexadecimal digit, one
    escaped octet, and the code point at the head of a text. *)
Definition hex_value (c : ascii) : N :=
  let n := N_of_ascii c in
  if (n <=? 57)%N then (n - 48)%N else (n - 55)%N.

Definition read_octet (s : string) : option (N * string) :=
  match s with
  | String "%" (String h1 (String h2 rest)) => Some ((hex_value h1 * 16 + hex_value h2)%N, rest)
  | _ => None
  end.

Definition decode_escaped (s : string) : option (N * string) :=
  '(b1, s1) ← read_octet s;
  if (b1 <? 128)%N then Some (b1, s1)
  else
    '(b2, s2) ← read_octet s1;
    if (b1 <? 224)%N then Some (((b1 - 192) * 64 + (b2 - 128))%N, s2)
    else
      '(b3, s3) ← read_octet s2;
      if (b1 <? 240)%N then Some (((b1 - 224) * 4096 + (b2 - 128) * 64 + (b3 - 128))%N, s3)
      else
        '(b4, s4) ← read_octet s3;
        Some (((b1 - 240) * 262144 + (b2 - 128) * 4096 + (b3 - 128) * 64 + (b4 - 128))%N, s4).

Definition decode_head (s : string) : option (N * string) :=
  match s with
  | String c rest => if Ascii.eqb c "%" then decode_escaped s else Some (N_of_ascii c, rest)
  | EmptyString => None
  end.

(** ** The data-API variant: the handler of [src/unnamed/part_001]

    This variant asks an HTTP data API instead of the database driver.  Its
    [buildResponse], [buildResultsResponse], [processResults],
    [detectEdgeCases] and [setCorsHeaders] have the text of the driver
    variant and are shared; what reads the configuration or the search query
    is embedded again. *)

Module DataApi.

(** [interface Env], lines 11-16. *)
Record Env : Type := {
  MONGODB_API_ENDPOINT : string;
  MONGODB_API_SECRET : string;
  DOMAIN : string;
  CACHE_TTL : string;
}.

(** [type SearchQuery], lines 20-23, the term by its code units. *)
Record SearchQuery : Type := {
  search : list N;
  autocomplete : AutoCompleteFlag;
}.

(** [hasValidOrigin], lines 105-108. *)
Definition hasValidOrigin (request : Request) (env : Env) : bool :=
  match get "origin" (request_headers request) with
  | Some origin => String.eqb origin (DOMAIN env)
  | None => false
  end.

(** [handleOptions], lines 110-124. *)
Definition handleOptions (request : Request) (env : Env) : Response :=
  if hasValidOrigin request env then
    {| status := 200; body := BodyNull; headers := setCorsHeaders (DOMAIN env) |}
  else
    {| status := 200; body := BodyNull; headers := setCorsHeaders (DOMAIN env) |}.

(** Lines 149-151 of [fetch]. *)
Definition cacheTtl (env : Env) : Z :=
  let cacheTtlValue := parseInt10 (CACHE_TTL env) in
  if isNaN cacheTtlValue then 300 else default 0 cacheTtlValue.

(** Lines 161-167 of [fetch]: the term is a parameter of the request, a
    string of the model, taken by its code units. *)
Definition buildSearchQuery (params : list (string * string)) : SearchQuery :=
  let query := get "query" params in
  let search := get "search" params in
  {| search := code_units (default "" (nullish query search));
     autocomplete := match query with Some _ => One | None => Zero end |}.

(** [Object.keys(search)] with the values as the template literal reads
    them: the two properties of the object that [fetch] builds, in the order
    in which it writes them, the flag as the string of its number. *)
Definition SearchQuery_entries (searchQuery : SearchQuery) : list (string * list N) :=
  [ ("search", search searchQuery);
    ("autocomplete",
     code_units (match autocomplete searchQuery with Zero => "0" | One => "1" end)) ].

(** [buildSearchString], lines 60-63 (the same text in [src/index.ts], lines
    41-44). *)
Definition buildSearchString (search : SearchQuery) : Result string :=
  match
    map_throwing
      (λ entry,
         match encodeURIComponent (snd entry) with
         | Return value => Return (fst entry ++ "=" ++ value)
         | Throw e => Throw e
         end)
      (SearchQuery_entries search)
  with
  | Return parts => Return (join "&" parts)
  | Throw e => Throw e
  end.

(** Line 169: the URL that is fetched and that keys the cache. *)
Definition remoteUrl (env : Env) (searchQuery : SearchQuery) : Result string :=
  match buildSearchString searchQuery with
  | Return searchString => Return (MONGODB_API_ENDPOINT env ++ "?" ++ searchString)
  | Throw e => Throw e
  end.

(** The calls of this variant: to the cache, with the URL string it passes
    as the key, and to the data API, with the key it sends. *)
Inductive Event : Type :=
| CacheMatch (url : string)
| CachePut (url : string) (response : Response)
| Fetch (url : string) (apiKey : string).

(** What this variant runs against. *)
Record World : Type := {
  (** [caches.default], keyed by the URL of the cache key *)
  cache : gmap string Response;
  (** [new Request(input).url]: the serialization that the URL parser of the
      platform gives to a string, or the error it throws when the string is
      no absolute URL *)
  Request_url : string -> Result string;
  (** whether the cache keeps a response it is given: the platform stores
      no response that its status or its headers make uncacheable *)
  keeps : Response -> bool;
  (** the outcome of a GET of a URL with an api-key header: the response
      of the API, of any status, or the error of a request that failed *)
  network : string -> string -> Result Response;
  (** what the worker did to its collaborators, oldest first *)
  trace : list Event;
}.

Definition M (A : Type) : Type := World -> Result A * World.

Definition ret {A : Type} (a : A) : M A := λ w, (Return a, w).

Definition bind {A B : Type} (m : M A) (f : A -> M B) : M B := λ w,
  match m w with
  | (Return a, w') => f a w'
  | (Throw e, w') => (Throw e, w')
  end.

Definition throw {A : Type} (e : Error) : M A := λ w, (Throw e, w).

(** A computation that touches nothing. *)
Definition pure {A : Type} (r : Result A) : M A := λ w, (r, w).

Definition emit (e : Event) (w : World) : World :=
  {| cache := cache w; Request_url := Request_url w; keeps := keeps w;
     network := network w; trace := trace w ++ [e] |}.

(** [await cache.match(remoteUrl)]: the entry under the URL of the request
    that the cache builds from the string; the error of the URL parser when
    the string is no URL. *)
Definition cache_match (url : string) : M (option Response) := λ w,
  match Request_url w url with
  | Return key => (Return (cache w !! key), emit (CacheMatch url) w)
  | Throw e => (Throw e, emit (CacheMatch url) w)
  end.

(** [ctx.waitUntil(cache.put(remoteUrl, cachedResponse.clone()))]: the store
    is started and not awaited, and its failure is not seen; the entry is in
    the cache when the store completes and the platform keeps the
    response. *)
Definition waitUntil_cache_put (url : string) (response : Response) : M unit := λ w,
  (Return (),
   {| cache := match Request_url w url with
               | Return key => if keeps w response then <[key := response]> (cache w)
                               else cache w
               | Throw _ => cache w
               end;
      Request_url := Request_url w;
      keeps := keeps w;
      network := network w;
      trace := trace w ++ [CachePut url response] |}).

(** [await fetch(remoteUrl, { headers: { 'api-key': secret, ... }, cf })] *)
Definition platform_fetch (url apiKey : string) : M Response := λ w,
  (network w url apiKey, emit (Fetch url apiKey) w).

(** [fetch], lines 126-201. *)
Definition fetch (request : Request) (env : Env) : M Response :=
  if String.eqb (method request) "OPTIONS" then
    ret (handleOptions request env)
  else if negb (existsb (String.eqb (method request)) ["GET"; "HEAD"]) then
    ret (buildResponse 405 (BodyText "Method Not Allowed") None)
  else
    let params := searchParams request in
    let origin : Origin := if hasValidOrigin request env then Some (DOMAIN env) else None in
    if String.eqb (method request) "HEAD" then
      ret (buildResponse 200 BodyNull (Some (setCorsHeaders (DOMAIN env))))
    else
      let cacheTtl := cacheTtl env in
      match detectEdgeCases params with
      | Throw e => ret (buildResponse 400 (BodyText "Bad Request") None)
      | Return null => ret (buildResultsResponse (JArray []) origin cacheTtl)
      | Return undefined =>
          let searchQuery := buildSearchQuery params in
          bind (pure (remoteUrl env searchQuery)) (λ remoteUrl,
          bind (cache_match remoteUrl) (λ cachedResponse,
          bind (match cachedResponse with
                | None =>
                    bind (platform_fetch remoteUrl (MONGODB_API_SECRET env)) (λ fetched,
                    bind (waitUntil_cache_put remoteUrl fetched) (λ _,
                    ret fetched))
                | Some cached => ret cached
                end) (λ cachedResponse,
          match processResults (Some cachedResponse) with
          | Return results => ret (buildResultsResponse results origin cacheTtl)
          | Throw e => throw e
          end)))
      end.

(** The events a computation adds to the trace of [w]. *)
Definition events {A : Type} (m : M A) (w : World) : list Event :=
  drop (length (trace w)) (trace (m w).2).

(** A GET request that passes the validation and is looked up and asked for
    under the URL string [url]. *)
Definition search_request (request : Request) (env : Env) (url : string) : Prop :=
  method request = "GET"
  ∧ detectEdgeCases (searchParams request) = Return undefined
  ∧ remoteUrl env (buildSearchQuery (searchParams request)) = Return url.

(** A sample platform.  The API answers the full search for [paris] with one
    city, the full search for [lyon] with a page that is no JSON text, the
    autocomplete search for [paris] with status 500 and a JSON error object,
    and every other URL with status 404; the first two answers carry a
    cache-control header.  The cache keeps the answers of status 200 that
    carry such a header.  The sample URLs are left as they are written by the
    URL parser. *)
Definition sample_env : Env :=
  {| MONGODB_API_ENDPOINT := "https://data.example/zip";
     MONGODB_API_SECRET := "secret";
     DOMAIN := "https://zip.example";
     CACHE_TTL := "600" |}.

Definition sample_world : World :=
  {| cache := ∅;
     Request_url := λ input, Return input;
     keeps := λ response,
       (status response =? 200) && bool_decide (is_Some (get "cache-control" (headers response)));
     network := λ url apiKey,
       if String.eqb url "https://data.example/zip?search=paris&autocomplete=0" then
         Return {| status := 200;
                   body := BodyJSON (JArray [JObject [("zip", JString "75001");
                                                      ("name", JString "Paris")]]);
                   headers := [("content-type", "application/json");
                               ("cache-control", "max-age=60")] |}
       else if String.eqb url "https://data.example/zip?search=lyon&autocomplete=0" then
         Return {| status := 200;
                   body := BodyText "<html>";
                   headers := [("content-type", "text/html");
                               ("cache-control", "max-age=60")] |}
       else if String.eqb url "https://data.example/zip?search=paris&autocomplete=1" then
         Return {| status := 500;
                   body := BodyJSON (JObject [("error", JString "timeout")]);
                   headers := [("content-type", "application/json")] |}
       else
         Return {| status := 404; body := BodyText "<html>"; headers := [] |};
     trace := [] |}.

(** The same platform with the network down. *)
Definition sample_offline : World :=
  {| cache := ∅;
     Request_url := Request_url sample_world;
     keeps := keeps sample_world;
     network := λ url apiKey, Throw (TypeError "Network connection lost");
     trace := [] |}.

End DataApi.

(** * Theorems *)

(** ** Tactics *)

(** Takes [fetch] to its GET branch, given [H : method request = GET]. *)
Ltac fetch_get H :=
  unfold fetch; rewrite H;
  change (String.eqb "GET" "OPTIONS") with false;
  change (negb (existsb (String.eqb "GET") ["GET"; "HEAD"])) with false;
  change (String.eqb "GET" "HEAD") with false;
  cbv iota.

(** Closes a goal whose hypothesis [H] puts a store among events that are
    not stores. *)
Ltac no_store H :=
  repeat (apply elem_of_cons in H as [H | H]; [discriminate H |]);
  by apply elem_of_nil in H.

(** ** Basic facts *)

Lemma events_unchanged {A : Type} (m : M A) (w : World) (a : Result A) :
  m w = (a, w) → events m w = [].
Proof.
  intros E. unfold events. rewrite E. simpl. apply drop_all.
Qed.

Lemma events_added {A : Type} (m : M A) (w : World) (l : list Event) :
  trace (m w).2 = (trace w ++ l)%list → events m w = l.
Proof. intros E. unfold events. rewrite E. apply drop_app_length. Qed.

(** The code units of [empty_results_text]: an opening brace, the quoted
    word results, a colon, two brackets, a closing brace. *)
Lemma empty_results_text_units :
  list_ascii_of_string empty_results_text
  = ascii_of_nat <$> [123; 34; 114; 101; 115; 117; 108; 116; 115; 34; 58; 91; 93; 125]%nat.
Proof. reflexivity. Qed.

Lemma truthy_Some (s : string) : truthy (Some s) = true ↔ s ≠ "".
Proof.
  simpl. destruct (String.eqb_spec s ""); simpl; split; congruence.
Qed.

Lemma length_zero_empty (s : string) : (String.length s =? 0)%nat = String.eqb s "".
Proof. by destruct s. Qed.

Lemma hasValidOrigin_spec (request : Request) (env : Env) :
  hasValidOrigin request env = true
  ↔ get "origin" (request_headers request) = Some (DOMAIN env).
Proof.
  unfold hasValidOrigin.
  destruct (get "origin" (request_headers request)) as [o |]; [| done].
  rewrite String.eqb_eq. split; congruence.
Qed.

(** ** Request validation *)

Lemma absent_or_empty_falsy (v : option string) :
  absent_or_empty v → truthy v = false.
Proof. intros [-> | ->]; reflexivity. Qed.

Lemma present_nonempty_truthy (v : option string) :
  present_nonempty v → truthy v = true.
Proof. intros (s & -> & Hs). by apply truthy_Some. Qed.

Lemma detectEdgeCases_neither (params : list (string * string)) :
  absent_or_empty (get "query" params) →
  absent_or_empty (get "search" params) →
  detectEdgeCases params = Throw (Error_ "Bad Request").
Proof.
  intros Hq Hs. unfold detectEdgeCases.
  by rewrite (absent_or_empty_falsy _ Hq), (absent_or_empty_falsy _ Hs).
Qed.

Lemma detectEdgeCases_both (params : list (string * string)) :
  present_nonempty (get "query" params) →
  present_nonempty (get "search" params) →
  detectEdgeCases params = Throw (Error_ "Bad Request").
Proof.
  intros Hq Hs. unfold detectEdgeCases.
  by rewrite (present_nonempty_truthy _ Hq), (present_nonempty_truthy _ Hs).
Qed.

(** With [query] non-empty and [search] absent or empty, the entry is the
    value of [query]. *)
Lemma detectEdgeCases_query (params : list (string * string)) (q : string) :
  get "query" params = Some q → q ≠ "" →
  absent_or_empty (get "search" params) →
  detectEdgeCases params
  = if (String.length q <? 3)%nat then Return null else Return undefined.
Proof.
  intros Hq Hne Hs. unfold detectEdgeCases.
  rewrite (absent_or_empty_falsy _ Hs), Hq.
  assert (Ht : truthy (Some q) = true) by by apply truthy_Some.
  rewrite Ht. simpl. rewrite length_zero_empty.
  simpl in Ht. by destruct (String.eqb q "").
Qed.

(** With [query] absent or empty and [search] non-empty, the entry is the
    value of [search]. *)
Lemma detectEdgeCases_search (params : list (string * string)) (s : string) :
  absent_or_empty (get "query" params) →
  get "search" params = Some s → s ≠ "" →
  detectEdgeCases params
  = if (String.length s <? 3)%nat then Return null else Return undefined.
Proof.
  intros Hq Hs Hne. unfold detectEdgeCases.
  rewrite (absent_or_empty_falsy _ Hq), Hs.
  assert (Ht : truthy (Some s) = true) by by apply truthy_Some.
  rewrite Ht. simpl. by destruct Hq as [-> | ->].
Qed.

(** Once [detectEdgeCases] has returned, [query ?? search] is a string. *)
Lemma searchQuery_defined (params : list (string * string)) (r : NullOrUndefined) :
  detectEdgeCases params = Return r →
  is_Some (nullish (get "query" params) (get "search" params)).
Proof.
  unfold detectEdgeCases.
  destruct (get "query" params) as [q |]; [by eexists |].
  destruct (get "search" params) as [s |]; [by eexists | done].
Qed.

(** With an empty [query] next to a [search] of three code units or more, the
    validation passes on the value of [search], while the search query takes
    the empty value of [query] as its term and is flagged autocomplete. *)
Lemma empty_query_shadows_search (params : list (string * string)) (s : string) :
  get "query" params = Some "" →
  get "search" params = Some s →
  (3 ≤ String.length s)%nat →
  detectEdgeCases params = Return undefined
  ∧ buildSearchQuery params = {| search := ""; autocomplete := One |}.
Proof.
  intros Hq Hs Hlen. split.
  - rewrite (detectEdgeCases_search params s); [| by right | done |].
    + by apply Nat.ltb_ge in Hlen as ->.
    + intros ->. simpl in Hlen. lia.
  - unfold buildSearchQuery. by rewrite Hq.
Qed.

(** ** [parseInt] on the configured TTL *)

Lemma parse_digits_uint (s : string) (u : uint) :
  NilEmpty.uint_of_string s = Some u →
  ∀ acc, parse_digits acc s
         = acc * 10 ^ Z.of_N (Unsigned.usize u) + Z.of_N (Unsigned.of_lu (Decimal.rev u)).
Proof.
  revert u. induction s as [| c rest IH]; intros u Hu acc.
  - injection Hu as <-. simpl. lia.
  - simpl in Hu. destruct (NilEmpty.uint_of_string rest) as [u' |]; [| discriminate].
    specialize (IH u' eq_refl).
    assert (Hstep : ∀ k : Z,
      digit_value c = Some k →
      Unsigned.usize u = N.succ (Unsigned.usize u') →
      Unsigned.of_lu (Decimal.rev u)
      = (Unsigned.of_lu (Decimal.rev u') + Z.to_N k * 10 ^ Unsigned.usize u')%N →
      0 ≤ k →
      parse_digits acc (String c rest)
      = acc * 10 ^ Z.of_N (Unsigned.usize u) + Z.of_N (Unsigned.of_lu (Decimal.rev u))).
    { intros k Hk Hsize Hval Hpos. simpl. rewrite Hk, IH, Hsize, Hval.
      rewrite N2Z.inj_succ, Z.pow_succ_r by lia.
      rewrite N2Z.inj_add, N2Z.inj_mul, N2Z.inj_pow, Z2N.id by lia.
      change (Z.of_N 10) with 10. ring. }
    apply uint_of_char_spec in Hu.
    destruct Hu as [[-> ->] | [[-> ->] | [[-> ->] | [[-> ->] | [[-> ->] | [[-> ->]
      | [[-> ->] | [[-> ->] | [[-> ->] | [-> ->]]]]]]]]]];
      [ apply (Hstep 0) | apply (Hstep 1) | apply (Hstep 2) | apply (Hstep 3)
      | apply (Hstep 4) | apply (Hstep 5) | apply (Hstep 6) | apply (Hstep 7)
      | apply (Hstep 8) | apply (Hstep 9) ];
      try reflexivity; try lia;
      unfold Decimal.rev; simpl revapp; rewrite Unsigned.of_lu_revapp; reflexivity.
Qed.

Lemma read_sign_unsigned (c : ascii) (rest : string) :
  c ≠ "-"%char → c ≠ "+"%char → read_sign (String c rest) = (1, String c rest).
Proof.
  intros Hminus Hplus. destruct c as [[|] [|] [|] [|] [|] [|] [|] [|]]; done.
Qed.

Lemma parseInt10_digits (s : string) (n : Z) :
  nonnegative_integer s n → parseInt10 s = Some n.
Proof.
  intros (Hne & u & Hu & ->).
  pose proof (parse_digits_uint s u Hu 0) as Hp.
  destruct s as [| c rest]; [done |].
  simpl in Hu. destruct (NilEmpty.uint_of_string rest) as [u' |] eqn:Hrest; [| discriminate].
  assert (Hd : ∃ k, digit_value c = Some k ∧ is_StrWhiteSpaceChar c = false
                    ∧ c ≠ "-"%char ∧ c ≠ "+"%char).
  { apply uint_of_char_spec in Hu.
    destruct Hu as [[-> _] | [[-> _] | [[-> _] | [[-> _] | [[-> _] | [[-> _]
      | [[-> _] | [[-> _] | [[-> _] | [-> _]]]]]]]]]]; eexists; done. }
  destruct Hd as (k & Hk & Hw & Hminus & Hplus).
  unfold parseInt10. simpl trim_start. rewrite Hw.
  rewrite (read_sign_unsigned c rest Hminus Hplus), Hk. f_equal.
  simpl in Hp. rewrite Hk in Hp. rewrite Z.mul_1_l.
  replace (10 * 0 + k) with k in Hp by lia. rewrite Hp.
  unfold Z.of_uint. rewrite Unsigned.of_uint_alt. lia.
Qed.

Lemma is_StrWhiteSpaceChar_spec (c : ascii) :
  is_StrWhiteSpaceChar c = true → is_white_space c.
Proof.
  unfold is_StrWhiteSpaceChar, is_white_space.
  rewrite !orb_true_iff, andb_true_iff, !N.leb_le, !N.eqb_eq, !elem_of_cons. lia.
Qed.

Lemma is_white_space_spec (c : ascii) :
  is_white_space c → is_StrWhiteSpaceChar c = true.
Proof.
  unfold is_StrWhiteSpaceChar, is_white_space.
  rewrite !orb_true_iff, andb_true_iff, !N.leb_le, !N.eqb_eq, !elem_of_cons.
  intros H. repeat (destruct H as [H | H]; [rewrite H; lia |]).
  by apply elem_of_nil in H.
Qed.

Lemma digit_value_spec (c : ascii) (d : Z) :
  digit_value c = Some d → is_digit c.
Proof.
  unfold digit_value, is_digit.
  destruct (_ && _) eqn:E; [| discriminate].
  apply andb_true_iff in E as [H1 H2]. apply N.leb_le in H1, H2. lia.
Qed.

Lemma is_digit_spec (d : ascii) :
  is_digit d →
  (∃ k, digit_value d = Some k) ∧ is_StrWhiteSpaceChar d = false
  ∧ d ≠ "-"%char ∧ d ≠ "+"%char.
Proof.
  unfold is_digit, digit_value, is_StrWhiteSpaceChar. intros [Hlo Hhi].
  repeat split.
  - apply N.leb_le in Hlo as ->, Hhi as ->. by eexists.
  - rewrite !orb_false_iff, andb_false_iff, !N.leb_gt, !N.eqb_neq.
    revert Hlo Hhi. generalize (N_of_ascii d). lia.
  - intros ->. simpl in Hlo. lia.
  - intros ->. simpl in Hlo. lia.
Qed.

Lemma trim_start_split (s : string) :
  ∃ ws, s = ws ++ trim_start s
        ∧ ∀ c, c ∈ list_ascii_of_string ws → is_white_space c.
Proof.
  induction s as [| c rest (ws & Hs & Hws)].
  - exists "". split; [done |]. intros c Hc. by apply elem_of_nil in Hc.
  - simpl. destruct (is_StrWhiteSpaceChar c) eqn:Hc.
    + exists (String c ws). split.
      { change (String c rest = String c (ws ++ trim_start rest)). by f_equal. }
      intros c' Hc'. simpl in Hc'. apply elem_of_cons in Hc' as [-> | Hc'].
      * by apply is_StrWhiteSpaceChar_spec.
      * by apply Hws.
    + exists "". split; [done |]. intros c' Hc'. by apply elem_of_nil in Hc'.
Qed.

Lemma trim_start_app (ws t : string) :
  (∀ c, c ∈ list_ascii_of_string ws → is_white_space c) →
  trim_start (ws ++ t) = trim_start t.
Proof.
  induction ws as [| c ws IH]; intros Hws; [done |].
  change (String c ws ++ t) with (String c (ws ++ t)). simpl.
  rewrite is_white_space_spec by (apply Hws; simpl; apply elem_of_cons; by left).
  apply IH. intros c' Hc'. apply Hws. simpl. apply elem_of_cons. by right.
Qed.

Lemma parseInt10_Some (s : string) (n : Z) :
  parseInt10 s = Some n → starts_with_integer s.
Proof.
  destruct (trim_start_split s) as (ws & Hs & Hws).
  unfold parseInt10. intros H.
  destruct (trim_start s) as [| c r] eqn:Ht; [discriminate |].
  destruct (ascii_dec c "-") as [-> | Hminus]; [| destruct (ascii_dec c "+") as [-> | Hplus]].
  - simpl in H. destruct r as [| d rest]; [discriminate |].
    destruct (digit_value d) eqn:Hd; [| discriminate].
    exists ws, "-", d, rest. repeat split; [done | done | set_solver | | ];
      by apply (digit_value_spec d z).
  - simpl in H. destruct r as [| d rest]; [discriminate |].
    destruct (digit_value d) eqn:Hd; [| discriminate].
    exists ws, "+", d, rest. repeat split; [done | done | set_solver | | ];
      by apply (digit_value_spec d z).
  - rewrite read_sign_unsigned in H by done.
    destruct (digit_value c) eqn:Hd; [| discriminate].
    exists ws, "", c, r. repeat split; [done | done | set_solver | | ];
      by apply (digit_value_spec c z).
Qed.

Lemma parseInt10_starts (s : string) :
  starts_with_integer s → is_Some (parseInt10 s).
Proof.
  intros (ws & sign & d & rest & -> & Hws & Hsign & Hd).
  destruct (is_digit_spec d Hd) as ((k & Hk) & Hw & Hminus & Hplus).
  unfold parseInt10. rewrite trim_start_app by done.
  rewrite !elem_of_cons in Hsign.
  destruct Hsign as [-> | [-> | [-> | Hnil]]]; [| | | by apply elem_of_nil in Hnil].
  - change ("" ++ String d rest) with (String d rest). simpl trim_start. rewrite Hw.
    rewrite read_sign_unsigned by done. rewrite Hk. by eexists.
  - change ("+" ++ String d rest) with (String "+" (String d rest)). simpl. rewrite Hk.
    by eexists.
  - change ("-" ++ String d rest) with (String "-" (String d rest)). simpl. rewrite Hk.
    by eexists.
Qed.

(** [parseInt] gives NaN exactly on the strings with no leading integer. *)
Lemma parseInt10_NaN (s : string) :
  parseInt10 s = None ↔ ¬ starts_with_integer s.
Proof.
  split.
  - intros Hn Hs. apply parseInt10_starts in Hs as [n Hs]. congruence.
  - intros Hs. destruct (parseInt10 s) as [n |] eqn:Hp; [| done].
    exfalso. apply Hs. by apply (parseInt10_Some s n).
Qed.

Lemma cacheTtl_NaN (env : Env) :
  parseInt10 (CACHE_TTL env) = None → cacheTtl env = 300.
Proof. unfold cacheTtl. by intros ->. Qed.

Lemma cacheTtl_number (env : Env) (n : Z) :
  parseInt10 (CACHE_TTL env) = Some n → cacheTtl env = n.
Proof. unfold cacheTtl. by intros ->. Qed.

(** ** The search in direct-driver mode *)

Lemma project_fields (fields : list string) (d : Document) (field : string) (value : JSON) :
  (field, value) ∈ project fields d → field ∈ fields.
Proof.
  unfold project. intros H. apply list_elem_of_In, filter_In in H as [_ Hf].
  simpl in Hf.
  apply existsb_exists in Hf as (f & Hin & Heq).
  apply String.eqb_eq in Heq as <-. by apply list_elem_of_In.
Qed.

Lemma find_documents_bound (server : MongoServer) (pattern : string)
    (fields : list string) (limit : nat) (documents : list Document) :
  find_documents server pattern fields limit = Some documents →
  (length documents ≤ limit)%nat
  ∧ Forall (λ d, ∀ field value, (field, value) ∈ d → field ∈ fields) documents.
Proof.
  unfold find_documents. destruct (regex server pattern) as [re |]; [| discriminate].
  intros [= <-]. split.
  - rewrite length_take. lia.
  - apply Forall_take, Forall_fmap, Forall_forall. intros d _ field value.
    apply project_fields.
Qed.

Lemma searchZipCodes_run (term : string) (isAutocomplete : bool) (uri : string) (w : World) :
  searchZipCodes term isAutocomplete uri w
  = if MongoClient_accepts w uri then
      match mongodb w uri with
      | Some server =>
          let l := [MongoConnect uri; MongoFind term (row_limit isAutocomplete);
                    MongoClose uri] in
          match find_documents server term projection (row_limit isAutocomplete) with
          | Some documents => (Return documents, add_events l w)
          | None => (Throw (Error_ "Database query failed"), add_events l w)
          end
      | None =>
          (Throw (Error_ "Database query failed"),
           add_events [MongoConnect uri; MongoClose uri] w)
      end
    else (Throw (MongoParseError w uri), w).
Proof.
  unfold searchZipCodes, mbind, M_bind, MongoClient_new.
  destruct (MongoClient_accepts w uri); [| reflexivity].
  unfold try_finally, try_catch, mbind, M_bind, MongoClient_connect,
    MongoClient_close, Collection_find, emit, throw, add_events, row_limit.
  simpl. destruct (mongodb w uri) as [server |]; simpl.
  - destruct (find_documents server term projection _); simpl;
      by rewrite <- !app_assoc.
  - by rewrite <- !app_assoc.
Qed.

(** ** The paths of [fetch] for a GET request *)

Section GET.

Context (request : Request) (env : Env) (w : World).
Hypothesis Hm : method request = "GET".

Lemma fetch_rejected (e : Error) :
  detectEdgeCases (searchParams request) = Throw e →
  fetch request env w = (Return (buildResponse 400 (BodyText "Bad Request") None), w).
Proof.
  intros Hd. fetch_get Hm. rewrite Hd. reflexivity.
Qed.

Lemma fetch_short_circuit :
  detectEdgeCases (searchParams request) = Return null →
  fetch request env w
  = (Return (buildResultsResponse (JArray []) (origin_of request env) (cacheTtl env)), w).
Proof.
  intros Hd. fetch_get Hm. rewrite Hd. reflexivity.
Qed.

Lemma fetch_hit (cached : Response) :
  detectEdgeCases (searchParams request) = Return undefined →
  cache w !! cache_url w request = Some cached →
  fetch request env w
  = (match processResults (Some cached) with
     | Return results =>
         Return (buildResultsResponse results (origin_of request env) (cacheTtl env))
     | Throw e => Throw e
     end,
     looked_up (cacheKey request) w).
Proof.
  intros Hd Hc. fetch_get Hm. rewrite Hd.
  unfold mbind, M_bind, cache_match, emit. fold (cacheKey request).
  fold (cache_url w request). rewrite Hc. fold (origin_of request env).
  destruct (processResults (Some cached)); reflexivity.
Qed.

Lemma fetch_miss :
  detectEdgeCases (searchParams request) = Return undefined →
  cache w !! cache_url w request = None →
  fetch request env w
  = try_catch
      (results ← searchZipCodes (search_term request) (is_autocomplete request)
                   (MONGODB_URI env);
       let response :=
         buildResultsResponse (JArray (JObject <$> results)) (origin_of request env)
           (cacheTtl env) in
       waitUntil_cache_put (cacheKey request) response;;
       mret response)
      (λ error, mret internal_server_error)
      (looked_up (cacheKey request) w).
Proof.
  intros Hd Hc. fetch_get Hm. rewrite Hd.
  unfold mbind at 1. unfold M_bind at 1. unfold cache_match, emit.
  fold (cacheKey request). fold (cache_url w request). rewrite Hc. reflexivity.
Qed.

(** The whole run of a miss: the lookup, the search, and the store when the
    search succeeded. *)
Lemma fetch_miss_run :
  detectEdgeCases (searchParams request) = Return undefined →
  cache w !! cache_url w request = None →
  let key := cacheKey request in
  let uri := MONGODB_URI env in
  let limit := row_limit (is_autocomplete request) in
  fetch request env w
  = if MongoClient_accepts w uri then
      match mongodb w uri with
      | Some server =>
          match find_documents server (search_term request) projection limit with
          | Some documents =>
              let response :=
                buildResultsResponse (JArray (JObject <$> documents)) (origin_of request env)
                  (cacheTtl env) in
              (Return response,
               {| cache := <[cache_url w request := response]> (cache w);
                  mongodb := mongodb w;
                  trace := trace w ++ [CacheMatch key; MongoConnect uri;
                                       MongoFind (search_term request) limit;
                                       MongoClose uri; CachePut key response];
                  Request_url := Request_url w;
                  MongoClient_accepts := MongoClient_accepts w;
     MongoParseError := MongoParseError w |})
          | None =>
              (Return internal_server_error,
               add_events [CacheMatch key; MongoConnect uri;
                           MongoFind (search_term request) limit; MongoClose uri] w)
          end
      | None =>
          (Return internal_server_error,
           add_events [CacheMatch key; MongoConnect uri; MongoClose uri] w)
      end
    else (Return internal_server_error, add_events [CacheMatch key] w).
Proof.
  intros Hd Hc key uri limit.
  rewrite (fetch_miss Hd Hc).
  unfold try_catch, mbind, M_bind. rewrite searchZipCodes_run.
  fold uri. fold limit.
  change (MongoClient_accepts (looked_up (cacheKey request) w) uri)
    with (MongoClient_accepts w uri).
  change (mongodb (looked_up (cacheKey request) w) uri) with (mongodb w uri).
  destruct (MongoClient_accepts w uri); [| reflexivity].
  destruct (mongodb w uri) as [server |]; simpl.
  - destruct (find_documents server (search_term request) projection limit); simpl;
      unfold add_events, looked_up, waitUntil_cache_put, internal_server_error; simpl;
      by rewrite <- !app_assoc.
  - unfold add_events, looked_up, internal_server_error. simpl. by rewrite <- !app_assoc.
Qed.

Lemma path_total : Path request w.
Proof.
  destruct (detectEdgeCases (searchParams request)) as [[|] | e] eqn:Hd.
  - by apply ShortCircuitEmpty.
  - destruct (cache w !! cache_url w request) as [cached |] eqn:Hc.
    + by apply (Hit _ _ cached).
    + by apply Miss.
  - by apply (Rejected _ _ e).
Qed.

(** A response with status 200 to a GET request is made by
    [buildResultsResponse] with the origin and the TTL of the request. *)
Lemma fetch_200 (response : Response) :
  (fetch request env w).1 = Return response →
  status response = 200 →
  ∃ results,
    response = buildResultsResponse results (origin_of request env) (cacheTtl env).
Proof.
  intros Hr Hs.
  destruct path_total as [e Hd | Hd | cached Hd Hc | Hd Hc].
  - rewrite (fetch_rejected e Hd) in Hr. injection Hr as <-. discriminate Hs.
  - rewrite (fetch_short_circuit Hd) in Hr. injection Hr as <-. by eexists.
  - rewrite (fetch_hit cached Hd Hc) in Hr. cbn [fst] in Hr.
    destruct (processResults (Some cached)) as [results |]; [| discriminate].
    injection Hr as <-. by eexists.
  - rewrite (fetch_miss_run Hd Hc) in Hr.
    destruct (MongoClient_accepts w (MONGODB_URI env));
      [| simpl in Hr; injection Hr as <-; discriminate Hs].
    destruct (mongodb w (MONGODB_URI env)) as [server |].
    + destruct (find_documents server _ _ _) as [documents |]; simpl in Hr;
        injection Hr as <-; [by eexists | discriminate Hs].
    + simpl in Hr. injection Hr as <-. discriminate Hs.
Qed.

End GET.

(** ** What a run of [fetch] can be *)

(** The three early answers of [fetch]: preflight, HEAD, and any method that
    is not allowed. *)
Lemma fetch_OPTIONS (request : Request) (env : Env) (w : World) :
  method request = "OPTIONS" →
  fetch request env w = (Return (handleOptions request env), w).
Proof. intros Hm. unfold fetch. by rewrite Hm. Qed.

Lemma fetch_HEAD (request : Request) (env : Env) (w : World) :
  method request = "HEAD" →
  fetch request env w
  = (Return (buildResponse 200 BodyNull (Some (setCorsHeaders (DOMAIN env)))), w).
Proof. intros Hm. unfold fetch. by rewrite Hm. Qed.

Lemma fetch_method_not_allowed (request : Request) (env : Env) (w : World) :
  method request ∉ ["OPTIONS"; "GET"; "HEAD"] →
  fetch request env w
  = (Return (buildResponse 405 (BodyText "Method Not Allowed") None), w).
Proof.
  rewrite !not_elem_of_cons. intros (Ho & Hg & Hh & _). unfold fetch.
  apply String.eqb_neq in Ho as ->, Hg, Hh. simpl. by rewrite Hg, Hh.
Qed.

(** Any method but GET is answered without an effect. *)
Lemma fetch_not_GET (request : Request) (env : Env) (w : World) :
  method request ≠ "GET" →
  ∃ response, fetch request env w = (Return response, w) ∧ status response ≠ 500.
Proof.
  intros Hm. unfold fetch.
  destruct (String.eqb (method request) "OPTIONS").
  { eexists. split; [reflexivity |]. unfold handleOptions.
    by destruct (hasValidOrigin request env). }
  destruct (negb _) eqn:Hin; [by eexists |].
  destruct (String.eqb (method request) "HEAD") eqn:Hhead; [by eexists |].
  exfalso. apply negb_false_iff in Hin. simpl in Hin.
  rewrite Hhead in Hin. rewrite !orb_false_r in Hin.
  by apply String.eqb_eq in Hin.
Qed.

(** A run either leaves the cache as it was or stores, under the key of the
    request, a response made by [buildResultsResponse]. *)
Lemma fetch_cache (request : Request) (env : Env) (w : World) :
  cache (fetch request env w).2 = cache w
  ∨ ∃ results,
      cache (fetch request env w).2
      = <[cache_url w request :=
            buildResultsResponse results (origin_of request env) (cacheTtl env)]> (cache w).
Proof.
  destruct (decide (method request = "GET")) as [Hm | Hm].
  - destruct (path_total request w) as [e Hd | Hd | cached Hd Hc | Hd Hc].
    + left. by rewrite (fetch_rejected _ _ _ Hm _ Hd).
    + left. by rewrite (fetch_short_circuit _ _ _ Hm Hd).
    + left. by rewrite (fetch_hit _ _ _ Hm _ Hd Hc).
    + rewrite (fetch_miss_run request env w Hm Hd Hc).
      destruct (MongoClient_accepts w (MONGODB_URI env)); [| by left].
      destruct (mongodb w (MONGODB_URI env)) as [server |]; [| by left].
      destruct (find_documents server _ _ _) as [documents |]; [| by left].
      right. by eexists.
  - left. by destruct (fetch_not_GET request env w Hm) as (response & -> & _).
Qed.

(** A store is attempted only after a lookup that missed, under the key of
    the request, with a response made by [buildResultsResponse]. *)
Lemma fetch_put (request : Request) (env : Env) (w : World) (key : string) (r : Response) :
  CachePut key r ∈ events (fetch request env) w →
  key = cacheKey request
  ∧ cache w !! Request_url w key = None
  ∧ ∃ results, r = buildResultsResponse results (origin_of request env) (cacheTtl env).
Proof.
  intros Hin.
  destruct (decide (method request = "GET")) as [Hm | Hm].
  - destruct (path_total request w) as [e Hd | Hd | cached Hd Hc | Hd Hc].
    + rewrite (events_unchanged _ _ _ (fetch_rejected _ _ _ Hm _ Hd)) in Hin.
      by apply elem_of_nil in Hin.
    + rewrite (events_unchanged _ _ _ (fetch_short_circuit _ _ _ Hm Hd)) in Hin.
      by apply elem_of_nil in Hin.
    + rewrite (events_added _ _ [CacheMatch (cacheKey request)]) in Hin
        by by rewrite (fetch_hit _ _ _ Hm _ Hd Hc).
      no_store Hin.
    + pose proof (fetch_miss_run request env w Hm Hd Hc) as Hrun. simpl in Hrun.
      destruct (MongoClient_accepts w (MONGODB_URI env));
        [| erewrite events_added in Hin by (rewrite Hrun; reflexivity); no_store Hin].
      destruct (mongodb w (MONGODB_URI env)) as [server |].
      * destruct (find_documents server _ _ _) as [documents |].
        -- erewrite events_added in Hin by (rewrite Hrun; reflexivity).
           rewrite !elem_of_cons in Hin.
           destruct Hin as [? | [? | [? | [? | [Hp | Hnil]]]]]; try discriminate.
           ++ injection Hp as -> ->. split; [done |]. split; [done |]. by eexists.
           ++ by apply elem_of_nil in Hnil.
        -- erewrite events_added in Hin by (rewrite Hrun; reflexivity).
           no_store Hin.
      * erewrite events_added in Hin by (rewrite Hrun; reflexivity).
        no_store Hin.
  - destruct (fetch_not_GET request env w Hm) as (response & Hr & _).
    rewrite (events_unchanged _ _ _ Hr) in Hin. by apply elem_of_nil in Hin.
Qed.

Lemma cors_headers_results (results : JSON) (origin : Origin) (ttl : Z) :
  cors_headers (headers (buildResultsResponse results origin ttl))
  = match origin with
    | Some o => if String.eqb o "" then [] else setCorsHeaders o
    | None => []
    end.
Proof.
  destruct origin as [o |]; [| reflexivity].
  simpl. by destruct (String.eqb o "").
Qed.

(** ** The cache over many requests *)

Lemma reachable_cache (w : World) :
  reachable w → map_Forall (λ _ r, worker_entry r) (cache w).
Proof.
  induction 1 as [w Hw | w request env _ IH | w key _ IH | w deployments _ IH].
  - rewrite Hw. apply map_Forall_empty.
  - destruct (fetch_cache request env w) as [-> | (results & ->)]; [done |].
    apply map_Forall_insert_2; [| done]. by repeat eexists.
  - by apply map_Forall_delete.
  - done.
Qed.

Lemma processResults_worker_entry (r : Response) :
  worker_entry r → ∃ results, processResults (Some r) = Return results.
Proof. intros (results & origin & ttl & ->). by eexists. Qed.

(** ** The claims *)

(** C1 (as amended): a GET request in which [query] and [search] are both
    absent or empty, or both given with a non-empty value, is answered with
    status 400 and the plain text Bad Request; the world is left as it was,
    so neither the cache nor the backend store is contacted. *)
Theorem C1_neither_or_both_is_bad_request (request : Request) (env : Env) (w : World) :
  method request = "GET" →
  (absent_or_empty (get "query" (searchParams request))
   ∧ absent_or_empty (get "search" (searchParams request)))
  ∨ (present_nonempty (get "query" (searchParams request))
     ∧ present_nonempty (get "search" (searchParams request))) →
  ∃ response,
    fetch request env w = (Return response, w)
    ∧ status response = 400
    ∧ Response_text response = "Bad Request"
    ∧ events (fetch request env) w = [].
Proof.
  intros Hm Hp.
  assert (Hd : detectEdgeCases (searchParams request) = Throw (Error_ "Bad Request")).
  { destruct Hp as [[Hq Hs] | [Hq Hs]].
    - by apply detectEdgeCases_neither.
    - by apply detectEdgeCases_both. }
  pose proof (fetch_rejected request env w Hm _ Hd) as Hf.
  eexists. split; [exact Hf |]. repeat split.
  by apply events_unchanged with (a := Return (buildResponse 400 (BodyText "Bad Request") None)).
Qed.

(** C1, witness: no parameter at all, and both parameters filled in. *)
Lemma C1_witness :
  (∃ response,
     fetch (Sample.GET [] None) Sample.env Sample.world = (Return response, Sample.world)
     ∧ status response = 400
     ∧ Response_text response = "Bad Request"
     ∧ events (fetch (Sample.GET [] None) Sample.env) Sample.world = [])
  ∧ (∃ response,
       fetch (Sample.GET [("query", "paris"); ("search", "paris")] None) Sample.env Sample.world
       = (Return response, Sample.world)
       ∧ status response = 400
       ∧ Response_text response = "Bad Request"
       ∧ events (fetch (Sample.GET [("query", "paris"); ("search", "paris")] None) Sample.env)
           Sample.world = []).
Proof.
  split.
  - apply (C1_neither_or_both_is_bad_request (Sample.GET [] None)); [reflexivity |].
    left. split; left; reflexivity.
  - apply (C1_neither_or_both_is_bad_request
             (Sample.GET [("query", "paris"); ("search", "paris")] None)); [reflexivity |].
    right. split; exists "paris"; (split; [reflexivity | discriminate]).
Defined.

(** C1, as stated, fails: with [query] given but empty and [search=abc],
    both parameters are present and the answer is not 400. *)
Lemma C1_counterexample :
  ¬ (∀ (request : Request) (env : Env) (w : World),
       method request = "GET" →
       is_Some (get "query" (searchParams request)) →
       is_Some (get "search" (searchParams request)) →
       ∃ response, (fetch request env w).1 = Return response ∧ status response = 400).
Proof.
  intros H.
  destruct (H (Sample.GET [("query", ""); ("search", "abc")] None) Sample.env Sample.world)
    as (response & Hr & Hs); [reflexivity | by eexists | by eexists |].
  vm_compute in Hr. injection Hr as <-. discriminate Hs.
Qed.

(** C2 (as amended): a GET request that carries exactly one of [query] and
    [search], with a value of one or two code units, is answered with status
    200 and the body [{"results":[]}]; the world is left as it was, so neither
    the cache nor the backend store is contacted. *)
Theorem C2_short_term_is_empty_result (request : Request) (env : Env) (w : World)
    (v : string) :
  method request = "GET" →
  (get "query" (searchParams request) = Some v ∧ get "search" (searchParams request) = None)
  ∨ (get "query" (searchParams request) = None ∧ get "search" (searchParams request) = Some v) →
  (0 < String.length v < 3)%nat →
  ∃ response,
    fetch request env w = (Return response, w)
    ∧ status response = 200
    ∧ Response_text response = empty_results_text
    ∧ events (fetch request env) w = [].
Proof.
  intros Hm Hp [Hpos Hlt].
  assert (Hne : v ≠ "") by (intros ->; simpl in Hpos; lia).
  assert (Hd : detectEdgeCases (searchParams request) = Return null).
  { destruct Hp as [[Hq Hs] | [Hq Hs]].
    - rewrite (detectEdgeCases_query _ v Hq Hne); [| by left; done].
      by apply Nat.ltb_lt in Hlt as ->.
    - rewrite (detectEdgeCases_search _ v); [| by left | done | done].
      by apply Nat.ltb_lt in Hlt as ->. }
  pose proof (fetch_short_circuit request env w Hm Hd) as Hf.
  eexists. split; [exact Hf |]. repeat split.
  by eapply events_unchanged.
Qed.

(** C2, witness: [search=ab]. *)
Lemma C2_witness :
  ∃ response,
    fetch (Sample.GET [("search", "ab")] None) Sample.env Sample.world
    = (Return response, Sample.world)
    ∧ status response = 200
    ∧ Response_text response = empty_results_text
    ∧ events (fetch (Sample.GET [("search", "ab")] None) Sample.env) Sample.world = [].
Proof.
  apply (C2_short_term_is_empty_result (Sample.GET [("search", "ab")] None) _ _ "ab");
    [reflexivity | right; split; reflexivity | simpl; lia].
Defined.

(** C2, as stated, fails for the value of length 0: [search=] alone is
    answered with status 400. *)
Lemma C2_counterexample :
  ¬ (∀ (request : Request) (env : Env) (w : World) (v : string),
       method request = "GET" →
       (get "query" (searchParams request) = Some v
        ∧ get "search" (searchParams request) = None)
       ∨ (get "query" (searchParams request) = None
          ∧ get "search" (searchParams request) = Some v) →
       (String.length v < 3)%nat →
       ∃ response, (fetch request env w).1 = Return response ∧ status response = 200).
Proof.
  intros H.
  destruct (H (Sample.GET [("search", "")] None) Sample.env Sample.world "")
    as (response & Hr & Hs); [reflexivity | by right | simpl; lia |].
  vm_compute in Hr. injection Hr as <-. discriminate Hs.
Qed.

(** C3: when the cache lookup of a valid GET request finds an entry, the
    lookup is the only event of the run: the backend store is not contacted,
    nothing is stored, and the cache is left as it was.  The answer is built
    from the entry: when the body of the entry parses, the request is answered
    with status 200 and a JSON body whose results are the parsed value (the
    empty list when that value is falsy).  In a reachable world the entry was
    stored by the worker, so it parses, to an object with the stored results,
    and the answer wraps that object.  In any run, a store is attempted only
    with the key of the request and only when the lookup missed. *)
Theorem C3_cache_hit_skips_backend (request : Request) (env : Env) (w : World) :
  (∀ cached : Response,
     method request = "GET" →
     detectEdgeCases (searchParams request) = Return undefined →
     cache w !! cache_url w request = Some cached →
     events (fetch request env) w = [CacheMatch (cacheKey request)]
     ∧ Forall (λ e, backend_event e = false) (events (fetch request env) w)
     ∧ cache (fetch request env w).2 = cache w
     ∧ (∀ parsed : JSON,
          Response_json cached = Return parsed →
          ∃ response,
            (fetch request env w).1 = Return response
            ∧ status response = 200
            ∧ body response
              = BodyJSON (JObject [("results", if JSON_truthy parsed then parsed else JArray [])])
            ∧ Response_text response
              = wrap_results (JSON_stringify (if JSON_truthy parsed then parsed else JArray []))
            ∧ get "content-type" (headers response) = Some "application/json")
     ∧ (reachable w →
        ∃ results response,
          body cached = BodyJSON (JObject [("results", results)])
          ∧ (fetch request env w).1 = Return response
          ∧ status response = 200
          ∧ body response = BodyJSON (JObject [("results", JObject [("results", results)])])))
  ∧ (∀ (key : string) (stored : Response),
       CachePut key stored ∈ events (fetch request env) w →
       key = cacheKey request ∧ cache w !! Request_url w key = None).
Proof.
  split.
  - intros cached Hm Hd Hc.
    pose proof (fetch_hit request env w Hm cached Hd Hc) as Hf.
    assert (He : events (fetch request env) w = [CacheMatch (cacheKey request)])
      by (apply events_added; by rewrite Hf).
    split; [exact He |]. split; [rewrite He; by repeat constructor |].
    split; [by rewrite Hf |]. split.
    + intros parsed Hj. rewrite Hf. unfold processResults. rewrite Hj.
      eexists. split; [reflexivity |]. by repeat split.
    + intros Hw.
      pose proof (reachable_cache w Hw _ _ Hc) as Hentry. simpl in Hentry.
      destruct Hentry as (results & origin & ttl & ->).
      exists results. rewrite Hf. eexists. split; [reflexivity |].
      split; [reflexivity |]. by split.
  - intros key stored Hin.
    by destruct (fetch_put request env w key stored Hin) as (-> & Hmiss & _).
Qed.

(** C3, witness: after a full search for [spring] has filled the cache, the
    autocomplete request for [spring] is served from the entry, whose twelve
    cities it wraps once more. *)
Lemma C3_witness :
  ∃ cached,
    cache Sample.warm !! cache_url Sample.warm (Sample.GET [("query", "spring")] None)
    = Some cached
    ∧ events (fetch (Sample.GET [("query", "spring")] None) Sample.env) Sample.warm
      = [CacheMatch (cacheKey (Sample.GET [("query", "spring")] None))]
    ∧ Forall (λ e, backend_event e = false)
        (events (fetch (Sample.GET [("query", "spring")] None) Sample.env) Sample.warm)
    ∧ cache (fetch (Sample.GET [("query", "spring")] None) Sample.env Sample.warm).2
      = cache Sample.warm
    ∧ ∃ results response,
        body cached = BodyJSON (JObject [("results", results)])
        ∧ (fetch (Sample.GET [("query", "spring")] None) Sample.env Sample.warm).1
          = Return response
        ∧ status response = 200
        ∧ body response = BodyJSON (JObject [("results", JObject [("results", results)])]).
Proof.
  eexists. split; [reflexivity |].
  destruct (proj1 (C3_cache_hit_skips_backend
                     (Sample.GET [("query", "spring")] None) Sample.env Sample.warm)
              _ eq_refl eq_refl eq_refl) as (He & Hb & Hc & _ & Hr).
  split; [exact He |]. split; [exact Hb |]. split; [exact Hc |].
  apply Hr.
  exact (reachable_fetch Sample.world _ Sample.env (reachable_start Sample.world eq_refl)).
Defined.

(** C4: the cache key is the prefix [zip-search:] followed by the raw term,
    so two search queries with the same term have the same key whatever their
    autocomplete flags. *)
Theorem C4_cache_key_ignores_autocomplete (term : string) (flag1 flag2 : AutoCompleteFlag) :
  getCacheKey {| search := term; autocomplete := flag1 |}
  = getCacheKey {| search := term; autocomplete := flag2 |}
  ∧ getCacheKey {| search := term; autocomplete := flag1 |} = "zip-search:" ++ term.
Proof. split; reflexivity. Qed.

(** C5 (as amended): when CACHE_TTL is a non-empty run of decimal digits, a
    valid non-negative integer in the range of exact integers, the TTL is its
    value; when CACHE_TTL has no decimal digit after its leading white space
    and at most one sign, so that parseInt finds no number, the TTL is 300.
    When the TTL is in the range of exact integers, it is the one written in
    the cache-control header of every 200 response to a GET request and of
    every response stored in the cache. *)
Theorem C5_cache_ttl (env : Env) :
  (∀ n, nonnegative_integer (CACHE_TTL env) n → n ≤ Number_MAX_SAFE_INTEGER →
        cacheTtl env = n)
  ∧ (¬ starts_with_integer (CACHE_TTL env) → cacheTtl env = 300)
  ∧ (safe_integer (cacheTtl env) →
     (∀ request w response,
        method request = "GET" →
        (fetch request env w).1 = Return response →
        status response = 200 →
        get "cache-control" (headers response) = Some (cache_control (cacheTtl env)))
     ∧ (∀ request w key stored,
          CachePut key stored ∈ events (fetch request env) w →
          get "cache-control" (headers stored) = Some (cache_control (cacheTtl env)))).
Proof.
  split; [| split].
  - intros n Hn _. apply cacheTtl_number. by apply parseInt10_digits.
  - intros Hs. apply cacheTtl_NaN. by apply parseInt10_NaN.
  - intros _. split.
    + intros request w response Hm Hr Hs.
      by destruct (fetch_200 request env w Hm response Hr Hs) as (results & ->).
    + intros request w key stored Hin.
      by destruct (fetch_put request env w key stored Hin) as (_ & _ & results & ->).
Qed.

(** C5, witness: the TTL 600 of the sample configuration, as read and as
    written in the header of the answer to [search=ab], and the default for a
    word. *)
Lemma C5_witness :
  cacheTtl Sample.env = 600
  ∧ cacheTtl {| MONGODB_URI := ""; DOMAIN := ""; CACHE_TTL := "soon" |} = 300
  ∧ get "cache-control"
      (headers (buildResultsResponse (JArray []) None 600))
    = Some (cache_control (cacheTtl Sample.env)).
Proof.
  split; [| split].
  - apply (proj1 (C5_cache_ttl Sample.env)).
    + split; [discriminate |]. eexists. split; reflexivity.
    + unfold Number_MAX_SAFE_INTEGER. lia.
  - apply (proj1 (proj2 (C5_cache_ttl {| MONGODB_URI := ""; DOMAIN := ""; CACHE_TTL := "soon" |}))).
    apply parseInt10_NaN. reflexivity.
  - assert (Hsafe : safe_integer (cacheTtl Sample.env)) by (vm_compute; split; discriminate).
    apply (proj1 (proj2 (proj2 (C5_cache_ttl Sample.env)) Hsafe)
             (Sample.GET [("search", "ab")] None) Sample.world);
      reflexivity.
Defined.

(** C5, as stated, fails: [-5] is not a valid non-negative integer, and the
    TTL is then -5, not the default. *)
Lemma C5_counterexample :
  ¬ (∀ env : Env,
       (¬ ∃ n, nonnegative_integer (CACHE_TTL env) n) → cacheTtl env = 300).
Proof.
  intros H.
  specialize (H {| MONGODB_URI := ""; DOMAIN := ""; CACHE_TTL := "-5" |}).
  assert (Hn : ¬ ∃ n, nonnegative_integer "-5" n).
  { intros (n & _ & u & Hu & _). discriminate Hu. }
  specialize (H Hn). discriminate H.
Qed.

(** C6 (as amended): a 200 response to a GET request carries the CORS headers
    if and only if the Origin header of the request equals the configured
    domain and that domain is not the empty string; the headers are then
    those of [setCorsHeaders] for the configured domain.  When the Origin
    header differs or is absent, the response has no access-control header. *)
Theorem C6_cors_iff_origin_matches (request : Request) (env : Env) (w : World)
    (response : Response) :
  method request = "GET" →
  (fetch request env w).1 = Return response →
  status response = 200 →
  (cors_headers (headers response) ≠ []
   ↔ get "origin" (request_headers request) = Some (DOMAIN env) ∧ DOMAIN env ≠ "")
  ∧ (cors_headers (headers response) ≠ [] →
     cors_headers (headers response) = setCorsHeaders (DOMAIN env))
  ∧ (get "origin" (request_headers request) ≠ Some (DOMAIN env) →
     cors_headers (headers response) = []).
Proof.
  intros Hm Hr Hs.
  destruct (fetch_200 request env w Hm response Hr Hs) as (results & ->).
  rewrite cors_headers_results. unfold origin_of.
  pose proof (hasValidOrigin_spec request env) as [Hv1 Hv2].
  destruct (hasValidOrigin request env).
  - specialize (Hv1 eq_refl).
    destruct (String.eqb_spec (DOMAIN env) "") as [He | He].
    + split; [split; [done | by intros [_ Hn]] | by split].
    + split; [split; [done | discriminate] | by split].
  - assert (Hno : get "origin" (request_headers request) ≠ Some (DOMAIN env))
      by (intros Ho; by apply Hv2 in Ho).
    split; [split; [done | by intros [Ho _]] | by split].
Qed.

(** C6, witness: the sample request sent from the configured domain. *)
Lemma C6_witness :
  (cors_headers
     (headers (buildResultsResponse (JArray []) (Some "https://zip.example") 600)) ≠ []
   ↔ get "origin"
       (request_headers (Sample.GET [("search", "ab")] (Some "https://zip.example")))
     = Some (DOMAIN Sample.env)
     ∧ DOMAIN Sample.env ≠ "")
  ∧ (cors_headers
       (headers (buildResultsResponse (JArray []) (Some "https://zip.example") 600)) ≠ [] →
     cors_headers
       (headers (buildResultsResponse (JArray []) (Some "https://zip.example") 600))
     = setCorsHeaders (DOMAIN Sample.env))
  ∧ (get "origin"
       (request_headers (Sample.GET [("search", "ab")] (Some "https://zip.example")))
     ≠ Some (DOMAIN Sample.env) →
     cors_headers
       (headers (buildResultsResponse (JArray []) (Some "https://zip.example") 600)) = []).
Proof.
  apply (C6_cors_iff_origin_matches
           (Sample.GET [("search", "ab")] (Some "https://zip.example"))
           Sample.env Sample.world
           (buildResultsResponse (JArray []) (Some "https://zip.example") 600));
    reflexivity.
Defined.

(** C6, as stated, fails when the configured domain is the empty string: a
    request whose Origin header is empty has the configured origin, and the
    response carries no access-control header. *)
Lemma C6_counterexample :
  ¬ (∀ (request : Request) (env : Env) (w : World) (response : Response),
       method request = "GET" →
       (fetch request env w).1 = Return response →
       status response = 200 →
       (cors_headers (headers response) ≠ []
        ↔ get "origin" (request_headers request) = Some (DOMAIN env))).
Proof.
  intros H.
  destruct (H (Sample.GET [("search", "ab")] (Some ""))
              {| MONGODB_URI := ""; DOMAIN := ""; CACHE_TTL := "" |}
              Sample.world
              (buildResultsResponse (JArray []) (Some "") 300)) as [_ Hback];
    [reflexivity | reflexivity | reflexivity |].
  by apply Hback.
Qed.

(** C7: [processResults] throws Unexpected function call exactly when it is
    given no response; on a response it throws only when the body cannot be
    parsed, and then Invalid response; and when the search throws, [fetch]
    answers with status 500 and the text Internal Server Error. *)
Theorem C7_failures :
  (∀ response : option Response,
     processResults response = Throw (Error_ "Unexpected function call")
     ↔ response = None)
  ∧ (∀ (r : Response) (e : Error),
       Response_json r = Throw e →
       processResults (Some r) = Throw (Error_ "Invalid response"))
  ∧ (∀ (r : Response) (e : Error),
       processResults (Some r) = Throw e →
       e = Error_ "Invalid response" ∧ ∃ e', Response_json r = Throw e')
  ∧ (∀ (request : Request) (env : Env) (w : World) (e : Error),
       method request = "GET" →
       detectEdgeCases (searchParams request) = Return undefined →
       cache w !! cache_url w request = None →
       (searchZipCodes (search_term request) (is_autocomplete request) (MONGODB_URI env)
          (looked_up (cacheKey request) w)).1 = Throw e →
       ∃ response,
         (fetch request env w).1 = Return response
         ∧ status response = 500
         ∧ Response_text response = "Internal Server Error").
Proof.
  split; [| split; [| split]].
  - intros [r |]; simpl; [| done].
    split; [| done]. by destruct (Response_json r).
  - intros r e He. simpl. by rewrite He.
  - intros r e He. simpl in He.
    destruct (Response_json r) as [parsed | e'] eqn:Hj; [discriminate |].
    injection He as <-. split; [done | by eexists].
  - intros request env w e Hm Hd Hc Hs.
    rewrite (fetch_miss request env w Hm Hd Hc).
    unfold try_catch, mbind, M_bind.
    fold (is_autocomplete request) (search_term request).
    destruct (searchZipCodes _ _ _ _) as [[documents | e'] w']; [discriminate |].
    by eexists.
Qed.

(** C7, witness: the sample search with no deployment in reach. *)
Lemma C7_witness :
  ∃ response,
    (fetch (Sample.GET [("search", "paris")] None) Sample.env Sample.offline).1
    = Return response
    ∧ status response = 500
    ∧ Response_text response = "Internal Server Error".
Proof.
  apply (proj2 (proj2 (proj2 C7_failures))
           (Sample.GET [("search", "paris")] None) Sample.env Sample.offline
           (Error_ "Database query failed")); reflexivity.
Defined.



(** C9: [handleOptions] gives the same response for any two requests, hence
    for two that differ only in their Origin header or lack one; the response
    carries the CORS headers, and its allow-origin header names the configured
    domain. *)
Theorem C9_options_ignores_origin (request1 request2 : Request) (env : Env) :
  handleOptions request1 env = handleOptions request2 env
  ∧ headers (handleOptions request1 env) = setCorsHeaders (DOMAIN env)
  ∧ get "access-control-allow-origin" (headers (handleOptions request1 env))
    = Some (DOMAIN env).
Proof.
  unfold handleOptions.
  destruct (hasValidOrigin request1 env), (hasValidOrigin request2 env); done.
Qed.

(** C10 (the code departs from the claim): for [query=&search=abc] the
    request is not rejected and the autocomplete flag is set, as claimed, but
    the term of the search is the empty value of [query] and not [abc]: the
    cache is looked up under the bare prefix and the backend store is asked
    for the empty pattern. *)
Theorem C10_empty_query_is_the_term :
  detectEdgeCases [("query", ""); ("search", "abc")] = Return undefined
  ∧ buildSearchQuery [("query", ""); ("search", "abc")]
    = {| search := ""; autocomplete := One |}
  ∧ cacheKey (Sample.GET [("query", ""); ("search", "abc")] None)
    = "https://cache.internal/zip-search:"
  ∧ take 4 (events (fetch (Sample.GET [("query", ""); ("search", "abc")] None) Sample.env)
              Sample.world)
    = [ CacheMatch "https://cache.internal/zip-search:";
        MongoConnect "mongodb://db.example/zip";
        MongoFind "" 10;
        MongoClose "mongodb://db.example/zip" ]
  ∧ ∃ response,
      (fetch (Sample.GET [("query", ""); ("search", "abc")] None) Sample.env Sample.world).1
      = Return response
      ∧ status response = 200.
Proof.
  repeat split; try reflexivity. eexists. split; reflexivity.
Qed.

(** * Further properties of the worker *)

(** Membership in a list that is written out. *)
Ltac in_list :=
  repeat first [apply list_elem_of_here | apply list_elem_of_further].

(** ** Runs, event by event *)

Lemma fetch_hit_events (request : Request) (env : Env) (w : World) (cached : Response) :
  method request = "GET" →
  detectEdgeCases (searchParams request) = Return undefined →
  cache w !! cache_url w request = Some cached →
  events (fetch request env) w = [CacheMatch (cacheKey request)].
Proof.
  intros Hm Hd Hc. apply events_added.
  by rewrite (fetch_hit request env w Hm cached Hd Hc).
Qed.

Lemma fetch_miss_events (request : Request) (env : Env) (w : World) :
  method request = "GET" →
  detectEdgeCases (searchParams request) = Return undefined →
  cache w !! cache_url w request = None →
  events (fetch request env) w = miss_events request env w.
Proof.
  intros Hm Hd Hc. apply events_added.
  rewrite (fetch_miss_run request env w Hm Hd Hc). unfold miss_events.
  destruct (MongoClient_accepts w (MONGODB_URI env)); [| reflexivity].
  destruct (mongodb w (MONGODB_URI env)) as [server |]; [| reflexivity].
  by destruct (find_documents server _ _ _).
Qed.

Lemma fetch_no_events (request : Request) (env : Env) (w : World) :
  method request ≠ "GET"
  ∨ (∃ e, detectEdgeCases (searchParams request) = Throw e)
  ∨ detectEdgeCases (searchParams request) = Return null →
  ∃ response, fetch request env w = (Return response, w).
Proof.
  destruct (decide (method request = "GET")) as [Hm | Hm].
  - intros [Hne | [(e & Hd) | Hd]]; [done | |].
    + eexists. by apply (fetch_rejected request env w Hm e).
    + eexists. by apply fetch_short_circuit.
  - intros _. destruct (fetch_not_GET request env w Hm) as (response & Hr & _).
    by eexists.
Qed.

Lemma searchZipCodes_events (term : string) (isAutocomplete : bool) (uri : string)
    (w : World) :
  events (searchZipCodes term isAutocomplete uri) w
  = if MongoClient_accepts w uri then
      MongoConnect uri ::
        match mongodb w uri with
        | Some _ => [MongoFind term (row_limit isAutocomplete); MongoClose uri]
        | None => [MongoClose uri]
        end
    else [].
Proof.
  apply events_added. rewrite searchZipCodes_run.
  destruct (MongoClient_accepts w uri); [| simpl; by rewrite app_nil_r].
  destruct (mongodb w uri) as [server |]; [| reflexivity].
  by destruct (find_documents server term projection _).
Qed.

Lemma searchZipCodes_world (term : string) (isAutocomplete : bool) (uri : string)
    (w : World) :
  cache (searchZipCodes term isAutocomplete uri w).2 = cache w
  ∧ mongodb (searchZipCodes term isAutocomplete uri w).2 = mongodb w.
Proof.
  rewrite searchZipCodes_run.
  destruct (MongoClient_accepts w uri); [| done].
  destruct (mongodb w uri) as [server |]; [| done].
  by destruct (find_documents server term projection _).
Qed.

(** The outcome of the search does not depend on the trace or on the cache. *)
Lemma searchZipCodes_looked_up (term : string) (isAutocomplete : bool) (uri key : string)
    (w : World) :
  (searchZipCodes term isAutocomplete uri (looked_up key w)).1
  = if MongoClient_accepts w uri then
      match mongodb w uri with
      | Some server =>
          match find_documents server term projection (row_limit isAutocomplete) with
          | Some documents => Return documents
          | None => Throw (Error_ "Database query failed")
          end
      | None => Throw (Error_ "Database query failed")
      end
    else Throw (MongoParseError w uri).
Proof.
  rewrite searchZipCodes_run.
  change (MongoClient_accepts (looked_up key w) uri) with (MongoClient_accepts w uri).
  change (mongodb (looked_up key w) uri) with (mongodb w uri).
  destruct (MongoClient_accepts w uri); [| done].
  destruct (mongodb w uri) as [server |]; [| done].
  by destruct (find_documents server term projection _).
Qed.

(** ** The backend store *)

Lemma backend_event_path (request : Request) (env : Env) (w : World) (e : Event) :
  e ∈ events (fetch request env) w →
  backend_event e = true →
  method request = "GET"
  ∧ detectEdgeCases (searchParams request) = Return undefined
  ∧ cache w !! cache_url w request = None.
Proof.
  intros Hin He.
  destruct (decide (method request = "GET")) as [Hm | Hm].
  - destruct (path_total request w) as [err Hd | Hd | cached Hd Hc | Hd Hc].
    + destruct (fetch_no_events request env w) as (response & Hr); [eauto |].
      rewrite (events_unchanged _ _ _ Hr) in Hin. by apply elem_of_nil in Hin.
    + destruct (fetch_no_events request env w) as (response & Hr); [eauto |].
      rewrite (events_unchanged _ _ _ Hr) in Hin. by apply elem_of_nil in Hin.
    + rewrite (fetch_hit_events request env w cached Hm Hd Hc) in Hin.
      apply list_elem_of_singleton in Hin as ->. discriminate He.
    + done.
  - destruct (fetch_no_events request env w) as (response & Hr); [eauto |].
    rewrite (events_unchanged _ _ _ Hr) in Hin. by apply elem_of_nil in Hin.
Qed.

(** X1: the backend store is contacted only for a valid GET request whose
    cache lookup missed: a driver call among the events of a run implies the
    three. *)
Theorem backend_only_after_valid_miss (request : Request) (env : Env) (w : World)
    (e : Event) :
  e ∈ events (fetch request env) w →
  backend_event e = true →
  method request = "GET"
  ∧ detectEdgeCases (searchParams request) = Return undefined
  ∧ cache w !! cache_url w request = None.
Proof. apply backend_event_path. Qed.

(** X1, witness: the first sample search for [paris] queries the store. *)
Lemma backend_only_after_valid_miss_witness :
  method (Sample.GET [("search", "paris")] None) = "GET"
  ∧ detectEdgeCases (searchParams (Sample.GET [("search", "paris")] None)) = Return undefined
  ∧ cache Sample.world !! cache_url Sample.world (Sample.GET [("search", "paris")] None) = None.
Proof.
  apply (backend_only_after_valid_miss (Sample.GET [("search", "paris")] None)
           Sample.env Sample.world (MongoFind "paris" 50)).
  - vm_compute. in_list.
  - reflexivity.
Defined.

(** X2: [searchZipCodes] releases every connection it opens.  When the
    constructor accepts the connection string, the run starts with the
    connection and ends with the release, whether the client connects or not
    and whether the query succeeds or not, with the one query in between
    exactly when the client connected.  When the constructor refuses the
    connection string, its error is thrown before the [try]: nothing is
    opened and nothing is released.  The cache is left alone. *)
Theorem searchZipCodes_releases_connection (searchTerm : string) (isAutocomplete : bool)
    (mongoUri : string) (w : World) :
  (MongoClient_accepts w mongoUri = true →
   ∃ queries,
     events (searchZipCodes searchTerm isAutocomplete mongoUri) w
     = ([MongoConnect mongoUri] ++ queries ++ [MongoClose mongoUri])%list
     ∧ (queries = [MongoFind searchTerm (if isAutocomplete then 10 else 50)%nat]
        ↔ is_Some (mongodb w mongoUri))
     ∧ (queries = [] ↔ mongodb w mongoUri = None))
  ∧ (MongoClient_accepts w mongoUri = false →
     events (searchZipCodes searchTerm isAutocomplete mongoUri) w = []
     ∧ (searchZipCodes searchTerm isAutocomplete mongoUri w).1
       = Throw (MongoParseError w mongoUri))
  ∧ cache (searchZipCodes searchTerm isAutocomplete mongoUri w).2 = cache w.
Proof.
  rewrite searchZipCodes_events.
  destruct (searchZipCodes_world searchTerm isAutocomplete mongoUri w) as [Hc _].
  split; [| split; [| exact Hc]].
  - intros ->. destruct (mongodb w mongoUri) as [server |].
    + exists [MongoFind searchTerm (row_limit isAutocomplete)].
      split; [done |]. split; [split; [by eexists | done] | by split].
    + exists []. split; [done |]. split; [split; [done | by intros [? ?]] | by split].
  - intros Hno. rewrite searchZipCodes_run, Hno. by split.
Qed.

(** X2, witness: the sample search for [paris], and the same search with a
    connection string that lacks its scheme. *)
Lemma searchZipCodes_releases_connection_witness :
  (∃ queries,
     events (searchZipCodes "paris" false "mongodb://db.example/zip") Sample.world
     = ([MongoConnect "mongodb://db.example/zip"] ++ queries
        ++ [MongoClose "mongodb://db.example/zip"])%list
     ∧ (queries = [MongoFind "paris" 50%nat]
        ↔ is_Some (mongodb Sample.world "mongodb://db.example/zip"))
     ∧ (queries = [] ↔ mongodb Sample.world "mongodb://db.example/zip" = None))
  ∧ (events (searchZipCodes "paris" false "db.example/zip") Sample.world = []
     ∧ (searchZipCodes "paris" false "db.example/zip" Sample.world).1
       = Throw (MongoParseError Sample.world "db.example/zip")).
Proof.
  split.
  - apply (proj1 (searchZipCodes_releases_connection
                    "paris" false "mongodb://db.example/zip" Sample.world)).
    reflexivity.
  - apply (proj1 (proj2 (searchZipCodes_releases_connection
                           "paris" false "db.example/zip" Sample.world))).
    reflexivity.
Defined.

(** ** A miss, and the requests that follow it *)

Lemma Response_text_results (results : JSON) (origin : Origin) (ttl : Z) :
  Response_text (buildResultsResponse results origin ttl)
  = wrap_results (JSON_stringify results).
Proof. reflexivity. Qed.

Lemma search_found (request : Request) (env : Env) (w : World)
    (documents : list SearchResult) :
  (searchZipCodes (search_term request) (is_autocomplete request) (MONGODB_URI env)
     (looked_up (cacheKey request) w)).1 = Return documents →
  ∃ server,
    MongoClient_accepts w (MONGODB_URI env) = true
    ∧ mongodb w (MONGODB_URI env) = Some server
    ∧ find_documents server (search_term request) projection
        (row_limit (is_autocomplete request)) = Some documents.
Proof.
  rewrite searchZipCodes_looked_up.
  destruct (MongoClient_accepts w (MONGODB_URI env)); [| discriminate].
  destruct (mongodb w (MONGODB_URI env)) as [server |]; [| discriminate].
  destruct (find_documents server _ _ _) as [found |] eqn:Hf; [| discriminate].
  intros [= <-]. by exists server.
Qed.

Lemma search_failed (request : Request) (env : Env) (w : World) (e : Error) :
  (searchZipCodes (search_term request) (is_autocomplete request) (MONGODB_URI env)
     (looked_up (cacheKey request) w)).1 = Throw e →
  MongoClient_accepts w (MONGODB_URI env) = false
  ∨ MongoClient_accepts w (MONGODB_URI env) = true
    ∧ (mongodb w (MONGODB_URI env) = None
       ∨ ∃ server,
           mongodb w (MONGODB_URI env) = Some server
           ∧ find_documents server (search_term request) projection
               (row_limit (is_autocomplete request)) = None).
Proof.
  rewrite searchZipCodes_looked_up. intros Hs.
  destruct (MongoClient_accepts w (MONGODB_URI env)); [| by left].
  right. split; [done |].
  destruct (mongodb w (MONGODB_URI env)) as [server |]; [| by left].
  destruct (find_documents server _ _ _) as [found |] eqn:Hf; [discriminate |].
  right. by exists server.
Qed.

(** X3: when the lookup of a valid GET request misses and the search returns
    documents, the answer is the 200 response whose body wraps exactly those
    documents, in order; the run is the lookup, the three driver calls and one
    store, in that order; the store is made with the key of the request, and
    what is then in the cache under the URL of that key is the very response
    that is returned. *)
Theorem miss_answers_and_stores_once (request : Request) (env : Env) (w : World)
    (documents : list SearchResult) :
  method request = "GET" →
  detectEdgeCases (searchParams request) = Return undefined →
  cache w !! cache_url w request = None →
  (searchZipCodes (search_term request) (is_autocomplete request) (MONGODB_URI env)
     (looked_up (cacheKey request) w)).1 = Return documents →
  ∃ response,
    (fetch request env w).1 = Return response
    ∧ status response = 200
    ∧ body response = BodyJSON (JObject [("results", JArray (JObject <$> documents))])
    ∧ Response_text response = wrap_results (JSON_stringify (JArray (JObject <$> documents)))
    ∧ events (fetch request env) w
      = [ CacheMatch (cacheKey request);
          MongoConnect (MONGODB_URI env);
          MongoFind (search_term request) (row_limit (is_autocomplete request));
          MongoClose (MONGODB_URI env);
          CachePut (cacheKey request) response ]
    ∧ cache (fetch request env w).2
      = <[Request_url w (cacheKey request) := response]> (cache w)
    ∧ cache (fetch request env w).2 !! Request_url w (cacheKey request) = Some response.
Proof.
  intros Hm Hd Hc Hs.
  destruct (search_found request env w documents Hs) as (server & Hacc & Hdb & Hf).
  pose proof (fetch_miss_events request env w Hm Hd Hc) as He.
  pose proof (fetch_miss_run request env w Hm Hd Hc) as Hrun. simpl in Hrun.
  unfold miss_events in He. rewrite Hacc, Hdb, Hf in He, Hrun.
  eexists. rewrite Hrun, He. simpl.
  repeat split. apply lookup_insert_eq.
Qed.

(** X3, witness: the first sample search for [paris]. *)
Lemma miss_answers_and_stores_once_witness :
  ∃ response,
    (fetch (Sample.GET [("search", "paris")] None) Sample.env Sample.world).1
    = Return response
    ∧ status response = 200
    ∧ body response
      = BodyJSON (JObject [("results",
                            JArray [JObject [("zip", JString "75001");
                                             ("name", JString "Paris")]])])
    ∧ Response_text response
      = wrap_results
          (JSON_stringify (JArray [JObject [("zip", JString "75001");
                                            ("name", JString "Paris")]]))
    ∧ events (fetch (Sample.GET [("search", "paris")] None) Sample.env) Sample.world
      = [ CacheMatch "https://cache.internal/zip-search:paris";
          MongoConnect "mongodb://db.example/zip";
          MongoFind "paris" 50;
          MongoClose "mongodb://db.example/zip";
          CachePut "https://cache.internal/zip-search:paris" response ]
    ∧ cache (fetch (Sample.GET [("search", "paris")] None) Sample.env Sample.world).2
      = <[Request_url Sample.world "https://cache.internal/zip-search:paris" := response]>
          (cache Sample.world)
    ∧ cache (fetch (Sample.GET [("search", "paris")] None) Sample.env Sample.world).2
        !! Request_url Sample.world "https://cache.internal/zip-search:paris"
      = Some response.
Proof.
  apply (miss_answers_and_stores_once (Sample.GET [("search", "paris")] None)
           Sample.env Sample.world
           [[("zip", JString "75001"); ("name", JString "Paris")]]); reflexivity.
Defined.

(** X4: a failed search is not cached: when the search of a miss throws, the
    answer is the 500 response, the run has no store, the cache is left as it
    was, and the URL of the request's key is still absent from it.  When the
    constructor accepted the connection string the run ends with the release
    of the connection; when it refused, the lookup is the only call. *)
Theorem failed_search_is_not_cached (request : Request) (env : Env) (w : World)
    (e : Error) :
  method request = "GET" →
  detectEdgeCases (searchParams request) = Return undefined →
  cache w !! cache_url w request = None →
  (searchZipCodes (search_term request) (is_autocomplete request) (MONGODB_URI env)
     (looked_up (cacheKey request) w)).1 = Throw e →
  (fetch request env w).1 = Return internal_server_error
  ∧ (∀ key stored, CachePut key stored ∉ events (fetch request env) w)
  ∧ (if MongoClient_accepts w (MONGODB_URI env)
     then last (events (fetch request env) w) = Some (MongoClose (MONGODB_URI env))
     else events (fetch request env) w = [CacheMatch (cacheKey request)])
  ∧ cache (fetch request env w).2 = cache w
  ∧ cache (fetch request env w).2 !! cache_url w request = None.
Proof.
  intros Hm Hd Hc Hs.
  pose proof (fetch_miss_events request env w Hm Hd Hc) as He.
  pose proof (fetch_miss_run request env w Hm Hd Hc) as Hrun. simpl in Hrun.
  unfold miss_events in He.
  destruct (search_failed request env w e Hs) as [Hacc | [Hacc [Hdb | (server & Hdb & Hf)]]].
  - rewrite Hacc in He, Hrun |- *. rewrite He, Hrun. simpl.
    split; [done |]. split; [intros key stored Hin; no_store Hin |]. by repeat split.
  - rewrite Hacc, Hdb in He, Hrun. rewrite Hacc, He, Hrun. simpl.
    split; [done |]. split; [intros key stored Hin; no_store Hin |]. by repeat split.
  - rewrite Hacc, Hdb, Hf in He, Hrun. rewrite Hacc, He, Hrun. simpl.
    split; [done |]. split; [intros key stored Hin; no_store Hin |]. by repeat split.
Qed.

(** X4, witness: the sample search with no deployment in reach. *)
Lemma failed_search_is_not_cached_witness :
  (fetch (Sample.GET [("search", "paris")] None) Sample.env Sample.offline).1
  = Return internal_server_error
  ∧ (∀ key stored,
       CachePut key stored
       ∉ events (fetch (Sample.GET [("search", "paris")] None) Sample.env) Sample.offline)
  ∧ last (events (fetch (Sample.GET [("search", "paris")] None) Sample.env) Sample.offline)
    = Some (MongoClose (MONGODB_URI Sample.env))
  ∧ cache (fetch (Sample.GET [("search", "paris")] None) Sample.env Sample.offline).2
    = cache Sample.offline
  ∧ cache (fetch (Sample.GET [("search", "paris")] None) Sample.env Sample.offline).2
      !! cache_url Sample.offline (Sample.GET [("search", "paris")] None) = None.
Proof.
  apply (failed_search_is_not_cached (Sample.GET [("search", "paris")] None)
           Sample.env Sample.offline (Error_ "Database query failed")); reflexivity.
Defined.

Lemma string_length_app (s t : string) :
  String.length (s ++ t) = (String.length s + String.length t)%nat.
Proof.
  induction s as [| c s IH]; [done |].
  change (String c s ++ t) with (String c (s ++ t)). simpl. by rewrite IH.
Qed.

Lemma wrap_results_length (text : string) :
  String.length (wrap_results text) = (String.length text + 12)%nat.
Proof.
  unfold wrap_results.
  change ("{" ++ String dquote "results" ++ String dquote ":" ++ text ++ "}")
    with (("{" ++ String dquote "results" ++ String dquote ":") ++ text ++ "}").
  rewrite !string_length_app. simpl. lia.
Qed.

Lemma cacheKey_same_term (request1 request2 : Request) :
  search_term request2 = search_term request1 → cacheKey request2 = cacheKey request1.
Proof. unfold cacheKey, getCacheKey, search_term. by intros ->. Qed.

(** X5: a miss that finds documents leaves its answer in the cache, and in
    every later world in which that entry is still under its URL, however the
    world was reached, every valid GET request for the same term is served
    from it, whatever its autocomplete flag, its origin and the configuration
    it runs with: the only event is the lookup, so the backend store is not
    contacted, and the results of the answer are the stored object, which
    holds the documents of the first search. *)
Theorem stored_answer_serves_later_requests (request1 : Request) (env1 : Env) (w : World)
    (documents : list SearchResult) :
  method request1 = "GET" →
  detectEdgeCases (searchParams request1) = Return undefined →
  cache w !! cache_url w request1 = None →
  (searchZipCodes (search_term request1) (is_autocomplete request1) (MONGODB_URI env1)
     (looked_up (cacheKey request1) w)).1 = Return documents →
  ∃ stored,
    cache (fetch request1 env1 w).2 !! cache_url w request1 = Some stored
    ∧ status stored = 200
    ∧ body stored = BodyJSON (JObject [("results", JArray (JObject <$> documents))])
    ∧ ∀ (later : World) (request2 : Request) (env2 : Env),
        cache later !! cache_url later request1 = Some stored →
        method request2 = "GET" →
        detectEdgeCases (searchParams request2) = Return undefined →
        search_term request2 = search_term request1 →
        events (fetch request2 env2) later = [CacheMatch (cacheKey request1)]
        ∧ ∃ response,
            (fetch request2 env2 later).1 = Return response
            ∧ status response = 200
            ∧ body response
              = BodyJSON (JObject [("results",
                                    JObject [("results", JArray (JObject <$> documents))])]).
Proof.
  intros Hm1 Hd1 Hc1 Hs.
  exists (buildResultsResponse (JArray (JObject <$> documents))
            (origin_of request1 env1) (cacheTtl env1)).
  split; [| split; [done |]; split; [done |]].
  - destruct (search_found request1 env1 w documents Hs) as (server & Hacc & Hdb & Hf).
    pose proof (fetch_miss_run request1 env1 w Hm1 Hd1 Hc1) as Hrun. simpl in Hrun.
    rewrite Hacc, Hdb, Hf in Hrun. rewrite Hrun. simpl. apply lookup_insert_eq.
  - intros later request2 env2 Hc2 Hm2 Hd2 Hterm.
    pose proof (cacheKey_same_term request1 request2 Hterm) as Hkey.
    assert (Hurl : cache_url later request2 = cache_url later request1)
      by (unfold cache_url; by rewrite Hkey).
    rewrite <- Hurl in Hc2. split.
    + rewrite <- Hkey. by apply (fetch_hit_events request2 env2 _ _ Hm2 Hd2 Hc2).
    + rewrite (fetch_hit request2 env2 _ Hm2 _ Hd2 Hc2). by eexists.
Qed.

(** X5, witness: a full search for [spring], then a search for [paris], then
    the autocomplete request for [spring] from the configured domain. *)
Lemma stored_answer_serves_later_requests_witness :
  ∃ stored,
    cache Sample.warm !! cache_url Sample.world (Sample.GET [("search", "spring")] None)
    = Some stored
    ∧ events
        (fetch (Sample.GET [("query", "spring")] (Some "https://zip.example")) Sample.env)
        (fetch (Sample.GET [("search", "paris")] None) Sample.env Sample.warm).2
      = [CacheMatch (cacheKey (Sample.GET [("search", "spring")] None))]
    ∧ ∃ response,
        (fetch (Sample.GET [("query", "spring")] (Some "https://zip.example")) Sample.env
           (fetch (Sample.GET [("search", "paris")] None) Sample.env Sample.warm).2).1
        = Return response
        ∧ status response = 200
        ∧ body response
          = BodyJSON
              (JObject [("results",
                         JObject [("results",
                                   JArray (JObject <$> take 50
                                             (project projection <$>
                                                List.filter
                                                  (name_matches
                                                     (λ subject,
                                                        Sample.contains "spring"
                                                          (Sample.lowercase subject)))
                                                  Sample.cities)))])]).
Proof.
  destruct (stored_answer_serves_later_requests
              (Sample.GET [("search", "spring")] None) Sample.env Sample.world
              _ eq_refl eq_refl eq_refl eq_refl) as (stored & Hstored & _ & _ & Hlater).
  exists stored. split; [exact Hstored |].
  apply (Hlater (fetch (Sample.GET [("search", "paris")] None) Sample.env Sample.warm).2
           (Sample.GET [("query", "spring")] (Some "https://zip.example")) Sample.env);
    [| reflexivity ..].
  vm_compute in Hstored. injection Hstored as <-. reflexivity.
Defined.

(** X6: in a reachable world the body served on a hit is not the stored body:
    the stored object becomes the value of a further results property, so the
    text sent is the stored text wrapped once more, twelve code units
    longer. *)
Theorem hit_wraps_the_stored_text (request : Request) (env : Env) (w : World)
    (cached : Response) :
  reachable w →
  method request = "GET" →
  detectEdgeCases (searchParams request) = Return undefined →
  cache w !! cache_url w request = Some cached →
  ∃ response,
    (fetch request env w).1 = Return response
    ∧ Response_text response = wrap_results (Response_text cached)
    ∧ String.length (Response_text response)
      = (String.length (Response_text cached) + 12)%nat
    ∧ Response_text response ≠ Response_text cached.
Proof.
  intros Hw Hm Hd Hc.
  pose proof (reachable_cache w Hw _ _ Hc) as (results & origin & ttl & ->).
  rewrite (fetch_hit request env w Hm _ Hd Hc).
  exists (buildResultsResponse (JObject [("results", results)])
            (origin_of request env) (cacheTtl env)).
  split; [reflexivity |].
  assert (Ht : Response_text
                 (buildResultsResponse (JObject [("results", results)])
                    (origin_of request env) (cacheTtl env))
               = wrap_results (Response_text (buildResultsResponse results origin ttl)))
    by reflexivity.
  rewrite Ht. split; [done |]. split; [apply wrap_results_length |].
  intros Heq. apply (f_equal String.length) in Heq.
  rewrite wrap_results_length in Heq. lia.
Qed.

(** X6, witness: the autocomplete request for [spring] on the warm cache. *)
Lemma hit_wraps_the_stored_text_witness :
  ∃ cached,
    cache Sample.warm !! cache_url Sample.warm (Sample.GET [("query", "spring")] None) = Some cached
    ∧ ∃ response,
        (fetch (Sample.GET [("query", "spring")] None) Sample.env Sample.warm).1
        = Return response
        ∧ Response_text response = wrap_results (Response_text cached)
        ∧ String.length (Response_text response)
          = (String.length (Response_text cached) + 12)%nat
        ∧ Response_text response ≠ Response_text cached.
Proof.
  eexists. split; [reflexivity |].
  apply (hit_wraps_the_stored_text (Sample.GET [("query", "spring")] None)
           Sample.env Sample.warm);
    [ exact (reachable_fetch Sample.world _ Sample.env
               (reachable_start Sample.world eq_refl))
    | reflexivity | reflexivity | reflexivity ].
Defined.

(** ** When [fetch] throws, and what it answers *)

Lemma fetch_miss_returns (request : Request) (env : Env) (w : World) :
  method request = "GET" →
  detectEdgeCases (searchParams request) = Return undefined →
  cache w !! cache_url w request = None →
  ∃ response,
    (fetch request env w).1 = Return response
    ∧ (status response = 200 ∨ response = internal_server_error).
Proof.
  intros Hm Hd Hc. rewrite (fetch_miss_run request env w Hm Hd Hc).
  destruct (MongoClient_accepts w (MONGODB_URI env));
    [| eexists; split; [reflexivity | auto]].
  destruct (mongodb w (MONGODB_URI env)) as [server |].
  - destruct (find_documents server _ _ _); eexists; split; try reflexivity; auto.
  - eexists. split; [reflexivity | auto].
Qed.

(** X7: with a configured domain of printable ASCII, which the platform
    takes as a header value, [fetch] throws in one case only: a valid GET
    request whose lookup finds an entry with a body that does not parse; the
    error is then Invalid response.  Every other run returns a response; an
    error of the search, that of the constructor of the client included, is
    caught. *)
Theorem fetch_throws_only_on_unparsable_hit (request : Request) (env : Env) (w : World)
    (e : Error) :
  printable (DOMAIN env) = true →
  (fetch request env w).1 = Throw e →
  e = Error_ "Invalid response"
  ∧ method request = "GET"
  ∧ detectEdgeCases (searchParams request) = Return undefined
  ∧ ∃ cached e',
      cache w !! cache_url w request = Some cached ∧ Response_json cached = Throw e'.
Proof.
  intros _ Ht.
  destruct (decide (method request = "GET")) as [Hm | Hm].
  - destruct (path_total request w) as [err Hd | Hd | cached Hd Hc | Hd Hc].
    + destruct (fetch_no_events request env w) as (response & Hr); [eauto |].
      rewrite Hr in Ht. discriminate Ht.
    + destruct (fetch_no_events request env w) as (response & Hr); [eauto |].
      rewrite Hr in Ht. discriminate Ht.
    + rewrite (fetch_hit request env w Hm cached Hd Hc) in Ht. cbn [fst] in Ht.
      unfold processResults in Ht.
      destruct (Response_json cached) as [parsed | e'] eqn:Hj; [discriminate |].
      injection Ht as <-. repeat split; try done. by exists cached, e'.
    + destruct (fetch_miss_returns request env w Hm Hd Hc) as (response & Hr & _).
      rewrite Hr in Ht. discriminate Ht.
  - destruct (fetch_no_events request env w) as (response & Hr); [eauto |].
    rewrite Hr in Ht. discriminate Ht.
Qed.

(** X7, witness: a platform whose cache holds a plain-text entry under the
    key of the sample search for [paris]. *)
Lemma fetch_throws_only_on_unparsable_hit_witness :
  Error_ "Invalid response" = Error_ "Invalid response"
  ∧ method (Sample.GET [("search", "paris")] None) = "GET"
  ∧ detectEdgeCases (searchParams (Sample.GET [("search", "paris")] None))
    = Return undefined
  ∧ ∃ cached e',
      cache Sample.stale
        !! cache_url Sample.stale (Sample.GET [("search", "paris")] None) = Some cached
      ∧ Response_json cached = Throw e'.
Proof.
  apply (fetch_throws_only_on_unparsable_hit (Sample.GET [("search", "paris")] None)
           Sample.env Sample.stale); reflexivity.
Defined.

(** X8: in a reachable world, with a configured domain of printable ASCII,
    which the platform takes as a header value, [fetch] always answers, and
    the status of the answer is 200, 400, 405 or 500. *)
Theorem fetch_answers_in_reachable_world (request : Request) (env : Env) (w : World) :
  reachable w →
  printable (DOMAIN env) = true →
  ∃ response,
    (fetch request env w).1 = Return response
    ∧ status response ∈ [200; 400; 405; 500].
Proof.
  intros Hw _.
  destruct (decide (method request = "GET")) as [Hm | Hm].
  - destruct (path_total request w) as [err Hd | Hd | cached Hd Hc | Hd Hc].
    + rewrite (fetch_rejected request env w Hm err Hd). eexists.
      split; [reflexivity |]. simpl. in_list.
    + rewrite (fetch_short_circuit request env w Hm Hd). eexists.
      split; [reflexivity |]. simpl. in_list.
    + pose proof (reachable_cache w Hw _ _ Hc) as Hentry. simpl in Hentry.
      destruct (processResults_worker_entry cached Hentry) as (results & Hp).
      rewrite (fetch_hit request env w Hm cached Hd Hc), Hp. eexists.
      split; [reflexivity |]. simpl. in_list.
    + destruct (fetch_miss_returns request env w Hm Hd Hc) as (response & Hr & Hs).
      exists response. split; [done |].
      destruct Hs as [-> | ->]; simpl; in_list.
  - destruct (decide (method request = "OPTIONS")) as [Ho | Ho].
    { rewrite (fetch_OPTIONS request env w Ho). eexists. split; [reflexivity |].
      unfold handleOptions. destruct (hasValidOrigin request env); simpl; in_list. }
    destruct (decide (method request = "HEAD")) as [Hh | Hh].
    { rewrite (fetch_HEAD request env w Hh). eexists. split; [reflexivity |].
      simpl. in_list. }
    rewrite fetch_method_not_allowed
      by (rewrite !not_elem_of_cons; repeat split; [done .. | apply not_elem_of_nil]).
    eexists.
    split; [reflexivity |]. simpl. in_list.
Qed.

(** X8, witness: the sample search on the warm cache. *)
Lemma fetch_answers_in_reachable_world_witness :
  ∃ response,
    (fetch (Sample.GET [("query", "spring")] None) Sample.env Sample.warm).1
    = Return response
    ∧ status response ∈ [200; 400; 405; 500].
Proof.
  apply (fetch_answers_in_reachable_world (Sample.GET [("query", "spring")] None)
           Sample.env Sample.warm);
    [ exact (reachable_fetch Sample.world _ Sample.env
               (reachable_start Sample.world eq_refl))
    | reflexivity ].
Defined.

(** ** The validator, case by case *)

Lemma falsy_absent_or_empty (v : option string) :
  truthy v = false ↔ absent_or_empty v.
Proof.
  split; [| apply absent_or_empty_falsy].
  destruct v as [s |]; [| by left]. simpl.
  destruct (String.eqb_spec s "") as [-> | Hne]; [by right | discriminate].
Qed.

Lemma truthy_present_nonempty (v : option string) :
  truthy v = true ↔ present_nonempty v.
Proof.
  split; [| apply present_nonempty_truthy].
  destruct v as [s |]; [| discriminate]. intros Hs. exists s.
  split; [done |]. by apply truthy_Some.
Qed.

Lemma truthy_cases (v : option string) : absent_or_empty v ∨ present_nonempty v.
Proof.
  destruct (truthy v) eqn:Hv.
  - right. by apply truthy_present_nonempty.
  - left. by apply falsy_absent_or_empty.
Qed.

Lemma absent_not_present (v : option string) :
  absent_or_empty v → present_nonempty v → False.
Proof.
  intros Ha Hp. apply absent_or_empty_falsy in Ha.
  apply present_nonempty_truthy in Hp. congruence.
Qed.

Lemma detectEdgeCases_entry (params : list (string * string)) (v : string) :
  the_entry params v →
  detectEdgeCases params
  = if (String.length v <? 3)%nat then Return null else Return undefined.
Proof.
  intros (Hne & [[Hq Hs] | [Hq Hs]]).
  - by apply detectEdgeCases_query.
  - by apply detectEdgeCases_search.
Qed.

(** The three cases of the parameters: none to search for, two to search for,
    or one entry. *)
Lemma params_cases (params : list (string * string)) :
  (absent_or_empty (get "query" params) ∧ absent_or_empty (get "search" params))
  ∨ (present_nonempty (get "query" params) ∧ present_nonempty (get "search" params))
  ∨ ∃ v, the_entry params v.
Proof.
  destruct (truthy_cases (get "query" params)) as [Hq | (q & Hq & Hqne)],
    (truthy_cases (get "search" params)) as [Hs | (s & Hs & Hsne)].
  - by left.
  - right. right. exists s. split; [done |]. by right.
  - right. right. exists q. split; [done |]. by left.
  - right. left. split; [by exists q | by exists s].
Qed.

Lemma the_entry_unique (params : list (string * string)) (v v' : string) :
  the_entry params v → the_entry params v' → v = v'.
Proof.
  intros (Hne & [[Hq Hs] | [Hq Hs]]) (Hne' & [[Hq' Hs'] | [Hq' Hs']]).
  - congruence.
  - exfalso. apply (absent_not_present _ Hq'). by exists v.
  - exfalso. apply (absent_not_present _ Hq). by exists v'.
  - congruence.
Qed.

Lemma the_entry_not_neither (params : list (string * string)) (v : string) :
  the_entry params v →
  ¬ (absent_or_empty (get "query" params) ∧ absent_or_empty (get "search" params)).
Proof.
  intros (Hne & [[Hq _] | [_ Hs]]) [Haq Has].
  - apply (absent_not_present _ Haq). by exists v.
  - apply (absent_not_present _ Has). by exists v.
Qed.

Lemma the_entry_not_both (params : list (string * string)) (v : string) :
  the_entry params v →
  ¬ (present_nonempty (get "query" params) ∧ present_nonempty (get "search" params)).
Proof.
  intros (Hne & [[_ Hs] | [Hq _]]) [Hpq Hps].
  - by apply (absent_not_present _ Hs).
  - by apply (absent_not_present _ Hq).
Qed.

(** X9: the complete table of [detectEdgeCases].  It throws exactly when no
    parameter or both parameters hold a non-empty value, and the error is
    always Bad Request, never the TypeError of a null entry; it returns null
    exactly when the one entry has fewer than 3 code units, and undefined
    exactly when the one entry has 3 or more. *)
Theorem detectEdgeCases_table (params : list (string * string)) :
  (∀ e, detectEdgeCases params = Throw e → e = Error_ "Bad Request")
  ∧ (detectEdgeCases params = Throw (Error_ "Bad Request")
     ↔ (absent_or_empty (get "query" params) ∧ absent_or_empty (get "search" params))
       ∨ (present_nonempty (get "query" params)
          ∧ present_nonempty (get "search" params)))
  ∧ (detectEdgeCases params = Return null
     ↔ ∃ v, the_entry params v ∧ (String.length v < 3)%nat)
  ∧ (detectEdgeCases params = Return undefined
     ↔ ∃ v, the_entry params v ∧ (3 ≤ String.length v)%nat).
Proof.
  assert (Hthrow : detectEdgeCases params = Throw (Error_ "Bad Request") →
    (∀ e, detectEdgeCases params = Throw e → e = Error_ "Bad Request")
    ∧ (detectEdgeCases params = Return null → False)
    ∧ (detectEdgeCases params = Return undefined → False)).
  { intros ->. split; [by intros e [= <-] |]. by split. }
  destruct (params_cases params) as [[Hq Hs] | [[Hq Hs] | (v & Hv)]].
  - pose proof (detectEdgeCases_neither params Hq Hs) as Hd.
    destruct (Hthrow Hd) as (He & Hnull & Hundef).
    split; [done |]. split; [split; [by left | done] |].
    split; (split; [done |]); intros (v & Hv & _); exfalso;
      by apply (the_entry_not_neither params v Hv).
  - pose proof (detectEdgeCases_both params Hq Hs) as Hd.
    destruct (Hthrow Hd) as (He & Hnull & Hundef).
    split; [done |]. split; [split; [by right | done] |].
    split; (split; [done |]); intros (v & Hv & _); exfalso;
      by apply (the_entry_not_both params v Hv).
  - pose proof (detectEdgeCases_entry params v Hv) as Hd.
    assert (Hno : ¬ ((absent_or_empty (get "query" params)
                      ∧ absent_or_empty (get "search" params))
                     ∨ (present_nonempty (get "query" params)
                        ∧ present_nonempty (get "search" params)))).
    { intros [H | H];
        [by apply (the_entry_not_neither params v Hv)
        | by apply (the_entry_not_both params v Hv)]. }
    destruct (Nat.ltb_spec (String.length v) 3) as [Hlt | Hge]; rewrite Hd.
    + split; [discriminate |]. split; [split; [discriminate | done] |].
      split; [split; [by exists v | done] |].
      split; [discriminate |]. intros (v' & Hv' & Hlen).
      rewrite (the_entry_unique params v' v Hv' Hv) in Hlen. lia.
    + split; [discriminate |]. split; [split; [discriminate | done] |].
      split; [| split; [by exists v | done]].
      split; [discriminate |]. intros (v' & Hv' & Hlen).
      rewrite (the_entry_unique params v' v Hv' Hv) in Hlen. lia.
Qed.

Lemma valid_entry (params : list (string * string)) :
  detectEdgeCases params = Return undefined →
  ∃ v, the_entry params v ∧ (3 ≤ String.length v)%nat.
Proof.
  intros Hd.
  destruct (params_cases params) as [[Hq Hs] | [[Hq Hs] | (v & Hv)]].
  - rewrite (detectEdgeCases_neither params Hq Hs) in Hd. discriminate Hd.
  - rewrite (detectEdgeCases_both params Hq Hs) in Hd. discriminate Hd.
  - rewrite (detectEdgeCases_entry params v Hv) in Hd. exists v. split; [done |].
    destruct (Nat.ltb_spec (String.length v) 3); [discriminate | done].
Qed.

Lemma is_autocomplete_query (request : Request) :
  is_autocomplete request = true ↔ is_Some (get "query" (searchParams request)).
Proof.
  unfold is_autocomplete, buildSearchQuery. simpl.
  destruct (get "query" (searchParams request)) as [q |].
  - split; [by eexists | done].
  - split; [done | by intros [? ?]].
Qed.

(** X10: what the backend store is asked.  The pattern of a query is the term
    of the search query; it is the validated entry, of 3 code units or more,
    unless [query] is given empty, in which case the pattern is the empty
    string.  The row limit is 10 when [query] is given, even empty, and 50
    when it is absent. *)
Theorem backend_query (request : Request) (env : Env) (w : World)
    (pattern : string) (limit : nat) :
  MongoFind pattern limit ∈ events (fetch request env) w →
  pattern = search_term request
  ∧ ((the_entry (searchParams request) pattern ∧ (3 ≤ String.length pattern)%nat)
     ∨ (pattern = "" ∧ get "query" (searchParams request) = Some ""))
  ∧ ((limit = 10%nat ∧ is_Some (get "query" (searchParams request)))
     ∨ (limit = 50%nat ∧ get "query" (searchParams request) = None)).
Proof.
  intros Hin.
  destruct (backend_event_path request env w _ Hin eq_refl) as (Hm & Hd & Hc).
  rewrite (fetch_miss_events request env w Hm Hd Hc) in Hin. unfold miss_events in Hin.
  assert (Hpl : pattern = search_term request
                ∧ limit = row_limit (is_autocomplete request)).
  { destruct (MongoClient_accepts w (MONGODB_URI env)); [| no_store Hin].
    destruct (mongodb w (MONGODB_URI env)) as [server |].
    - apply elem_of_cons in Hin as [Hin | Hin]; [discriminate |].
      apply elem_of_cons in Hin as [Hin | Hin]; [discriminate |].
      apply elem_of_cons in Hin as [Hin | Hin]; [by injection Hin |].
      apply elem_of_cons in Hin as [Hin | Hin]; [discriminate |].
      destruct (find_documents server _ _ _); no_store Hin.
    - no_store Hin. }
  destruct Hpl as [-> ->]. split; [done |].
  destruct (valid_entry _ Hd) as (v & Hv & Hlen).
  pose proof (is_autocomplete_query request) as Hauto.
  unfold search_term, buildSearchQuery. simpl.
  destruct Hv as (Hne & [[Hq Hs] | [Hq Hs]]).
  - rewrite Hq in *. simpl. split.
    + left. split; [| done]. split; [done |]. by left.
    + left. split; [| by eexists]. by rewrite (proj2 Hauto) by by eexists.
  - destruct Hq as [Hq | Hq]; rewrite Hq in *; simpl.
    + rewrite Hs. simpl. split.
      * left. split; [| done]. split; [done |]. right. split; [by left | done].
      * right. split; [| done].
        destruct (is_autocomplete request); [| done].
        by destruct (proj1 Hauto eq_refl).
    + split; [by right |].
      left. split; [| by eexists]. by rewrite (proj2 Hauto) by by eexists.
Qed.

(** X10, witness: the query of the first sample search for [paris]. *)
Lemma backend_query_witness :
  "paris" = search_term (Sample.GET [("search", "paris")] None)
  ∧ ((the_entry (searchParams (Sample.GET [("search", "paris")] None)) "paris"
      ∧ (3 ≤ String.length "paris")%nat)
     ∨ ("paris" = ""
        ∧ get "query" (searchParams (Sample.GET [("search", "paris")] None)) = Some ""))
  ∧ ((50%nat = 10%nat
      ∧ is_Some (get "query" (searchParams (Sample.GET [("search", "paris")] None))))
     ∨ (50%nat = 50%nat
        ∧ get "query" (searchParams (Sample.GET [("search", "paris")] None)) = None)).
Proof.
  apply (backend_query (Sample.GET [("search", "paris")] None) Sample.env Sample.world).
  vm_compute. in_list.
Defined.

(** ** The answers, by status *)

(** What a GET request that passed the validation can be answered with. *)
Lemma fetch_valid_status (request : Request) (env : Env) (w : World)
    (response : Response) :
  method request = "GET" →
  detectEdgeCases (searchParams request) = Return undefined →
  (fetch request env w).1 = Return response →
  status response = 200 ∨ response = internal_server_error.
Proof.
  intros Hm Hd Hr.
  destruct (cache w !! cache_url w request) as [cached |] eqn:Hc.
  - rewrite (fetch_hit request env w Hm cached Hd Hc) in Hr. cbn [fst] in Hr.
    destruct (processResults (Some cached)); [| discriminate].
    injection Hr as <-. by left.
  - destruct (fetch_miss_returns request env w Hm Hd Hc) as (response' & Hr' & Hs).
    rewrite Hr' in Hr. by injection Hr as <-.
Qed.

(** X11: a GET request is answered with status 400 exactly when [query] and
    [search] are both absent or empty, or both given with a non-empty
    value. *)
Theorem bad_request_iff (request : Request) (env : Env) (w : World) :
  method request = "GET" →
  (∃ response, (fetch request env w).1 = Return response ∧ status response = 400)
  ↔ (absent_or_empty (get "query" (searchParams request))
     ∧ absent_or_empty (get "search" (searchParams request)))
    ∨ (present_nonempty (get "query" (searchParams request))
       ∧ present_nonempty (get "search" (searchParams request))).
Proof.
  intros Hm. split.
  - intros (response & Hr & Hs).
    destruct (params_cases (searchParams request)) as [H | [H | (v & Hv)]];
      [by left | by right |].
    exfalso. pose proof (detectEdgeCases_entry _ v Hv) as Hd.
    destruct (String.length v <? 3)%nat.
    + rewrite (fetch_short_circuit request env w Hm Hd) in Hr.
      injection Hr as <-. discriminate Hs.
    + destruct (fetch_valid_status request env w response Hm Hd Hr) as [H | ->];
        [rewrite H in Hs |]; discriminate Hs.
  - intros H.
    assert (Hd : detectEdgeCases (searchParams request) = Throw (Error_ "Bad Request")).
    { destruct H as [[Hq Hs] | [Hq Hs]];
        [by apply detectEdgeCases_neither | by apply detectEdgeCases_both]. }
    rewrite (fetch_rejected request env w Hm _ Hd). by eexists.
Qed.

(** X11, witness: the sample request with no parameter. *)
Lemma bad_request_iff_witness :
  (∃ response,
     (fetch (Sample.GET [] None) Sample.env Sample.world).1 = Return response
     ∧ status response = 400)
  ↔ (absent_or_empty (get "query" (searchParams (Sample.GET [] None)))
     ∧ absent_or_empty (get "search" (searchParams (Sample.GET [] None))))
    ∨ (present_nonempty (get "query" (searchParams (Sample.GET [] None)))
       ∧ present_nonempty (get "search" (searchParams (Sample.GET [] None)))).
Proof.
  apply (bad_request_iff (Sample.GET [] None) Sample.env Sample.world). reflexivity.
Defined.

(** X12: the methods other than GET.  OPTIONS and HEAD get the same answer,
    status 200 with no body and the CORS headers of the configured domain,
    whatever the Origin header and the parameters; any other method gets 405
    with a plain-text body.  None of them touches the cache or the backend
    store. *)
Theorem other_methods (request : Request) (env : Env) (w : World) :
  (method request = "OPTIONS" ∨ method request = "HEAD" →
   fetch request env w
   = (Return {| status := 200; body := BodyNull;
                headers := setCorsHeaders (DOMAIN env) |}, w))
  ∧ (method request ∉ ["OPTIONS"; "GET"; "HEAD"] →
     fetch request env w
     = (Return {| status := 405; body := BodyText "Method Not Allowed";
                  headers := [("content-type", "text/plain")] |}, w)).
Proof.
  split.
  - intros [Hm | Hm].
    + rewrite (fetch_OPTIONS request env w Hm). unfold handleOptions.
      by destruct (hasValidOrigin request env).
    + by rewrite (fetch_HEAD request env w Hm).
  - intros Hm. by rewrite (fetch_method_not_allowed request env w Hm).
Qed.

(** X12, witness: a HEAD request from a foreign origin, and a POST. *)
Lemma other_methods_witness :
  fetch {| method := "HEAD"; searchParams := [("search", "paris")];
           request_headers := [("origin", "https://other.example")] |}
    Sample.env Sample.world
  = (Return {| status := 200; body := BodyNull;
               headers := setCorsHeaders (DOMAIN Sample.env) |}, Sample.world)
  ∧ fetch {| method := "POST"; searchParams := [("search", "paris")];
             request_headers := [] |}
      Sample.env Sample.world
    = (Return {| status := 405; body := BodyText "Method Not Allowed";
                 headers := [("content-type", "text/plain")] |}, Sample.world).
Proof.
  split.
  - apply (proj1 (other_methods _ Sample.env Sample.world)). by right.
  - apply (proj2 (other_methods _ Sample.env Sample.world)).
    rewrite !not_elem_of_cons. repeat split; [done .. | apply not_elem_of_nil].
Defined.

(** X13: the answers that are not 200 are plain text without CORS headers:
    whatever the Origin header, a response of [fetch] with another status has
    exactly one header, content-type text/plain, so a page of the configured
    domain cannot read the reason of a failure. *)
Theorem errors_carry_no_cors_headers (request : Request) (env : Env) (w : World)
    (response : Response) :
  (fetch request env w).1 = Return response →
  status response ≠ 200 →
  headers response = [("content-type", "text/plain")]
  ∧ cors_headers (headers response) = []
  ∧ ∃ message, body response = BodyText message.
Proof.
  intros Hr Hs.
  destruct (decide (method request = "GET")) as [Hm | Hm].
  - destruct (detectEdgeCases (searchParams request)) as [[|] | err] eqn:Hd.
    + rewrite (fetch_short_circuit request env w Hm Hd) in Hr. by injection Hr as <-.
    + destruct (fetch_valid_status request env w response Hm Hd Hr) as [H | ->];
        [done |]. split; [done |]. split; [done | by eexists].
    + rewrite (fetch_rejected request env w Hm err Hd) in Hr. injection Hr as <-.
      split; [done |]. split; [done | by eexists].
  - destruct (decide (method request = "OPTIONS")) as [Ho | Ho].
    { rewrite (fetch_OPTIONS request env w Ho) in Hr. injection Hr as <-.
      exfalso. apply Hs. unfold handleOptions. by destruct (hasValidOrigin request env). }
    destruct (decide (method request = "HEAD")) as [Hh | Hh].
    { rewrite (fetch_HEAD request env w Hh) in Hr. by injection Hr as <-. }
    rewrite fetch_method_not_allowed in Hr
      by (rewrite !not_elem_of_cons; repeat split; [done .. | apply not_elem_of_nil]).
    injection Hr as <-. split; [done |]. split; [done | by eexists].
Qed.

(** X13, witness: the failed sample search, sent from the configured domain. *)
Lemma errors_carry_no_cors_headers_witness :
  headers internal_server_error = [("content-type", "text/plain")]
  ∧ cors_headers (headers internal_server_error) = []
  ∧ ∃ message, body internal_server_error = BodyText message.
Proof.
  apply (errors_carry_no_cors_headers
           (Sample.GET [("search", "paris")] (Some "https://zip.example"))
           Sample.env Sample.offline internal_server_error);
    [reflexivity | discriminate].
Defined.

(** ** What a run changes *)

Lemma fetch_trace (request : Request) (env : Env) (w : World) :
  trace (fetch request env w).2 = (trace w ++ events (fetch request env) w)%list.
Proof.
  assert (Hl : ∃ l, trace (fetch request env w).2 = (trace w ++ l)%list).
  { destruct (decide (method request = "GET")) as [Hm | Hm].
    - destruct (path_total request w) as [err Hd | Hd | cached Hd Hc | Hd Hc].
      + destruct (fetch_no_events request env w) as (response & ->); [eauto |].
        exists []. by rewrite app_nil_r.
      + destruct (fetch_no_events request env w) as (response & ->); [eauto |].
        exists []. by rewrite app_nil_r.
      + rewrite (fetch_hit request env w Hm cached Hd Hc). by eexists.
      + rewrite (fetch_miss_run request env w Hm Hd Hc).
        destruct (MongoClient_accepts w (MONGODB_URI env)); [| by eexists].
        destruct (mongodb w (MONGODB_URI env)) as [server |]; [| by eexists].
        destruct (find_documents server _ _ _); by eexists.
    - destruct (fetch_no_events request env w) as (response & ->); [eauto |].
      exists []. by rewrite app_nil_r. }
  destruct Hl as (l & Hl). by rewrite (events_added _ _ _ Hl).
Qed.

Lemma fetch_mongodb (request : Request) (env : Env) (w : World) :
  mongodb (fetch request env w).2 = mongodb w.
Proof.
  destruct (decide (method request = "GET")) as [Hm | Hm].
  - destruct (path_total request w) as [err Hd | Hd | cached Hd Hc | Hd Hc].
    + by destruct (fetch_no_events request env w) as (response & ->); [eauto |].
    + by destruct (fetch_no_events request env w) as (response & ->); [eauto |].
    + by rewrite (fetch_hit request env w Hm cached Hd Hc).
    + rewrite (fetch_miss_run request env w Hm Hd Hc).
      destruct (MongoClient_accepts w (MONGODB_URI env)); [| done].
      destruct (mongodb w (MONGODB_URI env)) as [server |] eqn:Hdb; [| done].
      by destruct (find_documents server _ _ _).
  - by destruct (fetch_no_events request env w) as (response & ->); [eauto |].
Qed.

Lemma fetch_Request_url (request : Request) (env : Env) (w : World) :
  Request_url (fetch request env w).2 = Request_url w.
Proof.
  destruct (decide (method request = "GET")) as [Hm | Hm].
  - destruct (path_total request w) as [err Hd | Hd | cached Hd Hc | Hd Hc].
    + by destruct (fetch_no_events request env w) as (response & ->); [eauto |].
    + by destruct (fetch_no_events request env w) as (response & ->); [eauto |].
    + by rewrite (fetch_hit request env w Hm cached Hd Hc).
    + rewrite (fetch_miss_run request env w Hm Hd Hc).
      destruct (MongoClient_accepts w (MONGODB_URI env)); [| done].
      destruct (mongodb w (MONGODB_URI env)) as [server |] eqn:Hdb; [| done].
      by destruct (find_documents server _ _ _).
  - by destruct (fetch_no_events request env w) as (response & ->); [eauto |].
Qed.

(** The cache after a run: as before, or with the answer of a successful
    search added under the key of the request, which was absent. *)
Lemma fetch_cache_entry (request : Request) (env : Env) (w : World) :
  cache (fetch request env w).2 = cache w
  ∨ ∃ documents,
      cache w !! cache_url w request = None
      ∧ (searchZipCodes (search_term request) (is_autocomplete request) (MONGODB_URI env)
           (looked_up (cacheKey request) w)).1 = Return documents
      ∧ cache (fetch request env w).2
        = <[cache_url w request :=
              buildResultsResponse (JArray (JObject <$> documents))
                (origin_of request env) (cacheTtl env)]> (cache w).
Proof.
  destruct (decide (method request = "GET")) as [Hm | Hm].
  - destruct (path_total request w) as [err Hd | Hd | cached Hd Hc | Hd Hc].
    + left. by destruct (fetch_no_events request env w) as (response & ->); [eauto |].
    + left. by destruct (fetch_no_events request env w) as (response & ->); [eauto |].
    + left. by rewrite (fetch_hit request env w Hm cached Hd Hc).
    + rewrite (fetch_miss_run request env w Hm Hd Hc), searchZipCodes_looked_up.
      destruct (MongoClient_accepts w (MONGODB_URI env)); [| by left].
      destruct (mongodb w (MONGODB_URI env)) as [server |]; [| by left].
      destruct (find_documents server _ _ _) as [documents |]; [| by left].
      right. by exists documents.
  - left. by destruct (fetch_no_events request env w) as (response & ->); [eauto |].
Qed.

(** X14: what a run of [fetch], taken on its own, does to the platform.  The
    trace only grows, by the events of the run; the deployments and the URL
    parser are untouched; the run removes no entry from the cache; and the
    entry under any URL but that of the request's key is left as it was. *)
Theorem fetch_touches_only_its_entry (request : Request) (env : Env) (w : World) :
  trace (fetch request env w).2 = (trace w ++ events (fetch request env) w)%list
  ∧ mongodb (fetch request env w).2 = mongodb w
  ∧ Request_url (fetch request env w).2 = Request_url w
  ∧ (∀ key, is_Some (cache w !! key) → is_Some (cache (fetch request env w).2 !! key))
  ∧ (∀ key,
       key ≠ cache_url w request →
       cache (fetch request env w).2 !! key = cache w !! key).
Proof.
  split; [apply fetch_trace |]. split; [apply fetch_mongodb |].
  split; [apply fetch_Request_url |].
  destruct (fetch_cache_entry request env w) as [-> | (documents & Hc & _ & ->)].
  - by split.
  - split.
    + intros key Hk. rewrite lookup_insert_ne; [done |]. intros <-.
      rewrite Hc in Hk. by destruct Hk.
    + intros key Hne. by rewrite lookup_insert_ne.
Qed.

(** X15: every 200 answer to a GET request is a JSON object with the one
    property results, and its value is never falsy: not null, false, 0 or the
    empty string, whatever the cache returned. *)
Theorem success_body_shape (request : Request) (env : Env) (w : World)
    (response : Response) :
  method request = "GET" →
  (fetch request env w).1 = Return response →
  status response = 200 →
  ∃ results,
    body response = BodyJSON (JObject [("results", results)])
    ∧ JSON_truthy results = true
    ∧ Response_text response = wrap_results (JSON_stringify results)
    ∧ get "content-type" (headers response) = Some "application/json".
Proof.
  intros Hm Hr Hs.
  destruct (path_total request w) as [err Hd | Hd | cached Hd Hc | Hd Hc].
  - rewrite (fetch_rejected request env w Hm err Hd) in Hr.
    injection Hr as <-. discriminate Hs.
  - rewrite (fetch_short_circuit request env w Hm Hd) in Hr.
    injection Hr as <-. by eexists.
  - rewrite (fetch_hit request env w Hm cached Hd Hc) in Hr. cbn [fst] in Hr.
    destruct (processResults (Some cached)) as [results |] eqn:Hp; [| discriminate].
    injection Hr as <-. exists results. repeat split.
    unfold processResults in Hp.
    destruct (Response_json cached) as [parsed |]; [| discriminate].
    injection Hp as <-. by destruct (JSON_truthy parsed) eqn:Ht.
  - rewrite (fetch_miss_run request env w Hm Hd Hc) in Hr.
    destruct (MongoClient_accepts w (MONGODB_URI env));
      [| simpl in Hr; injection Hr as <-; discriminate Hs].
    destruct (mongodb w (MONGODB_URI env)) as [server |].
    + destruct (find_documents server _ _ _) as [documents |]; simpl in Hr;
        injection Hr as <-; [by eexists | discriminate Hs].
    + simpl in Hr. injection Hr as <-. discriminate Hs.
Qed.

(** X15, witness: a cache entry whose body is the JSON text null is served as
    the empty list. *)
Lemma success_body_shape_witness :
  ∃ results,
    body (buildResultsResponse (JArray []) None 600)
    = BodyJSON (JObject [("results", results)])
    ∧ JSON_truthy results = true
    ∧ Response_text (buildResultsResponse (JArray []) None 600)
      = wrap_results (JSON_stringify results)
    ∧ get "content-type" (headers (buildResultsResponse (JArray []) None 600))
      = Some "application/json".
Proof.
  apply (success_body_shape (Sample.GET [("search", "paris")] None) Sample.env
           {| cache := {["https://cache.internal/zip-search:paris" :=
                           buildResponse 200 (BodyJSON JNull) None]};
              mongodb := mongodb Sample.world;
              trace := [];
              Request_url := Request_url Sample.world;
              MongoClient_accepts := MongoClient_accepts Sample.world;
     MongoParseError := MongoParseError Sample.world |}
           (buildResultsResponse (JArray []) None 600)); reflexivity.
Defined.

Lemma search_result_entry (request : Request) (env : Env) (w : World)
    (documents : list SearchResult) :
  (searchZipCodes (search_term request) (is_autocomplete request) (MONGODB_URI env)
     (looked_up (cacheKey request) w)).1 = Return documents →
  search_entry (buildResultsResponse (JArray (JObject <$> documents))
                  (origin_of request env) (cacheTtl env)).
Proof.
  intros Hs. destruct (search_found request env w documents Hs) as (server & _ & _ & Hf).
  destruct (find_documents_bound _ _ _ _ _ Hf) as [Hlen Hfields].
  exists documents, (origin_of request env), (cacheTtl env).
  split; [done |]. split.
  - etrans; [exact Hlen |]. unfold row_limit. destruct (is_autocomplete request); lia.
  - eapply Forall_impl; [exact Hfields |].
    intros d Hd field value Hin. specialize (Hd field value Hin).
    unfold projection in Hd. rewrite !elem_of_cons in Hd.
    destruct Hd as [-> | [-> | Hnil]]; [by right | by left | by apply elem_of_nil in Hnil].
Qed.

(** X16: the cache holds nothing but answers of searches: in a reachable
    world every entry is a 200 JSON response whose results are a list of at
    most 50 documents with no field but zip and name.  No error response and
    no answer served from the cache is ever stored. *)
Theorem cache_holds_only_search_results (w : World) (key : string) (entry : Response) :
  reachable w →
  cache w !! key = Some entry →
  search_entry entry ∧ status entry = 200.
Proof.
  intros Hw. revert key entry.
  induction Hw as [w Hw | w request env _ IH | w evicted _ IH | w deployments _ IH];
    intros key entry Hk.
  - rewrite Hw in Hk. by rewrite lookup_empty in Hk.
  - destruct (fetch_cache_entry request env w) as [Hc | (documents & _ & Hs & Hc)];
      rewrite Hc in Hk; [by apply (IH key) |].
    destruct (decide (cache_url w request = key)) as [<- | Hne].
    + rewrite lookup_insert_eq in Hk. injection Hk as <-.
      split; [by apply (search_result_entry request env w) | done].
    + rewrite lookup_insert_ne in Hk by done. by apply (IH key).
  - simpl in Hk. apply lookup_delete_Some in Hk as [_ Hk]. by apply (IH key).
  - by apply (IH key).
Qed.

(** X16, witness: the entry of the warm cache. *)
Lemma cache_holds_only_search_results_witness :
  ∃ entry,
    cache Sample.warm !! "https://cache.internal/zip-search:spring" = Some entry
    ∧ search_entry entry ∧ status entry = 200.
Proof.
  eexists. split; [reflexivity |].
  apply (cache_holds_only_search_results Sample.warm
           "https://cache.internal/zip-search:spring");
    [ exact (reachable_fetch Sample.world _ Sample.env
               (reachable_start Sample.world eq_refl))
    | reflexivity ].
Defined.

(** ** The TTL that [parseInt] reads *)

Lemma not_digit_value (c : ascii) : ¬ is_digit c → digit_value c = None.
Proof.
  unfold is_digit, digit_value. intros Hn.
  destruct (_ && _) eqn:E; [| done].
  apply andb_true_iff in E as [H1 H2]. apply N.leb_le in H1, H2. by destruct Hn.
Qed.

Lemma parse_digits_stops (tail : string) (acc : Z) :
  no_leading_digit tail → parse_digits acc tail = acc.
Proof.
  intros [-> | (c & rest & -> & Hc)]; [done |].
  simpl. by rewrite (not_digit_value c Hc).
Qed.

Lemma parse_digits_app (digits : string) (u : uint) (tail : string) :
  NilEmpty.uint_of_string digits = Some u →
  no_leading_digit tail →
  ∀ acc, parse_digits acc (digits ++ tail) = parse_digits acc digits.
Proof.
  revert u. induction digits as [| c rest IH]; intros u Hu Htail acc.
  - change ("" ++ tail) with tail. by rewrite parse_digits_stops.
  - change (String c rest ++ tail) with (String c (rest ++ tail)). simpl.
    simpl in Hu. destruct (NilEmpty.uint_of_string rest) as [u' |]; [| discriminate].
    destruct (digit_value c); [| done]. by apply (IH u').
Qed.

Lemma parse_digits_value (digits : string) (n : Z) :
  nonnegative_integer digits n → parse_digits 0 digits = n.
Proof.
  intros (_ & u & Hu & ->). rewrite (parse_digits_uint digits u Hu).
  unfold Z.of_uint. rewrite Unsigned.of_uint_alt. lia.
Qed.

Lemma numeral_head (digits : string) (n : Z) :
  nonnegative_integer digits n →
  ∃ c rest k,
    digits = String c rest ∧ digit_value c = Some k ∧ is_digit c
    ∧ parse_digits 0 digits = parse_digits k rest.
Proof.
  intros (Hne & u & Hu & _). destruct digits as [| c rest]; [done |].
  simpl in Hu. destruct (NilEmpty.uint_of_string rest) as [u' |]; [| discriminate].
  assert (Hk : ∃ k, digit_value c = Some k).
  { apply uint_of_char_spec in Hu.
    destruct Hu as [[-> _] | [[-> _] | [[-> _] | [[-> _] | [[-> _] | [[-> _]
      | [[-> _] | [[-> _] | [[-> _] | [-> _]]]]]]]]]]; by eexists. }
  destruct Hk as (k & Hk). exists c, rest, k.
  split; [done |]. split; [done |]. split; [by apply (digit_value_spec c k) |].
  simpl. rewrite Hk. f_equal; lia.
Qed.

Lemma parseInt10_numeral (ws sign digits tail : string) (n : Z) :
  (∀ c, c ∈ list_ascii_of_string ws → is_white_space c) →
  sign ∈ [""; "+"; "-"] →
  nonnegative_integer digits n →
  no_leading_digit tail →
  parseInt10 (ws ++ sign ++ digits ++ tail) = Some (if String.eqb sign "-" then - n else n).
Proof.
  intros Hws Hsign Hn Htail.
  pose proof (parse_digits_value digits n Hn) as Hvalue.
  destruct (numeral_head digits n Hn) as (c & rest & k & -> & Hk & Hc & Hhead).
  destruct Hn as (_ & u & Hu & _).
  pose proof (parse_digits_app (String c rest) u tail Hu Htail 0) as Happ.
  change (String c rest ++ tail) with (String c (rest ++ tail)) in *.
  assert (Hrest : parse_digits k (rest ++ tail) = n).
  { simpl in Happ, Hvalue. rewrite Hk in Happ, Hvalue.
    replace (10 * 0 + k) with k in Happ, Hvalue by lia. congruence. }
  destruct (is_digit_spec c Hc) as (_ & Hw & Hminus & Hplus).
  unfold parseInt10. rewrite trim_start_app by done.
  rewrite !elem_of_cons in Hsign.
  destruct Hsign as [-> | [-> | [-> | Hnil]]]; [| | | by apply elem_of_nil in Hnil].
  - change ("" ++ String c (rest ++ tail)) with (String c (rest ++ tail)).
    simpl trim_start. rewrite Hw. rewrite read_sign_unsigned by done.
    rewrite Hk, Hrest. simpl. f_equal; lia.
  - change ("+" ++ String c (rest ++ tail)) with (String "+" (String c (rest ++ tail))).
    simpl. rewrite Hk, Hrest. f_equal; lia.
  - change ("-" ++ String c (rest ++ tail)) with (String "-" (String c (rest ++ tail))).
    simpl. rewrite Hk, Hrest. f_equal; lia.
Qed.

(** X17: the TTL that the worker reads from CACHE_TTL is the signed value of
    the leading numeral: leading white space is skipped, one sign is read, and
    whatever follows the digits is ignored.  A negative TTL is used as it is
    and not replaced by the default. *)
Theorem cacheTtl_leading_numeral (env : Env) (ws sign digits tail : string) (n : Z) :
  CACHE_TTL env = ws ++ sign ++ digits ++ tail →
  (∀ c, c ∈ list_ascii_of_string ws → is_white_space c) →
  sign ∈ [""; "+"; "-"] →
  nonnegative_integer digits n →
  n ≤ Number_MAX_SAFE_INTEGER →
  no_leading_digit tail →
  cacheTtl env = (if String.eqb sign "-" then - n else n)
  ∧ get "cache-control" (headers (buildResultsResponse (JArray []) None (cacheTtl env)))
    = Some (cache_control (if String.eqb sign "-" then - n else n)).
Proof.
  intros Heq Hws Hsign Hn _ Htail.
  assert (Ht : cacheTtl env = if String.eqb sign "-" then - n else n).
  { apply cacheTtl_number. rewrite Heq. by apply parseInt10_numeral. }
  by rewrite Ht.
Qed.

(** X17, witness: a tab, a minus sign, 90 and a unit. *)
Lemma cacheTtl_leading_numeral_witness :
  cacheTtl {| MONGODB_URI := ""; DOMAIN := "";
              CACHE_TTL := String (ascii_of_N 9) "-90 seconds" |} = -90
  ∧ get "cache-control"
      (headers (buildResultsResponse (JArray []) None
                  (cacheTtl {| MONGODB_URI := ""; DOMAIN := "";
                               CACHE_TTL := String (ascii_of_N 9) "-90 seconds" |})))
    = Some (cache_control (-90)).
Proof.
  apply (cacheTtl_leading_numeral
           {| MONGODB_URI := ""; DOMAIN := "";
              CACHE_TTL := String (ascii_of_N 9) "-90 seconds" |}
           (String (ascii_of_N 9) "") "-" "90" " seconds" 90).
  - reflexivity.
  - intros c Hc. simpl in Hc. apply list_elem_of_singleton in Hc as ->.
    unfold is_white_space. simpl. in_list.
  - in_list.
  - split; [discriminate |]. eexists. split; reflexivity.
  - unfold Number_MAX_SAFE_INTEGER. lia.
  - right. exists " "%char, "seconds". split; [reflexivity |].
    unfold is_digit. simpl. lia.
Defined.

(** * The data-API variant *)

(** ** [encodeURIComponent] *)

Ltac div_lia := zify; Z.to_euclidean_division_equations; lia.

(** Turns a boolean test on numbers into the inequalities it stands for. *)
Ltac bool_to_Prop H :=
  repeat first
    [ rewrite orb_true_iff in H | rewrite andb_true_iff in H
    | rewrite orb_false_iff in H | rewrite andb_false_iff in H
    | rewrite N.leb_le in H | rewrite N.ltb_lt in H | rewrite N.eqb_eq in H
    | rewrite N.leb_gt in H | rewrite N.ltb_ge in H | rewrite N.eqb_neq in H ].

Lemma string_app_assoc (s t u : string) : (s ++ t) ++ u = s ++ t ++ u.
Proof.
  induction s as [| c s IH]; [done |].
  change (String c ((s ++ t) ++ u) = String c (s ++ t ++ u)). by rewrite IH.
Qed.

Lemma list_ascii_of_string_app (s t : string) :
  list_ascii_of_string (s ++ t)
  = (list_ascii_of_string s ++ list_ascii_of_string t)%list.
Proof.
  induction s as [| c s IH]; [done |].
  change (String c s ++ t) with (String c (s ++ t)). simpl. by rewrite IH.
Qed.

Lemma uriUnescaped_ascii (u : N) : uriUnescaped u = true → (u < 128)%N ∧ u ≠ 37%N.
Proof. unfold uriUnescaped. intros H. bool_to_Prop H. lia. Qed.

Lemma hex_value_HEX_digit (n : N) : (n < 16)%N → hex_value (HEX_digit n) = n.
Proof.
  intros Hn. destruct n as [| p]; [reflexivity |].
  do 4 (destruct p as [p | p |]; try reflexivity); lia.
Qed.

Lemma HEX_digit_safe (n : N) : uri_safe (HEX_digit n) = true.
Proof.
  destruct n as [| p]; [reflexivity |].
  do 4 (destruct p as [p | p |]; try reflexivity).
Qed.

Lemma read_octet_percent (b : N) (rest : string) :
  (b < 256)%N → read_octet (percent_octet b ++ rest) = Some (b, rest).
Proof.
  intros Hb.
  change (read_octet (percent_octet b ++ rest))
    with (Some ((hex_value (HEX_digit (b / 16)) * 16 + hex_value (HEX_digit (b mod 16)))%N,
                rest)).
  rewrite !hex_value_HEX_digit by div_lia. f_equal. f_equal. div_lia.
Qed.

Lemma escape_cons (b : N) (octets : list N) (rest : string) :
  escape (b :: octets) ++ rest = percent_octet b ++ escape octets ++ rest.
Proof. unfold escape. simpl. apply string_app_assoc. Qed.

(** What [decode_escaped] reads from the escaped octets of a code point. *)
Lemma decode_escaped_escape (cp : N) (rest : string) :
  (cp < 1114112)%N →
  decode_escaped (escape (utf8_octets cp) ++ rest) = Some (cp, rest).
Proof.
  intros Hcp. unfold utf8_octets, decode_escaped.
  destruct (N.ltb_spec cp 128) as [H1 | H1].
  { rewrite escape_cons, read_octet_percent by lia. cbn [mbind option_bind].
    by destruct (N.ltb_spec cp 128); [| lia]. }
  destruct (N.ltb_spec cp 2048) as [H2 | H2].
  { rewrite !escape_cons, read_octet_percent by div_lia. cbn [mbind option_bind].
    destruct (N.ltb_spec (192 + cp / 64) 128); [div_lia |].
    rewrite read_octet_percent by div_lia. cbn [mbind option_bind].
    destruct (N.ltb_spec (192 + cp / 64) 224); [| div_lia].
    f_equal. f_equal. div_lia. }
  destruct (N.ltb_spec cp 65536) as [H3 | H3].
  { rewrite !escape_cons, read_octet_percent by div_lia. cbn [mbind option_bind].
    destruct (N.ltb_spec (224 + cp / 4096) 128); [div_lia |].
    rewrite read_octet_percent by div_lia. cbn [mbind option_bind].
    destruct (N.ltb_spec (224 + cp / 4096) 224); [div_lia |].
    rewrite read_octet_percent by div_lia. cbn [mbind option_bind].
    destruct (N.ltb_spec (224 + cp / 4096) 240); [| div_lia].
    f_equal. f_equal. div_lia. }
  rewrite !escape_cons, read_octet_percent by div_lia. cbn [mbind option_bind].
  destruct (N.ltb_spec (240 + cp / 262144) 128); [div_lia |].
  rewrite read_octet_percent by div_lia. cbn [mbind option_bind].
  destruct (N.ltb_spec (240 + cp / 262144) 224); [div_lia |].
  rewrite read_octet_percent by div_lia. cbn [mbind option_bind].
  destruct (N.ltb_spec (240 + cp / 262144) 240); [div_lia |].
  rewrite read_octet_percent by div_lia. cbn [mbind option_bind].
  f_equal. f_equal. div_lia.
Qed.


Lemma decode_head_escape (cp : N) (rest : string) :
  (cp < 1114112)%N →
  decode_head (escape (utf8_octets cp) ++ rest) = Some (cp, rest).
Proof.
  intros Hcp. rewrite <- (decode_escaped_escape cp rest Hcp).
  unfold utf8_octets.
  destruct (cp <? 128)%N; [reflexivity |].
  destruct (cp <? 2048)%N; [reflexivity |].
  destruct (cp <? 65536)%N; reflexivity.
Qed.

Lemma decode_head_unescaped (u : N) (rest : string) :
  uriUnescaped u = true → decode_head (String (ascii_of_N u) rest) = Some (u, rest).
Proof.
  intros Hu. destruct (uriUnescaped_ascii u Hu) as [Hlt Hne].
  unfold decode_head.
  destruct (Ascii.eqb_spec (ascii_of_N u) "%") as [He | He].
  - exfalso. apply Hne. rewrite <- (N_ascii_embedding u) by lia. by rewrite He.
  - by rewrite N_ascii_embedding by lia.
Qed.

(** The three ways in which the encoding of a non-empty string starts. *)
Lemma encodeURIComponent_cons (u : N) (rest : list N) (s : string) :
  encodeURIComponent (u :: rest) = Return s →
  (uriUnescaped u = true
   ∧ ∃ s', encodeURIComponent rest = Return s' ∧ s = String (ascii_of_N u) s')
  ∨ (uriUnescaped u = false ∧ is_trailing_surrogate u = false
     ∧ is_leading_surrogate u = false
     ∧ ∃ s', encodeURIComponent rest = Return s' ∧ s = escape (utf8_octets u) ++ s')
  ∨ (uriUnescaped u = false ∧ is_leading_surrogate u = true
     ∧ ∃ trail rest' s',
         rest = trail :: rest' ∧ is_trailing_surrogate trail = true
         ∧ encodeURIComponent rest' = Return s'
         ∧ s = escape (utf8_octets (UTF16SurrogatePairToCodePoint u trail)) ++ s').
Proof.
  cbn [encodeURIComponent].
  destruct (uriUnescaped u).
  { destruct (encodeURIComponent rest) as [s' |]; [| discriminate].
    intros [= <-]. left. split; [done |]. by exists s'. }
  destruct (is_trailing_surrogate u); [discriminate |].
  destruct (is_leading_surrogate u).
  - destruct rest as [| trail rest']; [discriminate |].
    destruct (is_trailing_surrogate trail) eqn:Ht; [| discriminate].
    destruct (encodeURIComponent rest') as [s' |] eqn:Hs'; [| discriminate].
    intros [= <-]. right. right. split; [done |]. split; [done |].
    by exists trail, rest', s'.
  - destruct (encodeURIComponent rest) as [s' |]; [| discriminate].
    intros [= <-]. right. left. split; [done |]. split; [done |]. split; [done |].
    by exists s'.
Qed.

(** The code point that the encoding of a non-empty string starts with: a
    code unit that is no surrogate, or the code point of a surrogate pair. *)
Lemma encodeURIComponent_head (u : N) (rest : list N) (s : string) :
  Forall code_unit (u :: rest) →
  encodeURIComponent (u :: rest) = Return s →
  ∃ cp rest' s',
    decode_head s = Some (cp, s')
    ∧ encodeURIComponent rest' = Return s'
    ∧ (length rest' ≤ length rest)%nat
    ∧ Forall code_unit rest'
    ∧ ((cp < 65536)%N ∧ cp = u ∧ rest = rest'
       ∨ (65536 ≤ cp)%N
         ∧ ∃ trail,
             rest = trail :: rest'
             ∧ cp = UTF16SurrogatePairToCodePoint u trail
             ∧ is_leading_surrogate u = true ∧ is_trailing_surrogate trail = true).
Proof.
  intros Hunits He. apply Forall_cons in Hunits as [Hu Hrest]. unfold code_unit in Hu.
  destruct (encodeURIComponent_cons u rest s He)
    as [(Hun & s' & Hs' & ->)
       | [(Hun & Htr & Hld & s' & Hs' & ->)
         | (Hun & Hld & trail & rest' & s' & -> & Htr & Hs' & ->)]].
  - exists u, rest, s'. split; [by apply decode_head_unescaped |].
    split; [done |]. split; [done |]. split; [done |]. left. by repeat split.
  - exists u, rest, s'. split; [apply decode_head_escape; lia |].
    split; [done |]. split; [done |]. split; [done |]. left. by repeat split.
  - apply Forall_cons in Hrest as [Htrail Hrest'].
    unfold is_leading_surrogate in Hld. unfold is_trailing_surrogate in Htr.
    pose proof Hld as Hld'. pose proof Htr as Htr'.
    bool_to_Prop Hld'. bool_to_Prop Htr'.
    exists (UTF16SurrogatePairToCodePoint u trail), rest', s'.
    split; [apply decode_head_escape; unfold UTF16SurrogatePairToCodePoint; lia |].
    split; [done |]. split; [simpl; lia |]. split; [done |].
    right. split; [unfold UTF16SurrogatePairToCodePoint; lia |].
    exists trail. by repeat split.
Qed.

Lemma encodeURIComponent_inj_bounded (n : nat) (units1 units2 : list N) (s : string) :
  (length units1 ≤ n)%nat →
  Forall code_unit units1 → Forall code_unit units2 →
  encodeURIComponent units1 = Return s →
  encodeURIComponent units2 = Return s →
  units1 = units2.
Proof.
  revert units1 units2 s.
  induction n as [| n IH]; intros [| u1 rest1] [| u2 rest2] s Hlen H1 H2 He1 He2;
    try done; simpl in Hlen; try lia.
  - injection He1 as <-.
    destruct (encodeURIComponent_head u2 rest2 _ H2 He2) as (? & ? & ? & Hd & _).
    discriminate Hd.
  - injection He1 as <-.
    destruct (encodeURIComponent_head u2 rest2 _ H2 He2) as (? & ? & ? & Hd & _).
    discriminate Hd.
  - injection He2 as <-.
    destruct (encodeURIComponent_head u1 rest1 _ H1 He1) as (? & ? & ? & Hd & _).
    discriminate Hd.
  - destruct (encodeURIComponent_head u1 rest1 s H1 He1)
      as (cp1 & rest1' & s1 & Hd1 & Hs1 & Hl1 & Hu1 & Hc1).
    destruct (encodeURIComponent_head u2 rest2 s H2 He2)
      as (cp2 & rest2' & s2 & Hd2 & Hs2 & Hl2 & Hu2 & Hc2).
    rewrite Hd1 in Hd2. injection Hd2 as <- <-.
    assert (Hrest : rest1' = rest2') by (apply (IH rest1' rest2' s1); [lia | done ..]).
    destruct Hc1 as [(Hlt1 & -> & ->) | (Hge1 & trail1 & -> & Hcp1 & Hld1 & Htr1)];
      destruct Hc2 as [(Hlt2 & Heq2 & ->) | (Hge2 & trail2 & -> & Hcp2 & Hld2 & Htr2)].
    + by subst.
    + lia.
    + lia.
    + unfold is_leading_surrogate in Hld1, Hld2.
      unfold is_trailing_surrogate in Htr1, Htr2.
      bool_to_Prop Hld1. bool_to_Prop Hld2. bool_to_Prop Htr1. bool_to_Prop Htr2.
      unfold UTF16SurrogatePairToCodePoint in Hcp1, Hcp2.
      assert (u1 = u2 ∧ trail1 = trail2) as [-> ->] by lia.
      by rewrite Hrest.
Qed.

Lemma encodeURIComponent_inj (units1 units2 : list N) (s : string) :
  Forall code_unit units1 → Forall code_unit units2 →
  encodeURIComponent units1 = Return s →
  encodeURIComponent units2 = Return s →
  units1 = units2.
Proof. by apply (encodeURIComponent_inj_bounded (length units1)). Qed.

(** Induction on a list of code units, one or two at a time. *)
Lemma code_units_ind (P : list N → Prop) :
  P [] →
  (∀ u rest, P rest → (∀ trail rest', rest = trail :: rest' → P rest') → P (u :: rest)) →
  ∀ units, P units.
Proof.
  intros Hnil Hcons units.
  assert (H : P units ∧ ∀ trail rest', units = trail :: rest' → P rest').
  { induction units as [| u rest [IH1 IH2]]; [by split |].
    split; [by apply Hcons |]. by intros trail rest' [= _ <-]. }
  by destruct H.
Qed.

Lemma escape_safe (octets : list N) :
  forallb uri_safe (list_ascii_of_string (escape octets)) = true.
Proof.
  induction octets as [| b octets IH]; [done |].
  change (escape (b :: octets)) with (percent_octet b ++ escape octets).
  rewrite list_ascii_of_string_app, forallb_app, IH. unfold percent_octet. simpl.
  by rewrite !HEX_digit_safe.
Qed.

Lemma encodeURIComponent_safe (units : list N) (s : string) :
  encodeURIComponent units = Return s →
  forallb uri_safe (list_ascii_of_string s) = true.
Proof.
  revert s. induction units as [| u rest IH1 IH2] using code_units_ind; intros s He.
  { by injection He as <-. }
  destruct (encodeURIComponent_cons u rest s He)
    as [(Hun & s' & Hs' & ->)
       | [(Hun & Htr & Hld & s' & Hs' & ->)
         | (Hun & Hld & trail & rest' & s' & -> & Htr & Hs' & ->)]].
  - simpl. rewrite (IH1 s' Hs'), andb_true_r. unfold uri_safe.
    destruct (uriUnescaped_ascii u Hun) as [Hlt _].
    by rewrite N_ascii_embedding, Hun by lia.
  - by rewrite list_ascii_of_string_app, forallb_app, escape_safe, (IH1 s' Hs').
  - by rewrite list_ascii_of_string_app, forallb_app, escape_safe,
      (IH2 trail rest' eq_refl s' Hs').
Qed.

Lemma encodeURIComponent_throws (units : list N) (e : Error) :
  encodeURIComponent units = Throw e → e = URIError.
Proof.
  revert e. induction units as [| u rest IH1 IH2] using code_units_ind; intros e;
    [discriminate |].
  cbn [encodeURIComponent].
  destruct (uriUnescaped u).
  { destruct (encodeURIComponent rest) as [s' | e'] eqn:He; [discriminate |].
    intros [= <-]. by apply IH1. }
  destruct (is_trailing_surrogate u); [by intros [= <-] |].
  destruct (is_leading_surrogate u).
  - destruct rest as [| trail rest']; [by intros [= <-] |].
    destruct (is_trailing_surrogate trail); [| by intros [= <-]].
    destruct (encodeURIComponent rest') as [s' | e'] eqn:He; [discriminate |].
    intros [= <-]. by apply (IH2 trail rest').
  - destruct (encodeURIComponent rest) as [s' | e'] eqn:He; [discriminate |].
    intros [= <-]. by apply IH1.
Qed.

(** A string without surrogates is encoded. *)
Lemma encodeURIComponent_returns (units : list N) :
  Forall (λ u, is_leading_surrogate u = false ∧ is_trailing_surrogate u = false) units →
  ∃ s, encodeURIComponent units = Return s.
Proof.
  induction 1 as [| u rest [Hld Htr] _ [s' IH]]; [by eexists |].
  cbn [encodeURIComponent]. rewrite Hld, Htr, IH.
  destruct (uriUnescaped u); by eexists.
Qed.

Lemma code_units_no_surrogate (s : string) :
  Forall (λ u, is_leading_surrogate u = false ∧ is_trailing_surrogate u = false)
    (code_units s).
Proof.
  unfold code_units. apply Forall_fmap, Forall_forall. intros c _. simpl.
  pose proof (N_ascii_bounded c) as Hc.
  unfold is_leading_surrogate, is_trailing_surrogate.
  split; apply andb_false_iff; left; apply N.leb_gt; lia.
Qed.

(** ** The query string *)

Lemma buildSearchString_shape (searchQuery : DataApi.SearchQuery) :
  DataApi.buildSearchString searchQuery
  = match encodeURIComponent (DataApi.search searchQuery) with
    | Return term =>
        Return ("search=" ++ term ++ "&autocomplete="
                ++ match DataApi.autocomplete searchQuery with Zero => "0" | One => "1" end)
    | Throw e => Throw e
    end.
Proof.
  unfold DataApi.buildSearchString, DataApi.SearchQuery_entries.
  cbn [map_throwing fst snd].
  destruct (encodeURIComponent (DataApi.search searchQuery)) as [term | e]; [| done].
  destruct (DataApi.autocomplete searchQuery); reflexivity.
Qed.

Lemma uri_safe_no_delimiter (s : string) (c : ascii) :
  forallb uri_safe (list_ascii_of_string s) = true →
  c ∈ list_ascii_of_string s →
  c ∉ ["&"; "="; "?"; "#"; "/"; "+"; " "]%char.
Proof.
  intros Hs Hin. rewrite forallb_forall in Hs. apply list_elem_of_In in Hin.
  specialize (Hs c Hin). intros Hbad. rewrite !elem_of_cons in Hbad.
  destruct Hbad as [-> | [-> | [-> | [-> | [-> | [-> | [-> | Hnil]]]]]]];
    try discriminate Hs.
  by apply elem_of_nil in Hnil.
Qed.

(** Two texts without ampersand that are followed by an ampersand. *)
Lemma split_at_ampersand (t1 t2 r1 r2 : string) :
  "&"%char ∉ list_ascii_of_string t1 →
  "&"%char ∉ list_ascii_of_string t2 →
  t1 ++ String "&" r1 = t2 ++ String "&" r2 →
  t1 = t2 ∧ r1 = r2.
Proof.
  revert t2. induction t1 as [| c1 t1 IH]; intros [| c2 t2] H1 H2 Heq.
  - by injection Heq.
  - exfalso. injection Heq as <- _. apply H2. simpl. apply list_elem_of_here.
  - exfalso. injection Heq as -> _. apply H1. simpl. apply list_elem_of_here.
  - change (String c1 (t1 ++ String "&" r1) = String c2 (t2 ++ String "&" r2)) in Heq.
    injection Heq as -> Heq. simpl in H1, H2.
    apply not_elem_of_cons in H1 as [_ H1]. apply not_elem_of_cons in H2 as [_ H2].
    by destruct (IH t2 H1 H2 Heq) as [-> ->].
Qed.

Lemma ampersand_not_safe (s : string) :
  forallb uri_safe (list_ascii_of_string s) = true → "&"%char ∉ list_ascii_of_string s.
Proof.
  intros Hs Hin. apply (uri_safe_no_delimiter s "&"%char Hs Hin). apply list_elem_of_here.
Qed.

(** X18: the query string cannot be broken by the term.  When
    [buildSearchString] returns, the text is search= with the encoded term,
    then &autocomplete= with 0 or 1, and the encoded term holds no ampersand,
    equals sign, question mark, hash, slash, plus or space, whatever the code
    units of the term: the term can neither add a parameter nor end the query
    string.  It throws only the URIError of [encodeURIComponent] on the term,
    and it returns for every term without surrogates. *)
Theorem buildSearchString_well_formed (searchQuery : DataApi.SearchQuery) :
  (∀ text,
     DataApi.buildSearchString searchQuery = Return text →
     ∃ term flag,
       encodeURIComponent (DataApi.search searchQuery) = Return term
       ∧ text = "search=" ++ term ++ "&autocomplete=" ++ flag
       ∧ flag ∈ ["0"; "1"]
       ∧ ∀ c, c ∈ list_ascii_of_string term → c ∉ ["&"; "="; "?"; "#"; "/"; "+"; " "]%char)
  ∧ (∀ e,
       DataApi.buildSearchString searchQuery = Throw e →
       e = URIError ∧ encodeURIComponent (DataApi.search searchQuery) = Throw URIError)
  ∧ (Forall (λ u, is_leading_surrogate u = false ∧ is_trailing_surrogate u = false)
       (DataApi.search searchQuery) →
     ∃ text, DataApi.buildSearchString searchQuery = Return text).
Proof.
  rewrite buildSearchString_shape. split; [| split].
  - intros text Ht.
    destruct (encodeURIComponent (DataApi.search searchQuery)) as [term | e] eqn:He;
      [| discriminate].
    injection Ht as <-.
    exists term, (match DataApi.autocomplete searchQuery with Zero => "0" | One => "1" end).
    split; [done |]. split; [done |]. split.
    + destruct (DataApi.autocomplete searchQuery); in_list.
    + intros c. apply uri_safe_no_delimiter. by apply (encodeURIComponent_safe _ _ He).
  - intros e Ht.
    destruct (encodeURIComponent (DataApi.search searchQuery)) as [term | e'] eqn:He;
      [discriminate |].
    injection Ht as <-. pose proof (encodeURIComponent_throws _ _ He) as ->. done.
  - intros Hs. destruct (encodeURIComponent_returns _ Hs) as (term & ->). by eexists.
Qed.

(** X18, witness: a term of eight code units: four letters of which three
    are wide, an ampersand, an equals sign, and a surrogate pair. *)
Lemma buildSearchString_well_formed_witness :
  ∃ term flag,
    encodeURIComponent [321; 243; 100; 378; 38; 61; 55357; 56832]%N = Return term
    ∧ "search=%C5%81%C3%B3d%C5%BA%26%3D%F0%9F%98%80&autocomplete=1"
      = "search=" ++ term ++ "&autocomplete=" ++ flag
    ∧ flag ∈ ["0"; "1"]
    ∧ ∀ c, c ∈ list_ascii_of_string term → c ∉ ["&"; "="; "?"; "#"; "/"; "+"; " "]%char.
Proof.
  apply (proj1 (buildSearchString_well_formed
                  {| DataApi.search := [321; 243; 100; 378; 38; 61; 55357; 56832]%N;
                     DataApi.autocomplete := One |})).
  reflexivity.
Defined.

(** X19: the query string tells the search queries apart: two search queries
    that differ, in a code unit of the term or in the flag, have different
    query strings. *)
Theorem buildSearchString_injective (searchQuery1 searchQuery2 : DataApi.SearchQuery)
    (text1 text2 : string) :
  Forall code_unit (DataApi.search searchQuery1) →
  Forall code_unit (DataApi.search searchQuery2) →
  DataApi.buildSearchString searchQuery1 = Return text1 →
  DataApi.buildSearchString searchQuery2 = Return text2 →
  searchQuery1 ≠ searchQuery2 →
  text1 ≠ text2.
Proof.
  intros Hu1 Hu2 Ht1 Ht2 Hne <-. apply Hne.
  rewrite buildSearchString_shape in Ht1, Ht2.
  destruct (encodeURIComponent (DataApi.search searchQuery1)) as [term1 |] eqn:He1;
    [| discriminate].
  destruct (encodeURIComponent (DataApi.search searchQuery2)) as [term2 |] eqn:He2;
    [| discriminate].
  injection Ht1 as <-. injection Ht2 as Heq.
  change (?t ++ "&autocomplete=" ++ ?f) with (t ++ String "&" ("autocomplete=" ++ f)) in Heq.
  apply split_at_ampersand in Heq as [-> Hflag];
    [| by apply ampersand_not_safe, (encodeURIComponent_safe _ _ He2)
     | by apply ampersand_not_safe, (encodeURIComponent_safe _ _ He1)].
  pose proof (encodeURIComponent_inj _ _ _ Hu1 Hu2 He1 He2) as Hterm.
  destruct searchQuery1 as [s1 f1], searchQuery2 as [s2 f2]. simpl in *.
  subst. by destruct f1, f2.
Qed.

(** X19, witness: a term with two wide letters and the term with the plain
    letters in their place. *)
Lemma buildSearchString_injective_witness :
  "search=%C5%81%C3%B3d%C5%BA&autocomplete=0" ≠ "search=Lodz&autocomplete=0".
Proof.
  apply (buildSearchString_injective
           {| DataApi.search := [321; 243; 100; 378]%N; DataApi.autocomplete := Zero |}
           {| DataApi.search := code_units "Lodz"; DataApi.autocomplete := Zero |}).
  - repeat constructor.
  - repeat constructor.
  - reflexivity.
  - reflexivity.
  - discriminate.
Defined.

(** ** The handler *)

Lemma api_events_added {A : Type} (m : DataApi.M A) (w : DataApi.World)
    (l : list DataApi.Event) :
  DataApi.trace (m w).2 = (DataApi.trace w ++ l)%list → DataApi.events m w = l.
Proof. intros E. unfold DataApi.events. rewrite E. apply drop_app_length. Qed.

(** The run of a search request, by the outcome of the URL parser, of the
    lookup and of the request to the API. *)
Lemma api_fetch_run (request : Request) (env : DataApi.Env) (w : DataApi.World)
    (url : string) :
  DataApi.search_request request env url →
  let answer := λ r : Response,
    match processResults (Some r) with
    | Return results =>
        Return (buildResultsResponse results
                  (if DataApi.hasValidOrigin request env then Some (DataApi.DOMAIN env)
                   else None)
                  (DataApi.cacheTtl env))
    | Throw e => Throw e
    end in
  let secret := DataApi.MONGODB_API_SECRET env in
  DataApi.fetch request env w
  = match DataApi.Request_url w url with
    | Throw e => (Throw e, DataApi.emit (DataApi.CacheMatch url) w)
    | Return key =>
        match DataApi.cache w !! key with
        | Some cached => (answer cached, DataApi.emit (DataApi.CacheMatch url) w)
        | None =>
            match DataApi.network w url secret with
            | Throw e =>
                (Throw e,
                 DataApi.emit (DataApi.Fetch url secret)
                   (DataApi.emit (DataApi.CacheMatch url) w))
            | Return fetched =>
                (answer fetched,
                 {| DataApi.cache :=
                      if DataApi.keeps w fetched then <[key := fetched]> (DataApi.cache w)
                      else DataApi.cache w;
                    DataApi.Request_url := DataApi.Request_url w;
                    DataApi.keeps := DataApi.keeps w;
                    DataApi.network := DataApi.network w;
                    DataApi.trace :=
                      DataApi.trace w
                      ++ [DataApi.CacheMatch url; DataApi.Fetch url secret;
                          DataApi.CachePut url fetched] |})
            end
        end
    end.
Proof.
  intros (Hm & Hd & Hu) answer secret. unfold DataApi.fetch. rewrite Hm.
  change (String.eqb "GET" "OPTIONS") with false.
  change (negb (existsb (String.eqb "GET") ["GET"; "HEAD"])) with false.
  change (String.eqb "GET" "HEAD") with false.
  cbv iota. rewrite Hd, Hu.
  unfold DataApi.bind at 1. unfold DataApi.pure.
  unfold DataApi.bind at 1. unfold DataApi.cache_match.
  destruct (DataApi.Request_url w url) as [key | e] eqn:Hkey; [| reflexivity].
  destruct (DataApi.cache w !! key) as [cached |] eqn:Hc.
  - unfold DataApi.bind, DataApi.ret, DataApi.throw. subst answer. simpl.
    by destruct (Response_json cached); [destruct (JSON_truthy _) |].
  - unfold DataApi.bind, DataApi.platform_fetch, DataApi.waitUntil_cache_put,
      DataApi.ret, DataApi.throw, DataApi.emit. simpl. fold secret.
    destruct (DataApi.network w url secret) as [fetched | e]; [| by rewrite <- !app_assoc].
    rewrite Hkey. subst answer. simpl. rewrite <- !app_assoc. simpl.
    by destruct (Response_json fetched); [destruct (JSON_truthy _) |].
Qed.

(** X20: the data-API handler turns no failure of a search into a response.
    For a GET request that passed the validation: the error of the URL
    parser on the remote URL is thrown by the lookup; when the lookup misses
    and the request to the API fails, that error is thrown and nothing is
    stored; when the answer of the API or the entry of the cache does not
    parse, Invalid response is thrown.  Whenever such a request is answered,
    the status is 200: there is no 500 response in this variant. *)
Theorem api_failures_are_thrown (request : Request) (env : DataApi.Env)
    (w : DataApi.World) (url : string) :
  DataApi.search_request request env url →
  (∀ e,
     DataApi.Request_url w url = Throw e →
     (DataApi.fetch request env w).1 = Throw e
     ∧ DataApi.events (DataApi.fetch request env) w = [DataApi.CacheMatch url])
  ∧ (∀ key e,
       DataApi.Request_url w url = Return key →
       DataApi.cache w !! key = None →
       DataApi.network w url (DataApi.MONGODB_API_SECRET env) = Throw e →
       (DataApi.fetch request env w).1 = Throw e
       ∧ DataApi.events (DataApi.fetch request env) w
         = [DataApi.CacheMatch url; DataApi.Fetch url (DataApi.MONGODB_API_SECRET env)]
       ∧ DataApi.cache (DataApi.fetch request env w).2 = DataApi.cache w)
  ∧ (∀ key r e,
       DataApi.Request_url w url = Return key →
       DataApi.cache w !! key = Some r
       ∨ (DataApi.cache w !! key = None
          ∧ DataApi.network w url (DataApi.MONGODB_API_SECRET env) = Return r) →
       Response_json r = Throw e →
       (DataApi.fetch request env w).1 = Throw (Error_ "Invalid response"))
  ∧ (∀ response,
       (DataApi.fetch request env w).1 = Return response → status response = 200).
Proof.
  intros Hreq. pose proof (api_fetch_run request env w url Hreq) as Hrun. simpl in Hrun.
  split; [| split; [| split]].
  - intros e He. rewrite He in Hrun. split; [by rewrite Hrun |].
    apply api_events_added. by rewrite Hrun.
  - intros key e Hkey Hc Hn. rewrite Hkey, Hc, Hn in Hrun.
    split; [by rewrite Hrun |]. split; [| by rewrite Hrun].
    apply api_events_added. rewrite Hrun. simpl. by rewrite <- app_assoc.
  - intros key r e Hkey [Hc | [Hc Hn]] Hj.
    + rewrite Hkey, Hc in Hrun. rewrite Hrun. simpl. by rewrite Hj.
    + rewrite Hkey, Hc, Hn in Hrun. rewrite Hrun. simpl. by rewrite Hj.
  - intros response Hr. rewrite Hrun in Hr.
    destruct (DataApi.Request_url w url) as [key |]; [| discriminate].
    destruct (DataApi.cache w !! key) as [cached |].
    + simpl in Hr. destruct (Response_json cached); [| discriminate].
      by injection Hr as <-.
    + destruct (DataApi.network w url _) as [fetched |]; [| discriminate].
      simpl in Hr. destruct (Response_json fetched); [| discriminate].
      by injection Hr as <-.
Qed.

(** X20, witness: the sample search for [paris] with the network down. *)
Lemma api_failures_are_thrown_witness :
  (DataApi.fetch (Sample.GET [("search", "paris")] None) DataApi.sample_env
     DataApi.sample_offline).1
  = Throw (TypeError "Network connection lost")
  ∧ DataApi.events (DataApi.fetch (Sample.GET [("search", "paris")] None) DataApi.sample_env)
      DataApi.sample_offline
    = [ DataApi.CacheMatch "https://data.example/zip?search=paris&autocomplete=0";
        DataApi.Fetch "https://data.example/zip?search=paris&autocomplete=0" "secret" ]
  ∧ DataApi.cache
      (DataApi.fetch (Sample.GET [("search", "paris")] None) DataApi.sample_env
         DataApi.sample_offline).2
    = DataApi.cache DataApi.sample_offline.
Proof.
  apply (proj1 (proj2 (api_failures_are_thrown
                         (Sample.GET [("search", "paris")] None) DataApi.sample_env
                         DataApi.sample_offline
                         "https://data.example/zip?search=paris&autocomplete=0"
                         ltac:(repeat split)))
           "https://data.example/zip?search=paris&autocomplete=0");
    reflexivity.
Defined.

(** X21: an answer of the API that does not parse stays in the way when the
    cache keeps it.  After the miss that fetched it, the answer is the entry
    under the URL of the request; and in every later world in which it is
    still that entry, every search request with the same remote URL throws
    Invalid response after the lookup alone: the API is not asked again. *)
Theorem api_unparsable_answer_is_served_again (request1 : Request) (env1 : DataApi.Env)
    (w : DataApi.World) (url key : string) (fetched : Response) (e : Error) :
  DataApi.search_request request1 env1 url →
  DataApi.Request_url w url = Return key →
  DataApi.cache w !! key = None →
  DataApi.network w url (DataApi.MONGODB_API_SECRET env1) = Return fetched →
  Response_json fetched = Throw e →
  DataApi.keeps w fetched = true →
  DataApi.cache (DataApi.fetch request1 env1 w).2 !! key = Some fetched
  ∧ ∀ (later : DataApi.World) (request2 : Request) (env2 : DataApi.Env),
      DataApi.search_request request2 env2 url →
      DataApi.Request_url later url = Return key →
      DataApi.cache later !! key = Some fetched →
      (DataApi.fetch request2 env2 later).1 = Throw (Error_ "Invalid response")
      ∧ DataApi.events (DataApi.fetch request2 env2) later = [DataApi.CacheMatch url].
Proof.
  intros Hreq Hkey Hc Hn Hj Hk. split.
  - pose proof (api_fetch_run request1 env1 w url Hreq) as Hrun. simpl in Hrun.
    rewrite Hkey, Hc, Hn, Hk in Hrun. rewrite Hrun. simpl. apply lookup_insert_eq.
  - intros later request2 env2 Hreq2 Hkey2 Hc2.
    pose proof (api_fetch_run request2 env2 later url Hreq2) as Hrun. simpl in Hrun.
    rewrite Hkey2, Hc2 in Hrun. rewrite Hj in Hrun.
    split; [by rewrite Hrun |]. apply api_events_added. by rewrite Hrun.
Qed.

(** X21, witness: the search for [lyon], which the sample API answers with a
    page, then the search for [paris], then the search for [lyon] again. *)
Lemma api_unparsable_answer_is_served_again_witness :
  (DataApi.fetch (Sample.GET [("search", "lyon")] (Some "https://zip.example"))
     DataApi.sample_env
     (DataApi.fetch (Sample.GET [("search", "paris")] None) DataApi.sample_env
        (DataApi.fetch (Sample.GET [("search", "lyon")] None) DataApi.sample_env
           DataApi.sample_world).2).2).1
  = Throw (Error_ "Invalid response")
  ∧ DataApi.events
      (DataApi.fetch (Sample.GET [("search", "lyon")] (Some "https://zip.example"))
         DataApi.sample_env)
      (DataApi.fetch (Sample.GET [("search", "paris")] None) DataApi.sample_env
         (DataApi.fetch (Sample.GET [("search", "lyon")] None) DataApi.sample_env
            DataApi.sample_world).2).2
    = [DataApi.CacheMatch "https://data.example/zip?search=lyon&autocomplete=0"].
Proof.
  apply (proj2 (api_unparsable_answer_is_served_again
                  (Sample.GET [("search", "lyon")] None) DataApi.sample_env
                  DataApi.sample_world
                  "https://data.example/zip?search=lyon&autocomplete=0"
                  "https://data.example/zip?search=lyon&autocomplete=0"
                  {| status := 200;
                     body := BodyText "<html>";
                     headers := [("content-type", "text/html");
                                 ("cache-control", "max-age=60")] |}
                  (Error_ "SyntaxError")
                  ltac:(repeat split) eq_refl eq_refl eq_refl eq_refl eq_refl));
    [repeat split | reflexivity | reflexivity].
Defined.

(** X22: the status of the API answer is not looked at.  When the lookup of a
    search request misses and the API answers with a body that parses, the
    request is answered with status 200 and the parsed value as its results
    (the empty list when that value is falsy), whatever the status of the
    answer of the API, an error status included; and the store is attempted
    with the answer as it came. *)
Theorem api_status_is_ignored (request : Request) (env : DataApi.Env) (w : DataApi.World)
    (url key : string) (fetched : Response) (parsed : JSON) :
  DataApi.search_request request env url →
  DataApi.Request_url w url = Return key →
  DataApi.cache w !! key = None →
  DataApi.network w url (DataApi.MONGODB_API_SECRET env) = Return fetched →
  Response_json fetched = Return parsed →
  ∃ response,
    (DataApi.fetch request env w).1 = Return response
    ∧ status response = 200
    ∧ body response
      = BodyJSON (JObject [("results", if JSON_truthy parsed then parsed else JArray [])])
    ∧ DataApi.events (DataApi.fetch request env) w
      = [ DataApi.CacheMatch url;
          DataApi.Fetch url (DataApi.MONGODB_API_SECRET env);
          DataApi.CachePut url fetched ].
Proof.
  intros Hreq Hkey Hc Hn Hj.
  pose proof (api_fetch_run request env w url Hreq) as Hrun. simpl in Hrun.
  rewrite Hkey, Hc, Hn, Hj in Hrun.
  eexists. split; [by rewrite Hrun |]. split; [done |]. split; [done |].
  apply api_events_added. by rewrite Hrun.
Qed.

(** X22, witness: the autocomplete search for [paris], which the sample API
    answers with status 500 and an error object: the worker answers 200 with
    that object as the results. *)
Lemma api_status_is_ignored_witness :
  ∃ response,
    (DataApi.fetch (Sample.GET [("query", "paris")] None) DataApi.sample_env
       DataApi.sample_world).1 = Return response
    ∧ status response = 200
    ∧ body response
      = BodyJSON (JObject [("results", JObject [("error", JString "timeout")])])
    ∧ DataApi.events (DataApi.fetch (Sample.GET [("query", "paris")] None) DataApi.sample_env)
        DataApi.sample_world
      = [ DataApi.CacheMatch "https://data.example/zip?search=paris&autocomplete=1";
          DataApi.Fetch "https://data.example/zip?search=paris&autocomplete=1" "secret";
          DataApi.CachePut "https://data.example/zip?search=paris&autocomplete=1"
            {| status := 500;
               body := BodyJSON (JObject [("error", JString "timeout")]);
               headers := [("content-type", "application/json")] |} ].
Proof.
  apply (api_status_is_ignored
           (Sample.GET [("query", "paris")] None) DataApi.sample_env DataApi.sample_world
           "https://data.example/zip?search=paris&autocomplete=1"
           "https://data.example/zip?search=paris&autocomplete=1"
           {| status := 500;
              body := BodyJSON (JObject [("error", JString "timeout")]);
              headers := [("content-type", "application/json")] |}
           (JObject [("error", JString "timeout")]));
    [repeat split | reflexivity ..].
Defined.

(** X23: in the data-API handler a hit repeats the miss.  When a miss is
    answered and the cache keeps the answer of the API, that answer is the
    entry under the URL of the request; and in every later world in which it
    is still that entry, every search request with the same remote URL is
    answered after the lookup alone, with the status and the body of the
    first answer. *)
Theorem api_hit_repeats_miss (request1 : Request) (env1 : DataApi.Env)
    (w : DataApi.World) (url key : string) (fetched response1 : Response) :
  DataApi.search_request request1 env1 url →
  DataApi.Request_url w url = Return key →
  DataApi.cache w !! key = None →
  DataApi.network w url (DataApi.MONGODB_API_SECRET env1) = Return fetched →
  DataApi.keeps w fetched = true →
  (DataApi.fetch request1 env1 w).1 = Return response1 →
  DataApi.cache (DataApi.fetch request1 env1 w).2 !! key = Some fetched
  ∧ ∀ (later : DataApi.World) (request2 : Request) (env2 : DataApi.Env),
      DataApi.search_request request2 env2 url →
      DataApi.Request_url later url = Return key →
      DataApi.cache later !! key = Some fetched →
      DataApi.events (DataApi.fetch request2 env2) later = [DataApi.CacheMatch url]
      ∧ ∃ response2,
          (DataApi.fetch request2 env2 later).1 = Return response2
          ∧ status response2 = status response1
          ∧ body response2 = body response1.
Proof.
  intros Hreq Hkey Hc Hn Hk Hr.
  pose proof (api_fetch_run request1 env1 w url Hreq) as Hrun. simpl in Hrun.
  rewrite Hkey, Hc, Hn, Hk in Hrun. rewrite Hrun in Hr |- *. simpl in Hr.
  split; [apply lookup_insert_eq |].
  intros later request2 env2 Hreq2 Hkey2 Hc2.
  pose proof (api_fetch_run request2 env2 later url Hreq2) as Hrun2. simpl in Hrun2.
  rewrite Hkey2, Hc2 in Hrun2.
  split; [apply api_events_added; by rewrite Hrun2 |].
  rewrite Hrun2. simpl.
  destruct (Response_json fetched) as [parsed |]; [| discriminate].
  injection Hr as <-. by eexists.
Qed.

(** X23, witness: the full search for [paris], then the search for [lyon],
    then the full search for [paris] from the configured domain. *)
Lemma api_hit_repeats_miss_witness :
  DataApi.events
    (DataApi.fetch (Sample.GET [("search", "paris")] (Some "https://zip.example"))
       DataApi.sample_env)
    (DataApi.fetch (Sample.GET [("search", "lyon")] None) DataApi.sample_env
       (DataApi.fetch (Sample.GET [("search", "paris")] None) DataApi.sample_env
          DataApi.sample_world).2).2
  = [DataApi.CacheMatch "https://data.example/zip?search=paris&autocomplete=0"]
  ∧ ∃ response2,
      (DataApi.fetch (Sample.GET [("search", "paris")] (Some "https://zip.example"))
         DataApi.sample_env
         (DataApi.fetch (Sample.GET [("search", "lyon")] None) DataApi.sample_env
            (DataApi.fetch (Sample.GET [("search", "paris")] None) DataApi.sample_env
               DataApi.sample_world).2).2).1 = Return response2
      ∧ status response2 = 200
      ∧ body response2
        = BodyJSON (JObject [("results",
                              JArray [JObject [("zip", JString "75001");
                                               ("name", JString "Paris")]])]).
Proof.
  apply (proj2 (api_hit_repeats_miss
                  (Sample.GET [("search", "paris")] None) DataApi.sample_env
                  DataApi.sample_world
                  "https://data.example/zip?search=paris&autocomplete=0"
                  "https://data.example/zip?search=paris&autocomplete=0"
                  {| status := 200;
                     body := BodyJSON (JArray [JObject [("zip", JString "75001");
                                                        ("name", JString "Paris")]]);
                     headers := [("content-type", "application/json");
                                 ("cache-control", "max-age=60")] |}
                  (buildResultsResponse
                     (JArray [JObject [("zip", JString "75001"); ("name", JString "Paris")]])
                     None 600)
                  ltac:(repeat split) eq_refl eq_refl eq_refl eq_refl eq_refl));
    [repeat split | reflexivity | reflexivity].
Defined.
